(** * CFRParser: the eCFR hierarchy walker and its Markdown renderer

    A shallow embedding of [CFRParser.py] and [CFRToMd.py].

    Python values are modelled as follows.
    - [str] is a [string] holding the UTF-8 bytes of the text, so that
      [urllib.parse.quote], which works on the UTF-8 bytes, is a map over
      the characters of the [string].
    - [int] is [Z]; an f-string prints it in decimal ([pretty]).
    - [None] where a string may stand is [option string].
    - a [dict] whose order of keys shows in the output (the metadata and
      the result written as JSON) is an association list.
    - a parsed XML tree is the inductive type [tag]; the operations of
      BeautifulSoup used by the program ([find], [find_all], [.string],
      [tag[key]]) are functions on it.  The parser itself is a parameter
      of [fetch_and_parse_cfr_xml].
    - the file system, the standard output and the HTTP exchanges are the
      fields of a [World] threaded through an exception-and-state monad;
      an exception keeps the world reached when it was raised.

    The libraries are modelled as far as the program uses them:
    [urllib.parse.quote] with its default arguments, [json.dumps] with
    [indent] on strings, integers, [None] and dictionaries, [pathlib] on
    relative paths in a tree without symbolic links, [requests] as an
    oracle that answers each request from the requests made before. *)

From stdpp Require Import gmap strings list fin_maps pretty.
From Stdlib Require Import ZArith Ascii String.

Local Open Scope Z_scope.

Set Warnings "-register-all".

#[local] Arguments String.append !s1 s2 / : simpl nomatch.

(** ** Strings *)

Module Str.

(** [sep.join(parts)] *)
Fixpoint join (sep : string) (parts : list string) : string :=
  match parts with
  | [] => ""
  | [p] => p
  | p :: rest => p +:+ sep +:+ join sep rest
  end.

(** [s.startswith(p)] and [s.endswith(p)], as propositions. *)
Definition starts_with (p s : string) : Prop := ∃ r, s = p +:+ r.
Definition ends_with (p s : string) : Prop := ∃ r, s = r +:+ p.

(** [p in s] for strings. *)
Definition contains (p s : string) : Prop := ∃ a b, s = a +:+ p +:+ b.

(** The characters of a string. *)
Definition chars (s : string) : list ascii := list_ascii_of_string s.

(** [s.split(sep)] for a separator of one character. *)
Fixpoint split (sep : ascii) (s : string) : list string :=
  match s with
  | EmptyString => [""%string]
  | String c r =>
      if Ascii.eqb c sep then ""%string :: split sep r
      else match split sep r with
           | [] => [String c ""]
           | w :: ws => String c w :: ws
           end
  end.

End Str.

(** ** [urllib.parse.quote]

    [quote(string)] with its default arguments: the string is encoded to
    UTF-8 and every byte outside the unreserved set and outside
    [safe = "/"] becomes [%XX] with two upper-case hexadecimal digits. *)

Module Quote.

Definition in_range (lo hi : N) (c : ascii) : bool :=
  let n := N_of_ascii c in (lo <=? n)%N && (n <=? hi)%N.

(** [_ALWAYS_SAFE]: letters, digits and [_.-~]. *)
Definition always_safe (c : ascii) : bool :=
  in_range 65 90 c || in_range 97 122 c || in_range 48 57 c
  || Ascii.eqb c "_" || Ascii.eqb c "." || Ascii.eqb c "-" || Ascii.eqb c "~".

(** The bytes [quote] keeps: [_ALWAYS_SAFE] and the default [safe="/"]. *)
Definition is_safe (c : ascii) : bool := always_safe c || Ascii.eqb c "/".

(** One upper-case hexadecimal digit. *)
Definition hex_upper (n : N) : ascii :=
  if (n <? 10)%N then ascii_of_N (48 + n) else ascii_of_N (55 + n).

(** ['%{:02X}'.format(byte)] *)
Definition percent (c : ascii) : string :=
  let n := N_of_ascii c in
  String "%" (String (hex_upper (n / 16)) (String (hex_upper (n mod 16)) "")).

Definition quoter (c : ascii) : string :=
  if is_safe c then String c "" else percent c.

Fixpoint quote (s : string) : string :=
  match s with
  | EmptyString => ""
  | String c r => quoter c +:+ quote r
  end.

(** The value of a hexadecimal digit, used to read [%XX] back. *)
Definition hex_value (c : ascii) : N :=
  let n := N_of_ascii c in
  if (n <? 58)%N then (n - 48)%N else (n - 55)%N.

Definition unpercent (hi lo : ascii) : ascii :=
  ascii_of_N (16 * hex_value hi + hex_value lo).

End Quote.

Import Quote.

(** ** Deep links (CFRParser.py, lines 19-61) *)

Definition get_ecfr_link_to_appendix
    (title_num : Z) (subtitle_num chapter_num part_num subpart_num
     appendix_num : string) : string :=
  "https://www.ecfr.gov/current/title-" +:+ pretty title_num +:+ "/subtitle-"
  +:+ subtitle_num +:+ "/chapter-" +:+ chapter_num +:+ "/part-" +:+ part_num
  +:+ "/subpart-" +:+ subpart_num +:+ "/appendix-" +:+ quote appendix_num.

Definition get_ecfr_link_to_section
    (title_num : Z) (subtitle_num chapter_num part_num subpart_num
     section_num : string) : string :=
  "https://www.ecfr.gov/current/title-" +:+ pretty title_num +:+ "/subtitle-"
  +:+ subtitle_num +:+ "/chapter-" +:+ chapter_num +:+ "/part-" +:+ part_num
  +:+ "/subpart-" +:+ subpart_num +:+ "/section-" +:+ quote section_num.

(** * The parsed document (BeautifulSoup)

    A [Tag] has a name, a dictionary of attributes and a list of children;
    a child is a tag or a text ([NavigableString]).  The [BeautifulSoup]
    object returned by the parser is itself a tag, named [[document]]. *)

Inductive tag : Type :=
  | Tag (name : string) (attrs : gmap string string) (contents : list node)
with node : Type :=
  | Element (t : tag)
  | NavigableString (s : string).

Coercion Element : tag >-> node.

Module Soup.

Definition name (t : tag) : string := let 'Tag n _ _ := t in n.
Definition attrs (t : tag) : gmap string string := let 'Tag _ a _ := t in a.
Definition contents (t : tag) : list node := let 'Tag _ _ c := t in c.

(** [tag.descendants] restricted to tags: every tag below [t], in document
    order (a tag comes before the tags it contains). *)
Fixpoint descendants (t : tag) : list tag :=
  match t with
  | Tag _ _ cs =>
      flat_map (fun c => match c with
                         | Element t' => t' :: descendants t'
                         | NavigableString _ => []
                         end) cs
  end.

(** [tag.find_all(name)]: the search is recursive by default. *)
Definition find_all (nm : string) (t : tag) : list tag :=
  filter (fun d => name d = nm) (descendants t).

(** [tag.find(name)], which is also what [tag.NAME] stands for: the first
    tag of [find_all], or [None]. *)
Definition find (nm : string) (t : tag) : option tag := head (find_all nm t).

(** [tag.string]: the only child when it is a text, the [.string] of the
    only child when it is a tag, [None] when there is not exactly one
    child. *)
Fixpoint string_of (t : tag) : option string :=
  match t with
  | Tag _ _ [NavigableString s] => Some s
  | Tag _ _ [Element t'] => string_of t'
  | Tag _ _ _ => None
  end.

End Soup.

(** ** Formatting in f-strings *)

(** The line feed, written [\n] in the source. *)
Definition LF : string := String "010" "".

(** [f"{v}"] for a value that is a string or [None]. *)
Definition py_str (v : option string) : string :=
  match v with
  | Some s => s
  | None => "None"
  end.

(** The truth value of [v] when [v] is a string or [None]. *)
Definition py_truthy (v : option string) : bool :=
  match v with
  | Some EmptyString | None => false
  | Some _ => true
  end.

(** * The node renderer (CFRToMd.py)

    A tag is always true in a condition (BeautifulSoup defines [__bool__]
    so), hence [element.HEAD.string if element.HEAD else ...] takes the
    second branch exactly when [find] returns [None]. *)

Module CFRToMd.

(** Line 15. *)
Definition title (element : tag) : option string :=
  match Soup.find "HEAD" element with
  | Some head => Soup.string_of head
  | None => Some "NO TITLE"%string
  end.

(** Lines 16-21. *)
Definition paragraphs (element : tag) : list string :=
  map (fun p => if py_truthy (Soup.string_of p)
                then py_str (Soup.string_of p) else LF)
      (Soup.find_all "P" element).

(** Line 22. *)
Definition text (element : tag) : string := Str.join LF (paragraphs element).

(** Line 23. *)
Definition citation (element : tag) : option string :=
  match Soup.find "CITA" element with
  | Some cita => Soup.string_of cita
  | None => Some "NO CITE"%string
  end.

(** Lines 25-31: the template, whose lines are indented by four spaces
    and whose lines 27 and 29 hold four spaces. *)
Definition process_cfr_xml_element (element : tag) : string :=
  LF +:+ "    # " +:+ py_str (title element) +:+ LF
  +:+ "    " +:+ LF
  +:+ "    " +:+ text element +:+ LF
  +:+ "    " +:+ LF
  +:+ "    **" +:+ py_str (citation element) +:+ "**" +:+ LF
  +:+ "    ".

End CFRToMd.

Import CFRToMd.

(** * JSON ([json.dumps])

    The values the program serialises: [None], an [int], a [str] and a
    [dict] with string keys, in insertion order. *)

Inductive json : Type :=
  | JNull
  | JNum (z : Z)
  | JStr (s : string)
  | JObj (items : list (string * json)).

Module Json.

(** [dict[key]] read as an option. *)
Fixpoint lookup (key : string) (items : list (string * json)) : option json :=
  match items with
  | [] => None
  | (k, v) :: rest => if String.eqb k key then Some v else lookup key rest
  end.

(** [obj[key]] when [obj] is a dictionary. *)
Definition get (key : string) (obj : json) : option json :=
  match obj with
  | JObj items => lookup key items
  | _ => None
  end.

Definition keys (obj : json) : list string :=
  match obj with
  | JObj items => fst <$> items
  | _ => []
  end.

(** The code points of a text stored as UTF-8 bytes.  A byte sequence that
    is not UTF-8 stands for no Python string; a stray byte is read as the
    code point of the same number. *)
Definition cont (c : ascii) : N := N.land (N_of_ascii c) 63.

Fixpoint code_points (s : string) : list N :=
  match s with
  | EmptyString => []
  | String c r =>
      let b := N_of_ascii c in
      if (b <? 128)%N then b :: code_points r
      else if (b <? 224)%N then
        match r with
        | String c1 r1 =>
            N.lor (N.shiftl (N.land b 31) 6) (cont c1) :: code_points r1
        | _ => b :: code_points r
        end
      else if (b <? 240)%N then
        match r with
        | String c1 (String c2 r2) =>
            N.lor (N.shiftl (N.land b 15) 12)
              (N.lor (N.shiftl (cont c1) 6) (cont c2)) :: code_points r2
        | _ => b :: code_points r
        end
      else
        match r with
        | String c1 (String c2 (String c3 r3)) =>
            N.lor (N.shiftl (N.land b 7) 18)
              (N.lor (N.shiftl (cont c1) 12)
                 (N.lor (N.shiftl (cont c2) 6) (cont c3))) :: code_points r3
        | _ => b :: code_points r
        end
  end.

(** The double quote. *)
Definition DQUOTE : ascii := "034".

Definition hex_lower (n : N) : ascii :=
  if (n <? 10)%N then ascii_of_N (48 + n) else ascii_of_N (87 + n).

(** ['\\u{0:04x}'.format(n)] for [n < 0x10000]. *)
Definition u_escape (n : N) : string :=
  String "\" (String "u"
    (String (hex_lower (N.land (N.shiftr n 12) 15))
      (String (hex_lower (N.land (N.shiftr n 8) 15))
        (String (hex_lower (N.land (N.shiftr n 4) 15))
          (String (hex_lower (N.land n 15)) ""))))).

(** The replacement [py_encode_basestring_ascii] makes for one code point:
    the table [ESCAPE_DCT], the character itself from the space to the
    tilde, and [\uXXXX] (a surrogate pair above the basic plane). *)
Definition escape (n : N) : string :=
  if (n =? 92)%N then "\\"
  else if (n =? 34)%N then String "\" (String DQUOTE "")
  else if (n =? 8)%N then "\b"
  else if (n =? 12)%N then "\f"
  else if (n =? 10)%N then "\n"
  else if (n =? 13)%N then "\r"
  else if (n =? 9)%N then "\t"
  else if (32 <=? n)%N && (n <=? 126)%N then String (ascii_of_N n) ""
  else if (n <? 65536)%N then u_escape n
  else
    let m := (n - 65536)%N in
    u_escape (N.lor 55296 (N.land (N.shiftr m 10) 1023))
    +:+ u_escape (N.lor 56320 (N.land m 1023)).

Definition encode_string (s : string) : string :=
  String DQUOTE (fold_right (fun n acc => escape n +:+ acc)
                   (String DQUOTE "") (code_points s)).

Fixpoint spaces (n : nat) : string :=
  match n with
  | O => ""
  | S k => String " " (spaces k)
  end.

(** The encoder of [json.dumps(obj, indent=indent)] at nesting depth
    [level]: items on lines of their own, separated by [","], keys
    followed by [": "], and [{}] for an empty dictionary. *)
Fixpoint encode (indent level : nat) (v : json) : string :=
  match v with
  | JNull => "null"
  | JNum z => pretty z
  | JStr s => encode_string s
  | JObj [] => "{}"
  | JObj items =>
      let newline_indent := LF +:+ spaces (indent * S level) in
      "{" +:+ newline_indent
      +:+ Str.join ("," +:+ newline_indent)
            (map (fun kv => encode_string (fst kv) +:+ ": "
                            +:+ encode indent (S level) (snd kv)) items)
      +:+ LF +:+ spaces (indent * level) +:+ "}"
  end.

Definition dumps (obj : json) (indent : nat) : string := encode indent 0 obj.

End Json.

(** * Paths and the file system ([pathlib])

    A [Path] is the list of its parts.  Every path of the program is
    relative (its text starts with [./]); building a path drops the empty
    parts and the parts [.], as [pathlib] does, and keeps a part [..].  The
    modelled tree has no symbolic link, and names are looked up as they
    are written: a part [..] is not resolved against the directories on
    the way.  The model is that of the file system for the paths without
    such a part, and the theorems on the content of files are stated for
    them: for codes without [/], or for paths that are [literal]. *)

Abbreviation Path := (list string).

Module Pathlib.

Definition is_part (c : string) : bool :=
  negb (String.eqb c "") && negb (String.eqb c ".").

(** [Path(s)] *)
Definition mk (s : string) : Path := List.filter is_part (Str.split "/" s).

(** [path.parent]; the parent of [Path(".")] is itself. *)
Definition parent (p : Path) : Path := removelast p.

(** The paths on the way from the working directory to [p], both apart:
    [a] and [a/b] for [a/b/c]. *)
Definition ancestors (p : Path) : list Path :=
  map (fun n => take n p) (seq 1 (List.length p - 1)).

End Pathlib.

Inductive exn : Type :=
  | KeyError (key : string)
  | AttributeError (attr : string)
  | TypeError
  | HTTPError (status : Z)
  | RequestException
  | JSONDecodeError
  | FileExistsError (p : Path)
  | FileNotFoundError (p : Path)
  | NotADirectoryError (p : Path)
  | IsADirectoryError (p : Path).

(** The outcome of a call: a value, or an exception on its way up. *)
Inductive result (A : Type) : Type :=
  | Ret (a : A)
  | Raise (e : exn).

Arguments Ret {A} a.
Arguments Raise {A} e.

(** The regular files with their contents, and the directories, below the
    working directory; the working directory [[]] always exists. *)
Record FileSystem : Type := {
  files : gmap Path string;
  dirs : gset Path
}.

Module Os.

Definition empty : FileSystem := {| files := ∅; dirs := ∅ |}.

Definition is_dir (p : Path) (fs : FileSystem) : bool :=
  bool_decide (p = [] ∨ p ∈ dirs fs).

Definition is_file (p : Path) (fs : FileSystem) : bool :=
  bool_decide (is_Some (files fs !! p)).

Definition exists_ (p : Path) (fs : FileSystem) : bool :=
  is_dir p fs || is_file p fs.

(** A regular file lies on the way to [p]: the system call then fails
    with [ENOTDIR], whatever comes after the file. *)
Definition on_file (p : Path) (fs : FileSystem) : bool :=
  existsb (fun q => is_file q fs) (Pathlib.ancestors p).

(** [os.mkdir(p)] *)
Definition mkdir (p : Path) (fs : FileSystem) : result FileSystem :=
  if exists_ p fs then Raise (FileExistsError p)
  else if is_dir (Pathlib.parent p) fs then
    Ret {| files := files fs; dirs := {[p]} ∪ dirs fs |}
  else if on_file p fs then Raise (NotADirectoryError p)
  else Raise (FileNotFoundError p).

(** [Path.mkdir(parents=True, exist_ok=exist_ok)] on the path whose parts,
    last part first, are [rp]: try [os.mkdir]; when the parent is missing,
    make the parent with [exist_ok=True] and try once more. *)
Fixpoint mkdir_rev (rp : list string) (exist_ok : bool) (fs : FileSystem)
    : result FileSystem :=
  let p := rev rp in
  match mkdir p fs with
  | Ret fs' => Ret fs'
  | Raise (FileNotFoundError q) =>
      match rp with
      | [] => Raise (FileNotFoundError q)
      | _ :: rparent =>
          match mkdir_rev rparent true fs with
          | Raise e => Raise e
          | Ret fs1 =>
              match mkdir p fs1 with
              | Ret fs2 => Ret fs2
              | Raise (FileNotFoundError q') => Raise (FileNotFoundError q')
              | Raise e => if exist_ok && is_dir p fs1 then Ret fs1 else Raise e
              end
          end
      end
  | Raise e => if exist_ok && is_dir p fs then Ret fs else Raise e
  end.

(** [path.mkdir(parents=True)] *)
Definition mkdir_parents (p : Path) (fs : FileSystem) : result FileSystem :=
  mkdir_rev (rev p) false fs.

(** [path.write_text(data)] for a string [data]: the file is created or
    replaced. *)
Definition write_text (p : Path) (data : string) (fs : FileSystem)
    : result FileSystem :=
  if is_dir p fs then Raise (IsADirectoryError p)
  else if is_dir (Pathlib.parent p) fs then
    Ret {| files := <[p := data]> (files fs); dirs := dirs fs |}
  else if on_file p fs then Raise (NotADirectoryError p)
  else Raise (FileNotFoundError p).

(** [path.open().read()] *)
Definition read_text (p : Path) (fs : FileSystem) : result string :=
  match files fs !! p with
  | Some s => Ret s
  | None => if is_dir p fs then Raise (IsADirectoryError p)
            else Raise (FileNotFoundError p)
  end.

End Os.

(** * The remote service ([requests])

    A response carries its status, its body as text and, for the listing of
    titles, what [response.json()["titles"]] evaluates to: the entries of
    the listing, or [None] when the body is not JSON, in which case
    [response.json()] raises [JSONDecodeError].  A body that is JSON of
    another shape, for which line 79 raises [KeyError] or [TypeError], is
    not among the responses modelled. *)

Record TitleEntry : Type := {
  number : Z;
  latest_issue_date : option string;
  latest_amended_on : option string
}.

Record Response : Type := {
  status_code : Z;
  text : string;
  json_titles : option (list TitleEntry)
}.

(** A request: the URL and the headers passed to [requests.get]. *)
Abbreviation Request := (string * list (string * string))%type.

(** * The world and the monad of effects

    [net] answers a request from the requests made before it, or not at
    all ([None]: [requests.get] raises); [requests] records the requests
    made, [stdout] the lines printed, [written] the successful calls of
    [write_text], in order. *)

Record World : Type := {
  fs : FileSystem;
  stdout : list string;
  net : list Request → Request → option Response;
  requests : list Request;
  written : list (Path * string)
}.

Definition M (A : Type) : Type := World → World * result A.

Module Eff.

Definition ret {A} (a : A) : M A := fun w => (w, Ret a).

Definition raise {A} (e : exn) : M A := fun w => (w, Raise e).

Definition bind {A B} (m : M A) (k : A → M B) : M B :=
  fun w => match m w with
           | (w', Ret a) => k a w'
           | (w', Raise e) => (w', Raise e)
           end.

End Eff.

Import Eff.

Notation "x <- m ;; k" := (bind m (fun x => k))
  (at level 100, m at next level, right associativity).
Notation "m ;; k" := (bind m (fun _ => k))
  (at level 100, right associativity).

(** [for x in l: body] *)
Fixpoint for_each {A} (l : list A) (body : A → M unit) : M unit :=
  match l with
  | [] => ret tt
  | x :: rest => body x ;; for_each rest body
  end.

(** [if c: body] *)
Definition when (c : bool) (body : M unit) : M unit :=
  if c then body else ret tt.

Definition set_fs (f : FileSystem) (w : World) : World :=
  {| fs := f; stdout := stdout w; net := net w; requests := requests w;
     written := written w |}.

(** [print(line)] *)
Definition print (line : string) : M unit :=
  fun w => ({| fs := fs w; stdout := stdout w ++ [line]; net := net w;
               requests := requests w; written := written w |}, Ret tt).

(** [requests.get(url, headers=headers)] *)
Definition requests_get (url : string) (headers : list (string * string))
    : M Response :=
  fun w =>
    let w' := {| fs := fs w; stdout := stdout w; net := net w;
                 requests := requests w ++ [(url, headers)];
                 written := written w |} in
    match net w (requests w) (url, headers) with
    | Some response => (w', Ret response)
    | None => (w', Raise RequestException)
    end.

(** [response.raise_for_status()] *)
Definition raise_for_status (response : Response) : M unit :=
  if (400 <=? status_code response) && (status_code response <? 600)
  then raise (HTTPError (status_code response))
  else ret tt.

(** [response.json()["titles"]] *)
Definition response_titles (response : Response) : M (list TitleEntry) :=
  match json_titles response with
  | Some titles => ret titles
  | None => raise JSONDecodeError
  end.

Definition path_is_file (p : Path) : M bool :=
  fun w => (w, Ret (Os.is_file p (fs w))).

Definition path_exists (p : Path) : M bool :=
  fun w => (w, Ret (Os.exists_ p (fs w))).

Definition path_mkdir_parents (p : Path) : M unit :=
  fun w => match Os.mkdir_parents p (fs w) with
           | Ret f => (set_fs f w, Ret tt)
           | Raise e => (w, Raise e)
           end.

Definition path_read (p : Path) : M string :=
  fun w => (w, Os.read_text p (fs w)).

(** [path.write_text(data)]: a [data] that is not a string raises
    [TypeError] before the file is opened. *)
Definition path_write_text (p : Path) (data : option string) : M unit :=
  fun w => match data with
           | None => (w, Raise TypeError)
           | Some s =>
               match Os.write_text p s (fs w) with
               | Ret f => ({| fs := f; stdout := stdout w; net := net w;
                              requests := requests w;
                              written := written w ++ [(p, s)] |}, Ret tt)
               | Raise e => (w, Raise e)
               end
           end.

(** [tag[key]] *)
Definition getitem (t : tag) (key : string) : M string :=
  match Soup.attrs t !! key with
  | Some v => ret v
  | None => raise (KeyError key)
  end.

(** * CFRParser.py *)

(** Lines 14-16. *)
Inductive DateChoice : Type :=
  | LATEST_ISSUE_DATE
  | LATEST_AMENDED_ON.

(** [date_choice.value] *)
Definition value (date_choice : DateChoice) : string :=
  match date_choice with
  | LATEST_ISSUE_DATE => "latest_issue_date"
  | LATEST_AMENDED_ON => "latest_amended_on"
  end.

(** [title[key]] for an entry of the listing. *)
Definition entry_get (title : TitleEntry) (key : string) : M (option string) :=
  if String.eqb key "latest_issue_date" then ret (latest_issue_date title)
  else if String.eqb key "latest_amended_on" then ret (latest_amended_on title)
  else raise (KeyError key).

(** Lines 64-85.  The loop returns at the first entry of the title. *)
Definition get_title_date (title_number : Z) (date_choice : DateChoice)
    : M (option string) :=
  response <- requests_get "https://www.ecfr.gov/api/versioner/v1/titles" [] ;;
  raise_for_status response ;;
  titles <- response_titles response ;;
  match List.find (fun title => number title =? title_number) titles with
  | Some title => entry_get title (value date_choice)
  | None => ret None
  end.

(** Lines 88-101. *)
Definition get_cfr_title_xml (title : Z) : M (option string) :=
  let base_url := "https://www.ecfr.gov/api/versioner/v1/full/"%string in
  date <- get_title_date title LATEST_ISSUE_DATE ;;
  let endpoint := py_str date +:+ "/title-" +:+ pretty title +:+ ".xml" in
  let url := base_url +:+ endpoint in
  print ("Request file from " +:+ url) ;;
  let headers := [("accept", "application/xml")]%string in
  response <- requests_get url headers ;;
  if status_code response =? 200 then ret (Some (text response))
  else
    print ("Request failed with status code: "
           +:+ pretty (status_code response)) ;;
    ret None.

(** [x.HEAD.string if x.HEAD else ""], the description of a level. *)
Definition description (x : tag) : option string :=
  match Soup.find "HEAD" x with
  | Some head => Soup.string_of head
  | None => Some ""%string
  end.

(** The variables of the enclosing loops that a leaf uses (the description
    of the subtitle is printed and not used again). *)
Record Scope : Type := {
  title_num : Z;
  title_description : option string;
  subtitle_number : string;
  chapt_number : string;
  chapt_description : option string;
  subchapter_number : string;
  subchapter_description : option string;
  part_number : string;
  part_description : option string;
  sub_part_number : string;
  sub_part_description : option string
}.

(** A value of the metadata that is a string or [None]. *)
Definition JOpt (v : option string) : json :=
  match v with
  | Some s => JStr s
  | None => JNull
  end.

(** Lines 172-186. *)
Definition section_metadata (sc : Scope) (section_number : string)
    (section_description : option string) (ecfr_link : string) : json :=
  JObj [ ("title_number", JNum (title_num sc));
         ("title_description", JOpt (title_description sc));
         ("chapter_number", JStr (chapt_number sc));
         ("chapter_description", JOpt (chapt_description sc));
         ("subchapter_number", JStr (subchapter_number sc));
         ("subchapter_description", JOpt (subchapter_description sc));
         ("part_number", JStr (part_number sc));
         ("part_description", JOpt (part_description sc));
         ("sub_part_number", JStr (sub_part_number sc));
         ("sub_part_description", JOpt (sub_part_description sc));
         ("section_number", JStr section_number);
         ("section_description", JOpt section_description);
         ("url", JStr ecfr_link) ]%string.

(** Lines 214-228. *)
Definition appendix_metadata (sc : Scope) (appendix_number : string)
    (appendix_description : option string) (ecfr_link : string) : json :=
  JObj [ ("title_number", JNum (title_num sc));
         ("title_description", JOpt (title_description sc));
         ("chapter_number", JStr (chapt_number sc));
         ("chapter_description", JOpt (chapt_description sc));
         ("subchapter_number", JStr (subchapter_number sc));
         ("subchapter_description", JOpt (subchapter_description sc));
         ("part_number", JStr (part_number sc));
         ("part_description", JOpt (part_description sc));
         ("sub_part_number", JStr (sub_part_number sc));
         ("sub_part_description", JOpt (sub_part_description sc));
         ("appendix_number", JStr appendix_number);
         ("appendix_description", JOpt appendix_description);
         ("url", JStr ecfr_link) ]%string.

(** Lines 188-191 and 230-233. *)
Definition make_result (element : tag) (ecfr_link : string) (metadata : json)
    : json :=
  JObj [ ("page_content",
          JStr (process_cfr_xml_element element
                +:+ LF +:+ LF +:+ "__" +:+ ecfr_link +:+ "__"));
         ("metadata", metadata) ]%string.

(** Lines 193-195 and 235-237: the same template names the file of a
    section and the file of an appendix. *)
Definition document_file (sc : Scope) (leaf_number : string) : Path :=
  Pathlib.mk ("./documents/title_" +:+ pretty (title_num sc)
              +:+ "/subtitle_" +:+ subtitle_number sc
              +:+ "/chap_" +:+ chapt_number sc
              +:+ "/subchapt_" +:+ subchapter_number sc
              +:+ "/part_" +:+ part_number sc
              +:+ "/subpart_" +:+ sub_part_number sc
              +:+ "/" +:+ quote leaf_number +:+ ".json").

(** Lines 197-200 and 239-242. *)
Definition write_document (file : Path) (result : json) : M unit :=
  parent_exists <- path_exists (Pathlib.parent file) ;;
  when (negb parent_exists) (path_mkdir_parents (Pathlib.parent file)) ;;
  path_write_text file (Some (Json.dumps result 4)).

(** The document of a section whose code is [section_number]. *)
Definition section_result (sc : Scope) (section : tag)
    (section_number : string) : json :=
  let section_description := description section in
  let ecfr_link :=
    get_ecfr_link_to_section (title_num sc) (subtitle_number sc)
      (chapt_number sc) (part_number sc) (sub_part_number sc)
      section_number in
  make_result section ecfr_link
    (section_metadata sc section_number section_description ecfr_link).

(** The document of an appendix whose code is [appendix_number]. *)
Definition appendix_result (sc : Scope) (appendix : tag)
    (appendix_number : string) : json :=
  let appendix_description := description appendix in
  let ecfr_link :=
    get_ecfr_link_to_appendix (title_num sc) (subtitle_number sc)
      (chapt_number sc) (part_number sc) (sub_part_number sc)
      appendix_number in
  make_result appendix ecfr_link
    (appendix_metadata sc appendix_number appendix_description ecfr_link).

(** Lines 160-200: the body of the loop over the sections of a subpart. *)
Definition process_section (sc : Scope) (section : tag) : M unit :=
  section_number <- getitem section "N" ;;
  write_document (document_file sc section_number)
    (section_result sc section section_number).

(** Lines 202-242: the body of the loop over the appendices of a subpart. *)
Definition process_appendix (sc : Scope) (appendix : tag) : M unit :=
  appendix_number <- getitem appendix "N" ;;
  write_document (document_file sc appendix_number)
    (appendix_result sc appendix appendix_number).

(** Lines 125-242: the walk of the parsed title.  The loops over the parts
    and over the subparts search [root]; the other loops search the tag of
    the enclosing loop. *)
Definition walk (root : tag) (title_num : Z) : M unit :=
  title_description <-
    match Soup.find "DIV1" root with
    | Some title => ret (description title)
    | None => raise (AttributeError "HEAD")
    end ;;
  print ("Title description: " +:+ py_str title_description) ;;
  for_each (Soup.find_all "DIV2" root) (fun subtitle =>
    subtitle_number <- getitem subtitle "N" ;;
    let subtitle_description := description subtitle in
    print ("Subtitle " +:+ subtitle_number +:+ " - "
           +:+ py_str subtitle_description) ;;
    for_each (Soup.find_all "DIV3" subtitle) (fun chapter =>
      chapt_number <- getitem chapter "N" ;;
      let chapt_description := description chapter in
      print ("Subchapter " +:+ chapt_number +:+ " - "
             +:+ py_str chapt_description) ;;
      for_each (Soup.find_all "DIV4" chapter) (fun subchapter =>
        subchapter_number <- getitem subchapter "N" ;;
        let subchapter_description := description subchapter in
        print ("Subchapter " +:+ subchapter_number +:+ " - "
               +:+ py_str subchapter_description) ;;
        for_each (Soup.find_all "DIV5" root) (fun part =>
          part_number <- getitem part "N" ;;
          let part_description := description part in
          print ("Part " +:+ part_number +:+ " - "
                 +:+ py_str part_description) ;;
          for_each (Soup.find_all "DIV6" root) (fun sub_part =>
            sub_part_number <- getitem sub_part "N" ;;
            let sub_part_description := description sub_part in
            print ("Sub part " +:+ sub_part_number +:+ ": "
                   +:+ py_str sub_part_description) ;;
            let sc := {| title_num := title_num;
                         title_description := title_description;
                         subtitle_number := subtitle_number;
                         chapt_number := chapt_number;
                         chapt_description := chapt_description;
                         subchapter_number := subchapter_number;
                         subchapter_description := subchapter_description;
                         part_number := part_number;
                         part_description := part_description;
                         sub_part_number := sub_part_number;
                         sub_part_description := sub_part_description |} in
            for_each (Soup.find_all "DIV8" sub_part) (process_section sc) ;;
            for_each (Soup.find_all "DIV9" sub_part)
              (process_appendix sc)))))).

(** Lines 106-121: the XML of the title, from the cache or from the remote
    service; a fetched text is written to the cache. *)
Definition load_xml (title_num : Z) : M (option string) :=
  let file_path :=
    Pathlib.mk ("./cache/title" +:+ pretty title_num +:+ ".xml") in
  cached <- path_is_file file_path ;;
  xml_data <-
    (if cached then
       print "File in cache" ;;
       data <- path_read file_path ;;
       ret (Some data)
     else
       print "File not in cache. Retrieve." ;;
       parent_exists <- path_exists (Pathlib.parent file_path) ;;
       when (negb parent_exists)
         (path_mkdir_parents (Pathlib.parent file_path)) ;;
       xml_data <- get_cfr_title_xml title_num ;;
       path_write_text file_path xml_data ;;
       ret xml_data) ;;
  print ("XML loaded for title " +:+ pretty title_num) ;;
  ret xml_data.

Section Parser.

(** The XML parser behind [BeautifulSoup(xml_data, features="xml")]. *)
Variable BeautifulSoup : string → tag.

(** Lines 104-242. *)
Definition fetch_and_parse_cfr_xml (title_num : Z) : M unit :=
  xml_data <- load_xml title_num ;;
  match xml_data with
  | Some data => walk (BeautifulSoup data) title_num
  | None => raise TypeError
  end.

End Parser.
(** * The documents of a walk, as a list

    The leaves a walk reaches, each with the variables of the loops around
    it, in the order of the loops; a tag without the attribute [N] stops
    the walk, and [N_of] reads the attribute of a tag that has it. *)

Definition N_of (t : tag) : string := default ""%string (Soup.attrs t !! "N"%string).

Inductive leaf_kind : Type :=
  | IsSection
  | IsAppendix.

Definition leaves_of (sub_part : tag) : list (leaf_kind * tag) :=
  (map (pair IsSection) (Soup.find_all "DIV8" sub_part)
   ++ map (pair IsAppendix) (Soup.find_all "DIV9" sub_part))%list.

(** The subchapters in the order of the three outer loops, each with its
    subtitle and its chapter. *)
Definition subchapters (root : tag) : list (tag * tag * tag) :=
  flat_map (fun subtitle =>
    flat_map (fun chapter =>
      map (fun subchapter => (subtitle, chapter, subchapter))
          (Soup.find_all "DIV4" chapter))
      (Soup.find_all "DIV3" subtitle))
    (Soup.find_all "DIV2" root).

Definition scope_of (root : tag) (title_num : Z)
    (subtitle chapter subchapter part sub_part : tag) : Scope :=
  {| title_num := title_num;
     title_description :=
       match Soup.find "DIV1" root with
       | Some title => description title
       | None => None
       end;
     subtitle_number := N_of subtitle;
     chapt_number := N_of chapter;
     chapt_description := description chapter;
     subchapter_number := N_of subchapter;
     subchapter_description := description subchapter;
     part_number := N_of part;
     part_description := description part;
     sub_part_number := N_of sub_part;
     sub_part_description := description sub_part |}.

Definition walk_leaves (root : tag) (title_num : Z)
    : list (Scope * (leaf_kind * tag)) :=
  flat_map (fun '(subtitle, chapter, subchapter) =>
    flat_map (fun part =>
      flat_map (fun sub_part =>
        map (pair (scope_of root title_num subtitle chapter subchapter
                     part sub_part))
            (leaves_of sub_part))
        (Soup.find_all "DIV6" root))
      (Soup.find_all "DIV5" root))
    (subchapters root).

Definition leaf_result (sc : Scope) (leaf : leaf_kind * tag) : json :=
  match fst leaf with
  | IsSection => section_result sc (snd leaf) (N_of (snd leaf))
  | IsAppendix => appendix_result sc (snd leaf) (N_of (snd leaf))
  end.

Definition leaf_file (entry : Scope * (leaf_kind * tag)) : Path :=
  document_file (fst entry) (N_of (snd (snd entry))).

(** What [write_text] receives for a leaf: the path and the JSON text. *)
Definition leaf_write (entry : Scope * (leaf_kind * tag)) : Path * string :=
  (leaf_file entry, Json.dumps (leaf_result (fst entry) (snd entry)) 4).

(** Whatever comes of [m], it has appended a prefix of [ws] to the record
    of writes, and all of [ws] when it returns. *)
Definition writes_within (m : M unit) (ws : list (Path * string)) : Prop :=
  ∀ w w' r, m w = (w', r) →
    ∃ ws', written w' = written w ++ ws'
           ∧ ws' `prefix_of` ws
           ∧ (r = Ret tt → ws' = ws).

(** Whatever comes of [m], it has left the record of writes as it was. *)
Definition keeps {A} (m : M A) : Prop :=
  ∀ w w' r, m w = (w', r) → written w' = written w.

(** The leaves whose documents a run has written: as many of the leaves of
    the walk, from the first, as the run has made writes. *)
Definition leaves_written (root : tag) (title_num : Z) (w w' : World)
    : list (Scope * (leaf_kind * tag)) :=
  take (List.length (written w') - List.length (written w))
       (walk_leaves root title_num).

(** A code that holds no slash. *)
Definition no_slash (s : string) : Prop := "/"%char ∉ Str.chars s.

Definition scope_no_slash (sc : Scope) : Prop :=
  no_slash (subtitle_number sc) ∧ no_slash (chapt_number sc)
  ∧ no_slash (subchapter_number sc) ∧ no_slash (part_number sc)
  ∧ no_slash (sub_part_number sc).

(** The codes of a scope that name the directory of its documents. *)
Definition chain (sc : Scope) : Z * list string :=
  (title_num sc,
   [subtitle_number sc; chapt_number sc; subchapter_number sc;
    part_number sc; sub_part_number sc]).

(** What a call leaves unchanged, but for the requests it records. *)
Definition same_but_requests (w w' : World) (added : list Request) : Prop :=
  fs w' = fs w ∧ stdout w' = stdout w ∧ net w' = net w
  ∧ written w' = written w ∧ requests w' = requests w ++ added.

(** The last character of a string. *)
Fixpoint last_char (s : string) : option ascii :=
  match s with
  | EmptyString => None
  | String c EmptyString => Some c
  | String _ r => last_char r
  end.

(** * Documents used as examples *)

(** A section with a heading, one paragraph and a citation. *)
Definition purpose_section : tag :=
  Tag "DIV8" {[ "N" := "1" ]}%string
    [ Element (Tag "HEAD" ∅ [NavigableString "Purpose"]);
      Element (Tag "P" ∅ [NavigableString "This part explains X."]);
      Element (Tag "CITA" ∅ [NavigableString "[60 FR 1234]"]) ].

(** A section with three paragraphs, the second of them empty, and neither
    heading nor citation. *)
Definition bare_section : tag :=
  Tag "DIV8" {[ "N" := "2" ]}%string
    [ Element (Tag "P" ∅ [NavigableString "A"]);
      Element (Tag "P" ∅ []);
      Element (Tag "P" ∅ [NavigableString "B"]) ].

(** A section whose heading holds a text and a nested tag. *)
Definition marked_up_section : tag :=
  Tag "DIV8" {[ "N" := "3" ]}%string
    [ Element (Tag "HEAD" ∅ [ NavigableString "Scope ";
                              Element (Tag "I" ∅ [NavigableString "et al."]) ]);
      Element (Tag "P" ∅ [NavigableString "Text."]) ].

(** A title with one subtitle, one chapter, one subchapter and two parts;
    the first part holds one subpart with [purpose_section], the second
    part holds nothing. *)
Definition two_part_title : tag :=
  Tag "[document]" ∅
    [ Element (Tag "DIV1" {[ "N" := "29" ]}%string
        [ Element (Tag "HEAD" ∅ [NavigableString "Title 29"]);
          Element (Tag "DIV2" {[ "N" := "A" ]}%string
            [ Element (Tag "DIV3" {[ "N" := "I" ]}%string
                [ Element (Tag "DIV4" {[ "N" := "B" ]}%string
                    [ Element (Tag "DIV5" {[ "N" := "1" ]}%string
                        [ Element (Tag "DIV6" {[ "N" := "C" ]}%string
                            [ Element purpose_section ]) ]);
                      Element (Tag "DIV5" {[ "N" := "2" ]}%string []) ]) ]) ]) ]) ].

(** A world with an empty working directory and no network. *)
Definition fresh_world : World :=
  {| fs := Os.empty; stdout := []; net := fun _ _ => None;
     requests := []; written := [] |}.

(** A title with one subtitle, chapter, subchapter, part and subpart and
    the one section [purpose_section]. *)
Definition single_section_title : tag :=
  Tag "[document]" ∅
    [ Element (Tag "DIV1" {[ "N" := "29" ]}%string
        [ Element (Tag "HEAD" ∅ [NavigableString "Title 29"]);
          Element (Tag "DIV2" {[ "N" := "A" ]}%string
            [ Element (Tag "DIV3" {[ "N" := "I" ]}%string
                [ Element (Tag "DIV4" {[ "N" := "B" ]}%string
                    [ Element (Tag "DIV5" {[ "N" := "1" ]}%string
                        [ Element (Tag "DIV6" {[ "N" := "C" ]}%string
                            [ Element purpose_section ]) ]) ]) ]) ]) ]) ].

(** A title whose only section lies in a part that has no subpart. *)
Definition part_without_subpart : tag :=
  Tag "[document]" ∅
    [ Element (Tag "DIV1" {[ "N" := "29" ]}%string
        [ Element (Tag "DIV2" {[ "N" := "A" ]}%string
            [ Element (Tag "DIV3" {[ "N" := "I" ]}%string
                [ Element (Tag "DIV4" {[ "N" := "B" ]}%string
                    [ Element (Tag "DIV5" {[ "N" := "1" ]}%string
                        [ Element purpose_section ]) ]) ]) ]) ]) ].

(** A title with two subtitles whose codes and the codes of their chapters
    hold a slash; the second subchapter holds the only part. *)
Definition slash_title : tag :=
  Tag "[document]" ∅
    [ Element (Tag "DIV1" {[ "N" := "29" ]}%string
        [ Element (Tag "DIV2" {[ "N" := "A/chap_B" ]}%string
            [ Element (Tag "DIV3" {[ "N" := "C" ]}%string
                [ Element (Tag "DIV4" {[ "N" := "S" ]}%string []) ]) ]);
          Element (Tag "DIV2" {[ "N" := "A" ]}%string
            [ Element (Tag "DIV3" {[ "N" := "B/chap_C" ]}%string
                [ Element (Tag "DIV4" {[ "N" := "S" ]}%string
                    [ Element (Tag "DIV5" {[ "N" := "1" ]}%string
                        [ Element (Tag "DIV6" {[ "N" := "X" ]}%string
                            [ Element purpose_section ]) ]) ]) ]) ]) ]) ].

(** The word that names the kind of a leaf in the keys of the metadata. *)
Definition kind_name (k : leaf_kind) : string :=
  match k with
  | IsSection => "section"
  | IsAppendix => "appendix"
  end.

(** The deep link of a leaf. *)
Definition leaf_link (sc : Scope) (leaf : leaf_kind * tag) : string :=
  match fst leaf with
  | IsSection =>
      get_ecfr_link_to_section (title_num sc) (subtitle_number sc)
        (chapt_number sc) (part_number sc) (sub_part_number sc)
        (N_of (snd leaf))
  | IsAppendix =>
      get_ecfr_link_to_appendix (title_num sc) (subtitle_number sc)
        (chapt_number sc) (part_number sc) (sub_part_number sc)
        (N_of (snd leaf))
  end.

(** A title whose only subpart holds [purpose_section] and a section
    without the attribute [N]. *)
Definition missing_code_title : tag :=
  Tag "[document]" ∅
    [ Element (Tag "DIV1" {[ "N" := "29" ]}%string
        [ Element (Tag "DIV2" {[ "N" := "A" ]}%string
            [ Element (Tag "DIV3" {[ "N" := "I" ]}%string
                [ Element (Tag "DIV4" {[ "N" := "B" ]}%string
                    [ Element (Tag "DIV5" {[ "N" := "1" ]}%string
                        [ Element (Tag "DIV6" {[ "N" := "C" ]}%string
                            [ Element purpose_section;
                              Element (Tag "DIV8" ∅ []) ]) ]) ]) ]) ]) ]) ].

(** A remote service that lists title 29 and answers every other request
    with the status 404, and a world with it and an empty working
    directory. *)
Definition listing_response : Response :=
  {| status_code := 200; text := "";
     json_titles :=
       Some [ {| number := 29;
                 latest_issue_date := Some "2024-01-02"%string;
                 latest_amended_on := Some "2023-12-29"%string |} ] |}.

Definition not_found_response : Response :=
  {| status_code := 404; text := "Not Found"; json_titles := None |}.

Definition failing_net (_ : list Request) (request : Request)
    : option Response :=
  if String.eqb (fst request) "https://www.ecfr.gov/api/versioner/v1/titles"
  then Some listing_response
  else Some not_found_response.

Definition failing_world : World :=
  {| fs := Os.empty; stdout := []; net := failing_net;
     requests := []; written := [] |}.

(** * Worlds used as examples of the remote service *)

(** A remote service that lists title 29 and serves its XML. *)
Definition served_xml : string := "<DIV1 N=29/>".

Definition serving_net (_ : list Request) (request : Request)
    : option Response :=
  if String.eqb (fst request) "https://www.ecfr.gov/api/versioner/v1/titles"
  then Some listing_response
  else Some {| status_code := 200; text := served_xml; json_titles := None |}.

Definition serving_world : World :=
  {| fs := Os.empty; stdout := []; net := serving_net;
     requests := []; written := [] |}.

(** A remote service that answers every request with the status 503, and
    one that cannot be reached. *)
Definition unavailable_world : World :=
  {| fs := Os.empty; stdout := [];
     net := fun _ _ =>
       Some {| status_code := 503; text := ""; json_titles := None |};
     requests := []; written := [] |}.

(** The field of an entry that a choice of date names. *)
Definition date_of (date_choice : DateChoice) (title : TitleEntry)
    : option string :=
  match date_choice with
  | LATEST_ISSUE_DATE => latest_issue_date title
  | LATEST_AMENDED_ON => latest_amended_on title
  end.

(** The address of the listing of titles and the address of the XML of a
    title at a date. *)
Definition titles_url : string := "https://www.ecfr.gov/api/versioner/v1/titles".

Definition title_xml_url (date : option string) (title : Z) : string :=
  "https://www.ecfr.gov/api/versioner/v1/full/" +:+ py_str date
  +:+ "/title-" +:+ pretty title +:+ ".xml".

(** A status for which [raise_for_status] raises. *)
Definition error_status (status : Z) : bool :=
  (400 <=? status) && (status <? 600).

(** The headers of the request for the XML. *)
Definition xml_headers : list (string * string) :=
  [("accept", "application/xml")]%string.

(** A remote service that lists title 29 and does not answer the request
    for the XML. *)
Definition dropping_net (_ : list Request) (request : Request)
    : option Response :=
  if String.eqb (fst request) "https://www.ecfr.gov/api/versioner/v1/titles"
  then Some listing_response
  else None.

Definition dropping_world : World :=
  {| fs := Os.empty; stdout := []; net := dropping_net;
     requests := []; written := [] |}.

(** * What a run changes *)

(** The files after the writes [ws] on the files [m], in order: a later
    write of a path replaces an earlier one. *)
Definition apply_writes (m : gmap Path string) (ws : list (Path * string))
    : gmap Path string :=
  foldl (fun acc pw => <[fst pw := snd pw]> acc) m ws.

(** The walk's use of the world: no request, lines added to the output,
    directories added, and files as the writes recorded leave them. *)
Definition walk_frame (w w' : World) : Prop :=
  requests w' = requests w ∧ net w' = net w
  ∧ stdout w `prefix_of` stdout w'
  ∧ dirs (fs w) ⊆ dirs (fs w')
  ∧ ∃ ws, written w' = written w ++ ws
          ∧ files (fs w') = apply_writes (files (fs w)) ws.

Definition respects {A} (m : M A) : Prop :=
  ∀ w w' r, m w = (w', r) → walk_frame w w'.

(** A path that names its file as it is written: no part is [..], which
    the system would resolve against the directories on the way. *)
Definition literal (p : Path) : Prop := ".."%string ∉ p.

(** A path made of names: no part is empty, [.] or [..] or holds a
    slash. *)
Definition named_path (p : Path) : Prop :=
  Forall (fun c => Pathlib.is_part c = true ∧ no_slash c ∧ c ≠ ".."%string) p.

(** A title whose only subpart holds [purpose_section] and an appendix of
    the same code. *)
Definition twin_leaf_title : tag :=
  Tag "[document]" ∅
    [ Element (Tag "DIV1" {[ "N" := "29" ]}%string
        [ Element (Tag "DIV2" {[ "N" := "A" ]}%string
            [ Element (Tag "DIV3" {[ "N" := "I" ]}%string
                [ Element (Tag "DIV4" {[ "N" := "B" ]}%string
                    [ Element (Tag "DIV5" {[ "N" := "1" ]}%string
                        [ Element (Tag "DIV6" {[ "N" := "C" ]}%string
                            [ Element purpose_section;
                              Element (Tag "DIV9" {[ "N" := "1" ]}%string
                                [ Element (Tag "HEAD" ∅
                                    [NavigableString "Forms"]) ]) ]) ]) ]) ]) ]) ]) ].

(** * The cache *)

(** The path of the cached XML of a title (line 106). *)
Definition cache_file (title_num : Z) : Path :=
  ["cache"%string; "title" +:+ pretty title_num +:+ ".xml"].

(** The world in which the XML is fetched when the cache has no file for
    the title: a line is printed, and the directory of the cache is made
    unless something of that name exists (lines 113-116). *)
Definition before_fetch (w : World) : World :=
  {| fs := if Os.exists_ ["cache"%string] (fs w) then fs w
           else {| files := files (fs w);
                   dirs := {[ ["cache"%string] ]} ∪ dirs (fs w) |};
     stdout := stdout w ++ ["File not in cache. Retrieve."%string];
     net := net w; requests := requests w; written := written w |}.

(** The world in which the walk starts when the cache holds the XML of the
    title (lines 110-121). *)
Definition after_cache_hit (title_num : Z) (w : World) : World :=
  {| fs := fs w;
     stdout := stdout w ++ [ "File in cache"%string;
                             "XML loaded for title " +:+ pretty title_num ];
     net := net w; requests := requests w; written := written w |}.

(** A parser for the examples: whatever the text, the document is
    [single_section_title]. *)
Definition fixed_parser (_ : string) : tag := single_section_title.

(** A world whose cache holds a text for title 29, with no network. *)
Definition cached_world : World :=
  {| fs := {| files := {[ cache_file 29 := served_xml ]};
              dirs := {[ ["cache"%string] ]} |};
     stdout := []; net := fun _ _ => None; requests := []; written := [] |}.

(** * Documents that can be walked *)

(** A tag with the attribute [N], whose value holds no slash. *)
Definition coded (t : tag) : bool :=
  match Soup.attrs t !! "N"%string with
  | Some v => bool_decide ("/"%char ∉ Str.chars v)
  | None => false
  end.

(** A document in which the walk finds a title and every tag the loops
    visit is [coded]. *)
Definition walkable (root : tag) : bool :=
  bool_decide (is_Some (Soup.find "DIV1" root))
  && forallb (fun subtitle =>
       coded subtitle
       && forallb (fun chapter =>
            coded chapter && forallb coded (Soup.find_all "DIV4" chapter))
            (Soup.find_all "DIV3" subtitle))
       (Soup.find_all "DIV2" root)
  && forallb coded (Soup.find_all "DIV5" root)
  && forallb (fun sub_part =>
       coded sub_part
       && forallb coded (Soup.find_all "DIV8" sub_part)
       && forallb coded (Soup.find_all "DIV9" sub_part))
       (Soup.find_all "DIV6" root).

(** A file system in which, below [documents], the regular files lie at
    the depth of the documents and no directory does. *)
Definition fs_ready (f : FileSystem) : Prop :=
  map_Forall (fun (p : Path) (_ : string) =>
                head p = Some "documents"%string → List.length p = 8%nat)
             (files f)
  ∧ set_Forall (fun q : Path =>
                  head q = Some "documents"%string → List.length q ≠ 8%nat)
               (dirs f).

(** [m] returns from every world whose file system is ready, and leaves
    the file system ready. *)
Definition succeeds (m : M unit) : Prop :=
  ∀ w, fs_ready (fs w) → ∃ w', m w = (w', Ret tt) ∧ fs_ready (fs w').

(** [m] returns from some world. *)
Definition returns (m : M unit) : Prop := ∃ w w', m w = (w', Ret tt).

(** A tag that has the attribute [N]. *)
Definition has_code (t : tag) : Prop := is_Some (Soup.attrs t !! "N"%string).

(** Every subpart of the document, every section and every appendix below
    it has a code. *)
Definition subparts_have_codes (root : tag) : Prop :=
  Forall (fun sub_part =>
            has_code sub_part
            ∧ Forall has_code (Soup.find_all "DIV8" sub_part)
            ∧ Forall has_code (Soup.find_all "DIV9" sub_part))
         (Soup.find_all "DIV6" root).

(** The exceptions of the file system. *)
Definition is_os_error (e : exn) : bool :=
  match e with
  | FileExistsError _ | FileNotFoundError _ | NotADirectoryError _
  | IsADirectoryError _ => true
  | _ => false
  end.

(** The exceptions a walk can end with: no title, no code, or an exception
    of the file system. *)
Definition is_walk_error (e : exn) : bool :=
  match e with
  | AttributeError attr => String.eqb attr "HEAD"
  | KeyError key => String.eqb key "N"
  | _ => is_os_error e
  end.

(** [m] raises no exception but those of [allowed]. *)
Definition raises_only {A} (allowed : exn → bool) (m : M A) : Prop :=
  ∀ w w' e, m w = (w', Raise e) → allowed e = true.

(** A title whose subtitle has no code. *)
Definition uncoded_subtitle_title : tag :=
  Tag "[document]" ∅
    [ Element (Tag "DIV1" {[ "N" := "29" ]}%string
        [ Element (Tag "DIV2" ∅
            [ Element (Tag "DIV3" {[ "N" := "I" ]}%string []) ]) ]) ].

(** A document without a title. *)
Definition untitled_document : tag :=
  Tag "[document]" ∅
    [ Element (Tag "DIV2" {[ "N" := "A" ]}%string []) ].

(** A code made of the characters [quote] keeps. *)
Definition safe_code (s : string) : bool := forallb is_safe (Str.chars s).

(** The four codes a deep link holds hold no slash. *)
Definition link_codes_no_slash (s c p sp : string) : Prop :=
  no_slash s ∧ no_slash c ∧ no_slash p ∧ no_slash sp.

(** The scope of [sc] in another subchapter. *)
Definition in_subchapter (sc : Scope) (code : string) : Scope :=
  {| title_num := title_num sc;
     title_description := title_description sc;
     subtitle_number := subtitle_number sc;
     chapt_number := chapt_number sc;
     chapt_description := chapt_description sc;
     subchapter_number := code;
     subchapter_description := subchapter_description sc;
     part_number := part_number sc;
     part_description := part_description sc;
     sub_part_number := sub_part_number sc;
     sub_part_description := sub_part_description sc |}.

(** A scope with the codes of [single_section_title]. *)
Definition single_scope : Scope :=
  {| title_num := 29; title_description := Some "Title 29"%string;
     subtitle_number := "A"; chapt_number := "I";
     chapt_description := None; subchapter_number := "B";
     subchapter_description := None; part_number := "1";
     part_description := None; sub_part_number := "C";
     sub_part_description := None |}.

(** A subpart without a heading of its own, around a section with one. *)
Definition headless_subpart : tag :=
  Tag "DIV6" {[ "N" := "C" ]}%string [ Element purpose_section ].

(** The characters of a text file in ASCII: the line feed and the
    characters from the space to the tilde. *)
Definition printable (c : ascii) : bool :=
  let n := N_of_ascii c in
  (n =? 10)%N || ((32 <=? n)%N && (n <=? 126)%N).

Definition plain_text (s : string) : bool := forallb printable (Str.chars s).

(** A section whose heading and paragraph are not in ASCII. *)
Definition accented_section : tag :=
  Tag "DIV8" {[ "N" := "§ 1" ]}%string
    [ Element (Tag "HEAD" ∅ [NavigableString "Définitions"]);
      Element (Tag "P" ∅ [NavigableString "Naïve “quotes”."]) ].

Definition accented_title : tag :=
  Tag "[document]" ∅
    [ Element (Tag "DIV1" {[ "N" := "29" ]}%string
        [ Element (Tag "DIV2" {[ "N" := "A" ]}%string
            [ Element (Tag "DIV3" {[ "N" := "I" ]}%string
                [ Element (Tag "DIV4" {[ "N" := "B" ]}%string
                    [ Element (Tag "DIV5" {[ "N" := "1" ]}%string
                        [ Element (Tag "DIV6" {[ "N" := "C" ]}%string
                            [ Element accented_section ]) ]) ]) ]) ]) ]) ].

(** * The scenario of one section *)

(** A character that [json.dumps] writes between quotes as it is: from
    the space to the tilde, the double quote and the backslash apart. *)
Definition verbatim (c : ascii) : bool :=
  let n := N_of_ascii c in
  (32 <=? n)%N && (n <=? 126)%N && negb (n =? 34)%N && negb (n =? 92)%N.

(** A code made of such characters, the slash apart. *)
Definition plain_code (s : string) : bool :=
  forallb (fun c => verbatim c && negb (Ascii.eqb c "/")) (Str.chars s).

(** [s] between double quotes. *)
Definition quoted (s : string) : string :=
  String Json.DQUOTE (s +:+ String Json.DQUOTE "").

(** The [page_content] of the scenario, for the deep link [link]. *)
Definition scenario_page_content (link : string) : string :=
  LF +:+ "    # Purpose" +:+ LF
  +:+ "    " +:+ LF
  +:+ "    This part explains X." +:+ LF
  +:+ "    " +:+ LF
  +:+ "    **[60 FR 1234]**" +:+ LF
  +:+ "    " +:+ LF +:+ LF
  +:+ "__" +:+ link +:+ "__".

(** The text of the file of the scenario, line by line: the JSON of the
    document with an indentation of four spaces.  In the text of
    [page_content] every line feed is written as a backslash and [n];
    [dt], [dc], [dsch], [dpt] and [dsp] are the JSON texts of the
    descriptions of the title, chapter, subchapter, part and subpart. *)
Definition scenario_file_text (t : Z) (c sch pt sp link : string)
    (dt dc dsch dpt dsp : string) : string :=
  Str.join LF
    [ "{"%string;
      "    " +:+ quoted "page_content" +:+ ": "
        +:+ quoted ("\n    # Purpose\n    \n    This part explains X.\n    \n    **[60 FR 1234]**\n    \n\n__"
                    +:+ link +:+ "__") +:+ ",";
      "    " +:+ quoted "metadata" +:+ ": {";
      "        " +:+ quoted "title_number" +:+ ": " +:+ pretty t +:+ ",";
      "        " +:+ quoted "title_description" +:+ ": " +:+ dt +:+ ",";
      "        " +:+ quoted "chapter_number" +:+ ": " +:+ quoted c +:+ ",";
      "        " +:+ quoted "chapter_description" +:+ ": " +:+ dc +:+ ",";
      "        " +:+ quoted "subchapter_number" +:+ ": " +:+ quoted sch +:+ ",";
      "        " +:+ quoted "subchapter_description" +:+ ": " +:+ dsch +:+ ",";
      "        " +:+ quoted "part_number" +:+ ": " +:+ quoted pt +:+ ",";
      "        " +:+ quoted "part_description" +:+ ": " +:+ dpt +:+ ",";
      "        " +:+ quoted "sub_part_number" +:+ ": " +:+ quoted sp +:+ ",";
      "        " +:+ quoted "sub_part_description" +:+ ": " +:+ dsp +:+ ",";
      "        " +:+ quoted "section_number" +:+ ": " +:+ quoted "1" +:+ ",";
      "        " +:+ quoted "section_description" +:+ ": " +:+ quoted "Purpose" +:+ ",";
      "        " +:+ quoted "url" +:+ ": " +:+ quoted link;
      "    }"%string;
      "}"%string ].

(** The path of the file of the scenario. *)
Definition scenario_file (t : Z) (s c sch pt sp : string) : Path :=
  [ "documents"%string; "title_" +:+ pretty t; "subtitle_" +:+ s;
    "chap_" +:+ c; "subchapt_" +:+ sch; "part_" +:+ pt;
    "subpart_" +:+ sp; "1.json"%string ].

(** The JSON text of a description: [null], or the string between quotes. *)
Definition description_text (d : option string) : string :=
  Json.encode 4 2 (JOpt d).

(** What [Json.encode_string] puts between the quotes for [s], followed by
    [z]. *)
Definition esc (s z : string) : string :=
  fold_right (fun n acc => Json.escape n +:+ acc) z (Json.code_points s).

(** * Properties of strings and of [quote] *)

Section StringFacts.

Lemma app_string_assoc (a b c : string) : (a +:+ b) +:+ c = a +:+ (b +:+ c).
Proof. induction a as [|x a IH]; simpl; [done | by rewrite IH]. Qed.

Lemma app_string_nil_r (a : string) : a +:+ "" = a.
Proof. induction a as [|x a IH]; simpl; [done | by rewrite IH]. Qed.

Lemma app_string_inv_head (a b c : string) : a +:+ b = a +:+ c → b = c.
Proof. induction a as [|x a IH]; simpl; [done | intros [= H]; auto]. Qed.

Lemma app_string_length (a b : string) :
  String.length (a +:+ b) = (String.length a + String.length b)%nat.
Proof. induction a as [|x a IH]; simpl; [done | by rewrite IH]. Qed.

Lemma app_string_inv_tail (a b c : string) : a +:+ c = b +:+ c → a = b.
Proof.
  revert b; induction a as [|x a IH]; intros [|y b]; simpl; try done.
  - intros H. apply (f_equal String.length) in H. simpl in H.
    rewrite app_string_length in H. lia.
  - intros H. apply (f_equal String.length) in H. simpl in H.
    rewrite app_string_length in H. lia.
  - intros [= -> H]. f_equal. by apply IH.
Qed.

Lemma chars_app (a b : string) :
  Str.chars (a +:+ b) = (Str.chars a ++ Str.chars b)%list.
Proof. induction a as [|x a IH]; simpl; [done | by rewrite IH]. Qed.

End StringFacts.

Section QuoteFacts.

Lemma unpercent_percent (c : ascii) :
  unpercent (hex_upper (N_of_ascii c / 16)) (hex_upper (N_of_ascii c mod 16)) = c.
Proof. by destruct c as [[] [] [] [] [] [] [] []]. Qed.

Lemma percent_inj (a b : ascii) : percent a = percent b → a = b.
Proof.
  unfold percent. intros [= Hh Hl].
  rewrite <- (unpercent_percent a), <- (unpercent_percent b).
  by rewrite Hh, Hl.
Qed.

Lemma percent_sign_unsafe : is_safe "%" = false.
Proof. reflexivity. Qed.

Lemma quoter_head (c : ascii) :
  (is_safe c = true ∧ quoter c = String c "")
  ∨ (is_safe c = false ∧ quoter c = percent c).
Proof. unfold quoter. destruct (is_safe c); auto. Qed.

(** [quote] can be read back: it maps different codes to different texts. *)
Lemma quote_inj (x y : string) : quote x = quote y → x = y.
Proof.
  revert y. induction x as [|a x IH]; intros [|b y]; simpl; try done.
  - destruct (quoter_head b) as [[_ ->] | [_ ->]]; discriminate.
  - destruct (quoter_head a) as [[_ ->] | [_ ->]]; discriminate.
  - destruct (quoter_head a) as [[Ha ->] | [Ha ->]],
             (quoter_head b) as [[Hb ->] | [Hb ->]]; simpl.
    + intros [= -> H]. f_equal. by apply IH.
    + intros [= -> _]. by rewrite percent_sign_unsafe in Ha.
    + intros [= <- _]. by rewrite percent_sign_unsafe in Hb.
    + intros [= Hh Hl H].
      f_equal; [| by apply IH]. apply percent_inj. unfold percent.
      by rewrite Hh, Hl.
Qed.

Lemma quote_app (a b : string) : quote (a +:+ b) = quote a +:+ quote b.
Proof.
  induction a as [|x a IH]; simpl; [done |].
  by rewrite IH, app_string_assoc.
Qed.

Lemma hex_upper_safe (n : N) : (n < 16)%N → is_safe (hex_upper n) = true.
Proof.
  intros H.
  assert (Hc : n ∈ (N.of_nat <$> seq 0 16)).
  { apply list_elem_of_fmap. exists (N.to_nat n). split; [lia|].
    apply list_elem_of_In, in_seq. lia. }
  simpl in Hc. set_unfold. by destruct_or!; subst n.
Qed.

(** Every character [quote] emits is a kept character or the percent sign. *)
Lemma quote_chars (s : string) (c : ascii) :
  c ∈ Str.chars (quote s) → is_safe c = true ∨ c = "%"%char.
Proof.
  induction s as [|a s IH]; simpl; [by intros ?%elem_of_nil |].
  rewrite chars_app, elem_of_app. intros [H | H]; [|auto].
  destruct (quoter_head a) as [[Ha Hq] | [Ha Hq]]; rewrite Hq in H.
  - simpl in H. set_unfold. destruct H as [-> | []]. auto.
  - unfold percent in H. simpl in H. set_unfold.
    destruct H as [-> | [-> | [-> | []]]]; [by right | left..].
    + apply hex_upper_safe. apply N.Div0.div_lt_upper_bound.
      pose proof (N_ascii_bounded a). lia.
    + apply hex_upper_safe. by apply N.mod_lt.
Qed.

End QuoteFacts.

Section StringTests.

Lemma starts_with_app (p r : string) : Str.starts_with p (p +:+ r).
Proof. by exists r. Qed.

Lemma ends_with_app (r p : string) : Str.ends_with p (r +:+ p).
Proof. by exists r. Qed.

Lemma starts_with_head (a b : ascii) (p s : string) :
  Str.starts_with (String a p) (String b s) → a = b.
Proof. intros [r H]. simpl in H. by injection H. Qed.

Lemma last_char_app (r p : string) :
  p ≠ ""%string → last_char (r +:+ p) = last_char p.
Proof.
  intros Hp. induction r as [|c r IH]; simpl; [done |].
  rewrite <- IH. destruct (r +:+ p) eqn:E; [|done].
  destruct r; simpl in E; [done | discriminate].
Qed.

Lemma ends_with_last (p s : string) :
  p ≠ ""%string → Str.ends_with p s → last_char s = last_char p.
Proof. intros Hp [r ->]. by apply last_char_app. Qed.

Lemma contains_chars (p s : string) (c : ascii) :
  Str.contains p s → c ∈ Str.chars p → c ∈ Str.chars s.
Proof.
  intros (a & b & ->) Hc. rewrite !chars_app, !elem_of_app. auto.
Qed.

End StringTests.

(** * The deep links *)

Section DeepLinks.

Lemma section_link_inj t s c p sp x y :
  get_ecfr_link_to_section t s c p sp x = get_ecfr_link_to_section t s c p sp y
  → x = y.
Proof.
  unfold get_ecfr_link_to_section. intros H.
  repeat apply app_string_inv_head in H. by apply quote_inj.
Qed.

Lemma appendix_link_inj t s c p sp x y :
  get_ecfr_link_to_appendix t s c p sp x
  = get_ecfr_link_to_appendix t s c p sp y → x = y.
Proof.
  unfold get_ecfr_link_to_appendix. intros H.
  repeat apply app_string_inv_head in H. by apply quote_inj.
Qed.

Lemma quote_space (a b : string) :
  quote (a +:+ " " +:+ b) = quote a +:+ "%20" +:+ quote b.
Proof. by rewrite !quote_app. Qed.

Lemma quote_slash (a b : string) :
  quote (a +:+ "/" +:+ b) = quote a +:+ "/" +:+ quote b.
Proof. by rewrite !quote_app. Qed.

Lemma quote_no_space (x : string) : " "%char ∉ Str.chars (quote x).
Proof. intros H. by apply quote_chars in H as [H | H]. Qed.

(** C8, the claim as stated, fails on a code that holds [/]: [quote] keeps
    the slash, so the link of the code [1/2] holds no percent sign. *)
Lemma slash_in_leaf_code_not_encoded :
  quote "1/2" = "1/2"%string
  ∧ get_ecfr_link_to_section 29 "A" "I" "1" "B" "1/2"
    = "https://www.ecfr.gov/current/title-29/subtitle-A/chapter-I/part-1/subpart-B/section-1/2"%string
  ∧ ¬ Str.contains "%2F" (get_ecfr_link_to_section 29 "A" "I" "1" "B" "1/2")
  ∧ ¬ Str.contains "%2F" (get_ecfr_link_to_appendix 29 "A" "I" "1" "B" "1/2").
Proof.
  split; [reflexivity |]. split; [reflexivity |].
  split; intros H; apply (contains_chars _ _ "%") in H; try by left.
  all: revert H; apply (bool_decide_unpack (¬ _)); by vm_compute.
Qed.

(** C8 (amended): the two deep-link builders map distinct leaf codes of
    one ancestor chain to distinct links; the link holds the ancestor
    codes as they are and the leaf code through [quote]; [quote] turns
    every space into [%20], so that no space is left and the code [7 a]
    gives a link that holds [7%20a], and it keeps every [/]. *)
Theorem deep_links_injective_and_quoted :
  (∀ t s c p sp x y, x ≠ y →
     get_ecfr_link_to_section t s c p sp x
       ≠ get_ecfr_link_to_section t s c p sp y
     ∧ get_ecfr_link_to_appendix t s c p sp x
       ≠ get_ecfr_link_to_appendix t s c p sp y)
  ∧ (∀ t s c p sp x,
       Str.ends_with ("/subtitle-" +:+ s +:+ "/chapter-" +:+ c +:+ "/part-"
                      +:+ p +:+ "/subpart-" +:+ sp +:+ "/section-"
                      +:+ quote x)
         (get_ecfr_link_to_section t s c p sp x)
       ∧ Str.ends_with ("/subtitle-" +:+ s +:+ "/chapter-" +:+ c +:+ "/part-"
                        +:+ p +:+ "/subpart-" +:+ sp +:+ "/appendix-"
                        +:+ quote x)
           (get_ecfr_link_to_appendix t s c p sp x))
  ∧ (∀ a b, quote (a +:+ " " +:+ b) = quote a +:+ "%20" +:+ quote b)
  ∧ (∀ x, " "%char ∉ Str.chars (quote x))
  ∧ (∀ a b, quote (a +:+ "/" +:+ b) = quote a +:+ "/" +:+ quote b)
  ∧ Str.contains "7%20a" (get_ecfr_link_to_section 29 "A" "I" "1" "B" "7 a")
  ∧ Str.contains "7%20a" (get_ecfr_link_to_appendix 29 "A" "I" "1" "B" "7 a").
Proof.
  split; [|split; [|split; [|split; [|split; [|split]]]]].
  - intros t s c p sp x y Hxy. split; intros H; apply Hxy.
    + by eapply section_link_inj.
    + by eapply appendix_link_inj.
  - intros t s c p sp x. split.
    + exists ("https://www.ecfr.gov/current/title-" +:+ pretty t).
      unfold get_ecfr_link_to_section. by rewrite !app_string_assoc.
    + exists ("https://www.ecfr.gov/current/title-" +:+ pretty t).
      unfold get_ecfr_link_to_appendix. by rewrite !app_string_assoc.
  - apply quote_space.
  - apply quote_no_space.
  - apply quote_slash.
  - exists "https://www.ecfr.gov/current/title-29/subtitle-A/chapter-I/part-1/subpart-B/section-"%string, ""%string.
    reflexivity.
  - exists "https://www.ecfr.gov/current/title-29/subtitle-A/chapter-I/part-1/subpart-B/appendix-"%string, ""%string.
    reflexivity.
Qed.

Lemma deep_links_injective_and_quoted_witness :
  get_ecfr_link_to_section 29 "A" "I" "1" "B" "7 a"
    ≠ get_ecfr_link_to_section 29 "A" "I" "1" "B" "7%20a"
  ∧ get_ecfr_link_to_appendix 29 "A" "I" "1" "B" "7 a"
    ≠ get_ecfr_link_to_appendix 29 "A" "I" "1" "B" "7%20a".
Proof.
  apply (proj1 deep_links_injective_and_quoted 29 "A" "I" "1" "B"
           "7 a" "7%20a")%string.
  discriminate.
Defined.

End DeepLinks.

(** * The node renderer *)

Section Renderer.

Lemma find_absent (nm : string) (t : tag) :
  Forall (fun d => Soup.name d ≠ nm) (Soup.descendants t)
  → Soup.find nm t = None.
Proof.
  intros H. unfold Soup.find, Soup.find_all.
  induction H as [|d l Hd _ IH]; [done |].
  rewrite filter_cons. by destruct (decide (Soup.name d = nm)).
Qed.

Lemma find_present (nm : string) (t d : tag) :
  Soup.find nm t = Some d → d ∈ Soup.descendants t ∧ Soup.name d = nm.
Proof.
  unfold Soup.find, Soup.find_all. intros H.
  apply head_Some_elem_of in H. by apply list_elem_of_filter in H as [? ?].
Qed.

(** The rendered text, cut after the title and before the citation. *)
Lemma render_frame (element : tag) :
  process_cfr_xml_element element
  = (LF +:+ "    # " +:+ py_str (title element))
    +:+ (LF +:+ "    " +:+ LF +:+ "    " +:+ CFRToMd.text element +:+ LF
         +:+ "    " +:+ LF +:+ "    ")
    +:+ ("**" +:+ py_str (citation element) +:+ "**" +:+ LF +:+ "    ").
Proof.
  unfold process_cfr_xml_element. rewrite !app_string_assoc. reflexivity.
Qed.

Lemma render_starts (element : tag) :
  Str.starts_with (LF +:+ "    # " +:+ py_str (title element))
    (process_cfr_xml_element element).
Proof.
  rewrite render_frame. apply starts_with_app.
Qed.

Lemma render_ends (element : tag) :
  Str.ends_with ("**" +:+ py_str (citation element) +:+ "**" +:+ LF +:+ "    ")
    (process_cfr_xml_element element).
Proof.
  exists ((LF +:+ "    # " +:+ py_str (title element))
          +:+ (LF +:+ "    " +:+ LF +:+ "    " +:+ CFRToMd.text element +:+ LF
               +:+ "    " +:+ LF +:+ "    ")).
  by rewrite render_frame, !app_string_assoc.
Qed.

(** C5, the claim as stated, fails: the rendered text of a section with
    the heading [Purpose] and the citation [[60 FR 1234]] starts with a
    line feed and ends with four spaces. *)
Lemma render_not_bare_heading_and_citation :
  Soup.find "HEAD" purpose_section
    = Some (Tag "HEAD" ∅ [NavigableString "Purpose"])
  ∧ Soup.find "CITA" purpose_section
    = Some (Tag "CITA" ∅ [NavigableString "[60 FR 1234]"])
  ∧ ¬ Str.starts_with "# Purpose" (process_cfr_xml_element purpose_section)
  ∧ ¬ Str.ends_with "**[60 FR 1234]**"
        (process_cfr_xml_element purpose_section).
Proof.
  split; [reflexivity |]. split; [reflexivity |]. split.
  - intros H. by apply starts_with_head in H.
  - intros H. by apply ends_with_last in H.
Qed.

(** C5 (amended): when the heading and the citation of a leaf are present
    and hold the texts [h] and [c], the rendered text starts with a line
    feed, four spaces and [# h], and ends with [**c**], a line feed and
    four spaces. *)
Theorem render_heading_and_citation (element head cita : tag) (h c : string) :
  Soup.find "HEAD" element = Some head → Soup.string_of head = Some h →
  Soup.find "CITA" element = Some cita → Soup.string_of cita = Some c →
  Str.starts_with (LF +:+ "    # " +:+ h) (process_cfr_xml_element element)
  ∧ Str.ends_with ("**" +:+ c +:+ "**" +:+ LF +:+ "    ")
      (process_cfr_xml_element element).
Proof.
  intros Hh Hs Hc Hcs. split.
  - pose proof (render_starts element) as H.
    unfold title in H. by rewrite Hh, Hs in H.
  - pose proof (render_ends element) as H.
    unfold citation in H. by rewrite Hc, Hcs in H.
Qed.

Lemma render_heading_and_citation_witness :
  Str.starts_with (LF +:+ "    # " +:+ "Purpose")
    (process_cfr_xml_element purpose_section)
  ∧ Str.ends_with ("**" +:+ "[60 FR 1234]" +:+ "**" +:+ LF +:+ "    ")
      (process_cfr_xml_element purpose_section).
Proof.
  apply (render_heading_and_citation purpose_section
           (Tag "HEAD" ∅ [NavigableString "Purpose"])
           (Tag "CITA" ∅ [NavigableString "[60 FR 1234]"]));
    reflexivity.
Defined.

(** C6: a leaf with no heading below it is rendered with the title
    [NO TITLE], a leaf with no citation below it with the citation
    [NO CITE]; the renderer is a total function, so that neither absence
    stops it. *)
Theorem render_placeholders (element : tag) :
  (Forall (fun d => Soup.name d ≠ "HEAD"%string) (Soup.descendants element) →
   title element = Some "NO TITLE"%string
   ∧ Str.starts_with (LF +:+ "    # NO TITLE" +:+ LF)
       (process_cfr_xml_element element))
  ∧ (Forall (fun d => Soup.name d ≠ "CITA"%string) (Soup.descendants element) →
     citation element = Some "NO CITE"%string
     ∧ Str.ends_with (LF +:+ "    **NO CITE**" +:+ LF +:+ "    ")
         (process_cfr_xml_element element)).
Proof.
  split; intros H%find_absent.
  - assert (Ht : title element = Some "NO TITLE"%string)
      by (unfold title; by rewrite H).
    split; [done |].
    rewrite render_frame, Ht. rewrite !app_string_assoc.
    eexists. reflexivity.
  - assert (Hc : citation element = Some "NO CITE"%string)
      by (unfold citation; by rewrite H).
    split; [done |].
    exists (LF +:+ "    # " +:+ py_str (title element) +:+ LF +:+ "    "
            +:+ LF +:+ "    " +:+ CFRToMd.text element +:+ LF +:+ "    ").
    unfold process_cfr_xml_element. rewrite Hc, !app_string_assoc.
    reflexivity.
Qed.

Lemma render_placeholders_witness :
  (title bare_section = Some "NO TITLE"%string
   ∧ Str.starts_with (LF +:+ "    # NO TITLE" +:+ LF)
       (process_cfr_xml_element bare_section))
  ∧ (citation bare_section = Some "NO CITE"%string
     ∧ Str.ends_with (LF +:+ "    **NO CITE**" +:+ LF +:+ "    ")
         (process_cfr_xml_element bare_section)).
Proof.
  split.
  - apply (proj1 (render_placeholders bare_section)).
    simpl. repeat constructor; discriminate.
  - apply (proj2 (render_placeholders bare_section)).
    simpl. repeat constructor; discriminate.
Defined.

(** C7: when the paragraphs of a leaf are three, with the texts [A], none
    (no single text, or an empty one) and [B], the body of the rendered
    text is [A], three line feeds and [B], between the fixed lines of the
    template. *)
Theorem render_empty_paragraph (element p1 p2 p3 : tag) :
  Soup.find_all "P" element = [p1; p2; p3] →
  Soup.string_of p1 = Some "A"%string →
  py_truthy (Soup.string_of p2) = false →
  Soup.string_of p3 = Some "B"%string →
  CFRToMd.text element = "A" +:+ LF +:+ LF +:+ LF +:+ "B"
  ∧ process_cfr_xml_element element
    = LF +:+ "    # " +:+ py_str (title element) +:+ LF
      +:+ "    " +:+ LF
      +:+ "    " +:+ "A" +:+ LF +:+ LF +:+ LF +:+ "B" +:+ LF
      +:+ "    " +:+ LF
      +:+ "    **" +:+ py_str (citation element) +:+ "**" +:+ LF
      +:+ "    ".
Proof.
  intros Hp H1 H2 H3.
  assert (Ht : CFRToMd.text element = "A" +:+ LF +:+ LF +:+ LF +:+ "B").
  { unfold CFRToMd.text, paragraphs. rewrite Hp. simpl. by rewrite H1, H2, H3. }
  split; [done |].
  unfold process_cfr_xml_element. rewrite Ht. reflexivity.
Qed.

Lemma render_empty_paragraph_witness :
  CFRToMd.text bare_section = "A" +:+ LF +:+ LF +:+ LF +:+ "B"
  ∧ process_cfr_xml_element bare_section
    = LF +:+ "    # " +:+ py_str (title bare_section) +:+ LF
      +:+ "    " +:+ LF
      +:+ "    " +:+ "A" +:+ LF +:+ LF +:+ LF +:+ "B" +:+ LF
      +:+ "    " +:+ LF
      +:+ "    **" +:+ py_str (citation bare_section) +:+ "**" +:+ LF
      +:+ "    ".
Proof.
  apply (render_empty_paragraph bare_section
           (Tag "P" ∅ [NavigableString "A"]) (Tag "P" ∅ [])
           (Tag "P" ∅ [NavigableString "B"])); reflexivity.
Defined.

(** C10: when the heading of a leaf is present and has no single text
    (its [.string] is [None]), the title is printed as [None]: the rendered
    text starts with the line [# None], not with [# NO TITLE]. *)
Theorem render_heading_without_string (element head : tag) :
  Soup.find "HEAD" element = Some head →
  Soup.string_of head = None →
  title element = None
  ∧ py_str (title element) = "None"%string
  ∧ Str.starts_with (LF +:+ "    # None" +:+ LF)
      (process_cfr_xml_element element)
  ∧ ¬ Str.starts_with (LF +:+ "    # NO TITLE")
        (process_cfr_xml_element element).
Proof.
  intros Hh Hs.
  assert (Ht : title element = None) by (unfold title; by rewrite Hh).
  split; [done |]. split; [by rewrite Ht |].
  rewrite render_frame, Ht, !app_string_assoc. split.
  - eexists. reflexivity.
  - intros [r H]. simpl in H. discriminate.
Qed.

Lemma render_heading_without_string_witness :
  title marked_up_section = None
  ∧ py_str (title marked_up_section) = "None"%string
  ∧ Str.starts_with (LF +:+ "    # None" +:+ LF)
      (process_cfr_xml_element marked_up_section)
  ∧ ¬ Str.starts_with (LF +:+ "    # NO TITLE")
        (process_cfr_xml_element marked_up_section).
Proof.
  apply (render_heading_without_string marked_up_section
           (Tag "HEAD" ∅ [ NavigableString "Scope ";
                           Element (Tag "I" ∅ [NavigableString "et al."]) ]));
    reflexivity.
Defined.

End Renderer.

(** * The remote fetch *)

Section Fetch.

(** [get_title_date] sends one request, whatever comes of it. *)
Lemma get_title_date_requests title_number date_choice w w' r :
  get_title_date title_number date_choice w = (w', r) →
  same_but_requests w w'
    [("https://www.ecfr.gov/api/versioner/v1/titles"%string, [])].
Proof.
  unfold get_title_date, bind, requests_get, raise_for_status,
    response_titles, entry_get, ret, raise.
  intros H. unfold same_but_requests.
  repeat (case_match; simplify_eq/=); done.
Qed.



(** What the caller makes of the [None]: with no file in the cache,
    [fetch_and_parse_cfr_xml] makes the cache directory, passes the [None]
    to [write_text], which raises [TypeError], and writes no file. *)
Lemma fetch_failure_stops_the_caller (BeautifulSoup : string → tag) :
  snd (fetch_and_parse_cfr_xml BeautifulSoup 29 failing_world) = Raise TypeError
  ∧ files (fs (fst (fetch_and_parse_cfr_xml BeautifulSoup 29 failing_world)))
    = ∅
  ∧ dirs (fs (fst (fetch_and_parse_cfr_xml BeautifulSoup 29 failing_world)))
    = {[ ["cache"%string] ]}
  ∧ written (fst (fetch_and_parse_cfr_xml BeautifulSoup 29 failing_world))
    = [].
Proof. repeat split; vm_compute; reflexivity. Qed.

End Fetch.

(** * The effects of the walk on the record of writes *)

Section Writes.

Lemma bind_ret_inv {A B} (m : M A) (k : A → M B) w w' b :
  bind m k w = (w', Ret b) → ∃ w1 a, m w = (w1, Ret a) ∧ k a w1 = (w', Ret b).
Proof. unfold bind. destruct (m w) as [w1 [a | e]]; [eauto | discriminate]. Qed.

Lemma run_returns {A} (m : M A) (w : World) (a : A) :
  snd (m w) = Ret a → m w = (fst (m w), Ret a).
Proof. destruct (m w) as [w' r]. simpl. by intros ->. Qed.

Lemma within_bind {A} (m : M A) (k : A → M unit) ws :
  keeps m →
  (∀ a, (∃ w w', m w = (w', Ret a)) → writes_within (k a) ws) →
  writes_within (bind m k) ws.
Proof.
  intros Hm Hk w w' r H. unfold bind in H.
  destruct (m w) as [w1 [a | e]] eqn:E.
  - destruct (Hk a (ex_intro _ w (ex_intro _ w1 E)) _ _ _ H)
      as (ws' & Hw & Hp & Hr).
    exists ws'. by rewrite Hw, (Hm _ _ _ E).
  - injection H as <- <-. exists [].
    rewrite (Hm _ _ _ E), app_nil_r. split; [done |].
    split; [apply prefix_nil | discriminate].
Qed.

Lemma within_seq (m1 m2 : M unit) ws1 ws2 :
  writes_within m1 ws1 → writes_within m2 ws2 →
  writes_within (m1 ;; m2) (ws1 ++ ws2).
Proof.
  intros H1 H2 w w' r H. unfold bind in H.
  destruct (m1 w) as [w1 [[] | e]] eqn:E.
  - destruct (H1 _ _ _ E) as (ws1' & Hw1 & _ & Hr1).
    destruct (H2 _ _ _ H) as (ws2' & Hw2 & Hp2 & Hr2).
    rewrite (Hr1 eq_refl) in Hw1.
    exists (ws1 ++ ws2'). rewrite Hw2, Hw1, app_assoc. split; [done |].
    split; [by apply prefix_app | intros Hr; by rewrite (Hr2 Hr)].
  - injection H as <- <-.
    destruct (H1 _ _ _ E) as (ws1' & Hw1 & Hp1 & _).
    exists ws1'. split; [done |].
    split; [by apply prefix_app_r | discriminate].
Qed.

Lemma within_for_each {A} (l : list A) (body : A → M unit)
    (f : A → list (Path * string)) :
  (∀ x, x ∈ l → writes_within (body x) (f x)) →
  writes_within (for_each l body) (flat_map f l).
Proof.
  induction l as [|x l IH]; intros H; simpl.
  - intros w w' r [= <- <-]. exists []. by rewrite app_nil_r.
  - apply within_seq; [apply H; by left |].
    apply IH. intros y Hy. apply H. by right.
Qed.

Lemma keeps_print line : keeps (print line).
Proof. by intros w w' r [= <- _]. Qed.

Lemma keeps_getitem t key : keeps (getitem t key).
Proof.
  unfold getitem. intros w w' r. destruct (Soup.attrs t !! key);
    by intros [= <- _].
Qed.

Lemma getitem_value t w w' a :
  getitem t "N" w = (w', Ret a) → N_of t = a.
Proof.
  unfold getitem, N_of. destruct (Soup.attrs t !! "N"%string);
    by intros [= _ <-].
Qed.

Lemma keeps_path_exists p : keeps (path_exists p).
Proof. by intros w w' r [= <- _]. Qed.

Lemma keeps_make_parent c p : keeps (when c (path_mkdir_parents p)).
Proof.
  intros w w' r. destruct c; simpl; [| by intros [= <- _]].
  unfold path_mkdir_parents. destruct (Os.mkdir_parents p (fs w));
    by intros [= <- _].
Qed.

Lemma within_write_text p s :
  writes_within (path_write_text p (Some s)) [(p, s)].
Proof.
  intros w w' r. unfold path_write_text.
  destruct (Os.write_text p s (fs w)); intros [= <- <-].
  - by exists [(p, s)].
  - exists []. rewrite app_nil_r. split; [done |].
    split; [apply prefix_nil | discriminate].
Qed.

Lemma within_write_document file result :
  writes_within (write_document file result) [(file, Json.dumps result 4)].
Proof.
  unfold write_document.
  apply within_bind; [apply keeps_path_exists |]. intros parent_exists _.
  apply within_bind; [apply keeps_make_parent |]. intros _ _.
  apply within_write_text.
Qed.

Lemma within_process_section sc section :
  writes_within (process_section sc section)
    [leaf_write (sc, (IsSection, section))].
Proof.
  unfold process_section.
  apply within_bind; [apply keeps_getitem |].
  intros n (w & w' & <-%getitem_value). apply within_write_document.
Qed.

Lemma within_process_appendix sc appendix :
  writes_within (process_appendix sc appendix)
    [leaf_write (sc, (IsAppendix, appendix))].
Proof.
  unfold process_appendix.
  apply within_bind; [apply keeps_getitem |].
  intros n (w & w' & <-%getitem_value). apply within_write_document.
Qed.

Lemma flat_map_singleton {A B} (f : A → B) (l : list A) :
  flat_map (fun x => [f x]) l = map f l.
Proof. induction l as [|x l IH]; simpl; [done | by rewrite IH]. Qed.

Lemma map_flat_map {A B C} (f : B → C) (g : A → list B) (l : list A) :
  map f (flat_map g l) = flat_map (fun x => map f (g x)) l.
Proof.
  induction l as [|x l IH]; simpl; [done |]. by rewrite map_app, IH.
Qed.

Lemma flat_map_flat_map {A B C} (f : B → list C) (g : A → list B) (l : list A) :
  flat_map f (flat_map g l) = flat_map (fun x => flat_map f (g x)) l.
Proof.
  induction l as [|x l IH]; simpl; [done |]. by rewrite flat_map_app, IH.
Qed.

Lemma flat_map_map {A B C} (f : B → list C) (g : A → B) (l : list A) :
  flat_map f (map g l) = flat_map (fun x => f (g x)) l.
Proof. induction l as [|x l IH]; simpl; [done | by rewrite IH]. Qed.

Lemma within_leaves sc sub_part :
  writes_within
    (for_each (Soup.find_all "DIV8" sub_part) (process_section sc) ;;
     for_each (Soup.find_all "DIV9" sub_part) (process_appendix sc))
    (map leaf_write (map (pair sc) (leaves_of sub_part))).
Proof.
  unfold leaves_of. rewrite !map_app, !map_map.
  apply within_seq.
  - rewrite <- flat_map_singleton. apply within_for_each.
    intros x _. apply within_process_section.
  - rewrite <- flat_map_singleton. apply within_for_each.
    intros x _. apply within_process_appendix.
Qed.

(** The writes of the walk, loop by loop. *)
Lemma walk_leaves_loops root t :
  map leaf_write (walk_leaves root t)
  = flat_map (fun subtitle =>
      flat_map (fun chapter =>
        flat_map (fun subchapter =>
          flat_map (fun part =>
            flat_map (fun sub_part =>
              map leaf_write
                (map (pair (scope_of root t subtitle chapter subchapter
                              part sub_part))
                     (leaves_of sub_part)))
              (Soup.find_all "DIV6" root))
            (Soup.find_all "DIV5" root))
          (Soup.find_all "DIV4" chapter))
        (Soup.find_all "DIV3" subtitle))
      (Soup.find_all "DIV2" root).
Proof.
  unfold walk_leaves, subchapters.
  rewrite map_flat_map, flat_map_flat_map.
  apply flat_map_ext; intros subtitle.
  rewrite flat_map_flat_map. apply flat_map_ext; intros chapter.
  rewrite flat_map_map. apply flat_map_ext; intros subchapter.
  rewrite map_flat_map. apply flat_map_ext; intros part.
  by rewrite map_flat_map.
Qed.

(** The head of a loop body: the code of the tag is read, which fixes
    [N_of], and a line is printed. *)
Ltac enter_loop H :=
  apply within_bind; [apply keeps_getitem |];
  intros ? (? & ? & H%getitem_value);
  apply within_bind; [apply keeps_print |]; intros _ _.

(** The walk writes the documents of [walk_leaves], in that order, and
    nothing else; an exception leaves the documents of the first leaves. *)
Lemma walk_within root t :
  writes_within (walk root t) (map leaf_write (walk_leaves root t)).
Proof.
  rewrite walk_leaves_loops. unfold walk.
  apply within_bind.
  { intros w w' r. destruct (Soup.find "DIV1" root); by intros [= <- _]. }
  intros td (w & w' & Htd).
  assert (Hd : match Soup.find "DIV1" root with
               | Some title => description title
               | None => None
               end = td).
  { destruct (Soup.find "DIV1" root); by injection Htd. }
  apply within_bind; [apply keeps_print |]. intros _ _.
  apply within_for_each. intros subtitle _. enter_loop H2.
  apply within_for_each. intros chapter _. enter_loop H3.
  apply within_for_each. intros subchapter _. enter_loop H4.
  apply within_for_each. intros part _. enter_loop H5.
  apply within_for_each. intros sub_part _. enter_loop H6.
  unfold scope_of. rewrite Hd, H2, H3, H4, H5, H6.
  apply within_leaves.
Qed.

Lemma prefix_map_take {A B} (f : A → B) (l : list A) (k : list B) :
  k `prefix_of` map f l → k = map f (take (List.length k) l).
Proof.
  intros [rest H]. rewrite <- firstn_map, H.
  by rewrite take_app_length.
Qed.

(** Whatever comes of a walk, its writes are the documents of
    [leaves_written], which are all the leaves when the walk returns. *)
Lemma walk_outcome root t w w' r :
  walk root t w = (w', r) →
  written w' = written w ++ map leaf_write (leaves_written root t w w')
  ∧ leaves_written root t w w' `prefix_of` walk_leaves root t
  ∧ (r = Ret tt → leaves_written root t w w' = walk_leaves root t).
Proof.
  intros H. destruct (walk_within root t _ _ _ H) as (ws & Hw & Hp & Hr).
  assert (Hn : (List.length (written w') - List.length (written w))%nat
               = List.length ws).
  { rewrite Hw, length_app. lia. }
  unfold leaves_written. rewrite Hn. split; [| split].
  - rewrite Hw. f_equal. by apply prefix_map_take.
  - apply prefix_take.
  - intros Hret. rewrite (Hr Hret), length_map. apply firstn_all.
Qed.

(** A walk stopped by an exception: the second section has no code, and
    the document of the first section is the only write. *)
Lemma interrupted_walk :
  snd (walk missing_code_title 29 fresh_world) = Raise (KeyError "N")
  ∧ List.length (walk_leaves missing_code_title 29) = 2%nat
  ∧ List.length (leaves_written missing_code_title 29 fresh_world
                   (fst (walk missing_code_title 29 fresh_world))) = 1%nat
  ∧ map fst (written (fst (walk missing_code_title 29 fresh_world)))
    = [ ["documents"; "title_29"; "subtitle_A"; "chap_I"; "subchapt_B";
         "part_1"; "subpart_C"; "1.json"] ]%string.
Proof. repeat split; vm_compute; reflexivity. Qed.

Lemma walk_written root t w w' :
  walk root t w = (w', Ret tt) →
  written w' = written w ++ map leaf_write (walk_leaves root t).
Proof.
  intros H. destruct (walk_outcome _ _ _ _ _ H) as (Hw & _ & Hr).
  by rewrite <- (Hr eq_refl).
Qed.

End Writes.

(** * The enumeration of parts and subparts *)

Section Rescan.

Lemma flat_map_const {A B} (c : list B) (l : list A) :
  flat_map (fun _ => c) l = List.concat (replicate (List.length l) c).
Proof. induction l as [|x l IH]; simpl; [done | by rewrite IH]. Qed.

Lemma concat_replicate_mul {A} (a b : nat) (c : list A) :
  List.concat (replicate (a * b) c) = List.concat (replicate a (List.concat (replicate b c))).
Proof.
  induction a as [|a IH]; simpl; [done |].
  by rewrite replicate_add, concat_app, IH.
Qed.

Lemma length_concat_replicate {A} (n : nat) (c : list A) :
  List.length (List.concat (replicate n c)) = (n * List.length c)%nat.
Proof.
  induction n as [|n IH]; simpl; [done |]. by rewrite length_app, IH.
Qed.

(** The leaves of the walk are the leaves below all the subparts of the
    document, once for every pair of a subchapter and a part. *)
Lemma walk_leaves_repeat root t :
  map snd (walk_leaves root t)
  = List.concat (replicate (List.length (subchapters root)
                       * List.length (Soup.find_all "DIV5" root))
              (flat_map leaves_of (Soup.find_all "DIV6" root))).
Proof.
  unfold walk_leaves. rewrite concat_replicate_mul, <- !flat_map_const.
  rewrite map_flat_map. apply flat_map_ext; intros [[subtitle chapter] subchapter].
  rewrite map_flat_map. apply flat_map_ext; intros part.
  rewrite map_flat_map. apply flat_map_ext; intros sub_part.
  rewrite map_map. simpl. by rewrite map_id.
Qed.

(** C1, the claim as stated, fails: in a title with one subchapter and two
    parts, the one section of the only subpart is written twice, once for
    each part, though the subpart lies in the first part only. *)
Lemma leaf_processed_once_per_part :
  List.length (subchapters two_part_title) = 1%nat
  ∧ flat_map leaves_of (Soup.find_all "DIV6" two_part_title)
    = [(IsSection, purpose_section)]
  ∧ snd (walk two_part_title 29 fresh_world) = Ret tt
  ∧ map fst (written (fst (walk two_part_title 29 fresh_world)))
    = [ ["documents"; "title_29"; "subtitle_A"; "chap_I"; "subchapt_B";
         "part_1"; "subpart_C"; "1.json"];
        ["documents"; "title_29"; "subtitle_A"; "chap_I"; "subchapt_B";
         "part_2"; "subpart_C"; "1.json"] ]%string.
Proof. repeat split; vm_compute; reflexivity. Qed.

(** C1 (amended): a walk that returns has written the documents of
    [walk_leaves]: for every subchapter the parts are all the [DIV5] of the
    whole document, and for every part the subparts are all the [DIV6] of
    the whole document.  So the leaves written are the leaves below all the
    subparts of the document, repeated once for every pair of a subchapter
    and a part, and their number is the product of the three numbers. *)
Theorem walk_rescans_whole_title (root : tag) (t : Z) (w w' : World) :
  walk root t w = (w', Ret tt) →
  written w' = written w ++ map leaf_write (walk_leaves root t)
  ∧ map snd (walk_leaves root t)
    = List.concat (replicate (List.length (subchapters root)
                         * List.length (Soup.find_all "DIV5" root))
                (flat_map leaves_of (Soup.find_all "DIV6" root)))
  ∧ List.length (walk_leaves root t)
    = (List.length (subchapters root) * List.length (Soup.find_all "DIV5" root)
       * List.length (flat_map leaves_of (Soup.find_all "DIV6" root)))%nat.
Proof.
  intros H. split; [by apply walk_written |]. split.
  - apply walk_leaves_repeat.
  - rewrite <- (length_map snd), walk_leaves_repeat.
    apply length_concat_replicate.
Qed.

Lemma walk_rescans_whole_title_witness :
  written (fst (walk two_part_title 29 fresh_world))
  = written fresh_world ++ map leaf_write (walk_leaves two_part_title 29)
  ∧ map snd (walk_leaves two_part_title 29)
    = List.concat (replicate (List.length (subchapters two_part_title)
                         * List.length (Soup.find_all "DIV5" two_part_title))
                (flat_map leaves_of (Soup.find_all "DIV6" two_part_title)))
  ∧ List.length (walk_leaves two_part_title 29)
    = (List.length (subchapters two_part_title)
       * List.length (Soup.find_all "DIV5" two_part_title)
       * List.length (flat_map leaves_of (Soup.find_all "DIV6" two_part_title)))%nat.
Proof.
  apply (walk_rescans_whole_title two_part_title 29 fresh_world).
  apply run_returns. vm_compute. reflexivity.
Defined.

End Rescan.

(** * The path of a document *)

Section Paths.

Lemma split_no_sep (sep : ascii) (a : string) :
  sep ∉ Str.chars a → Str.split sep a = [a].
Proof.
  induction a as [|c a IH]; simpl; [done |].
  intros H. apply not_elem_of_cons in H as [Hc Ha].
  destruct (Ascii.eqb_spec c sep) as [-> | _]; [done |].
  by rewrite (IH Ha).
Qed.

Lemma split_app_sep (sep : ascii) (a r : string) :
  sep ∉ Str.chars a →
  Str.split sep (a +:+ String sep r) = a :: Str.split sep r.
Proof.
  induction a as [|c a IH]; simpl.
  - intros _. by rewrite Ascii.eqb_refl.
  - intros H. apply not_elem_of_cons in H as [Hc Ha].
    destruct (Ascii.eqb_spec c sep) as [-> | _]; [done |].
    by rewrite (IH Ha).
Qed.

Lemma split_join (parts : list string) :
  parts ≠ [] → Forall no_slash parts →
  Str.split "/" (Str.join "/" parts) = parts.
Proof.
  induction parts as [|p [|q rest] IH]; [done | |].
  - intros _ [Hp _]%Forall_cons. by apply split_no_sep.
  - intros _ [Hp Hrest]%Forall_cons.
    change (Str.join "/" (p :: q :: rest))
      with (p +:+ String "/" (Str.join "/" (q :: rest))).
    rewrite split_app_sep by done. f_equal. by apply IH.
Qed.

Lemma no_slash_app (a b : string) :
  no_slash a → no_slash b → no_slash (a +:+ b).
Proof.
  unfold no_slash. rewrite chars_app, not_elem_of_app. auto.
Qed.

Lemma no_slash_literal (a : string) :
  bool_decide ("/"%char ∉ Str.chars a) = true → no_slash a.
Proof. apply bool_decide_eq_true_1. Qed.

Lemma pretty_N_go_no_slash (x : N) (s : string) :
  no_slash s → no_slash (pretty_N_go x s).
Proof.
  revert s. induction (N.lt_wf_0 x) as [x _ IH]; intros s Hs.
  assert (x = 0 ∨ 0 < x)%N as [-> | Hx] by lia.
  - by rewrite pretty_N_go_0.
  - rewrite pretty_N_go_step by done. apply IH; [by apply N.div_lt |].
    unfold no_slash in *. simpl. apply not_elem_of_cons. split; [|done].
    unfold pretty_N_char. by repeat case_match.
Qed.

Lemma pretty_N_no_slash (x : N) : no_slash (pretty x).
Proof.
  unfold pretty, pretty_N. case_decide.
  - by apply no_slash_literal.
  - apply pretty_N_go_no_slash. by apply no_slash_literal.
Qed.

Lemma pretty_Z_no_slash (z : Z) : no_slash (pretty z).
Proof.
  destruct z as [|p|p]; unfold pretty, pretty_Z.
  - by apply no_slash_literal.
  - apply pretty_N_no_slash.
  - apply no_slash_app; [by apply no_slash_literal | apply pretty_N_no_slash].
Qed.

Lemma hex_upper_not_slash (n : N) : (n < 16)%N → hex_upper n ≠ "/"%char.
Proof.
  intros H.
  assert (Hc : n ∈ (N.of_nat <$> seq 0 16)).
  { apply list_elem_of_fmap. exists (N.to_nat n). split; [lia |].
    apply list_elem_of_In, in_seq. lia. }
  simpl in Hc. set_unfold. by destruct_or!; subst n.
Qed.

Lemma no_slash_quote (s : string) : no_slash s → no_slash (quote s).
Proof.
  unfold no_slash. induction s as [|a s IH]; simpl; [done |].
  intros [Ha Hs]%not_elem_of_cons.
  rewrite chars_app, not_elem_of_app. split; [|auto].
  destruct (quoter_head a) as [[_ ->] | [_ ->]]; simpl.
  - apply not_elem_of_cons. split; [done | apply not_elem_of_nil].
  - pose proof (N_ascii_bounded a).
    rewrite !not_elem_of_cons. repeat split; try done.
    + intros E. symmetry in E. revert E. apply hex_upper_not_slash.
      apply N.Div0.div_lt_upper_bound. lia.
    + intros E. symmetry in E. revert E. apply hex_upper_not_slash.
      by apply N.mod_lt.
    + apply not_elem_of_nil.
Qed.

Lemma is_part_json (x : string) : Pathlib.is_part (x +:+ ".json") = true.
Proof.
  destruct x as [|c [|c' x]]; [done | |]; unfold Pathlib.is_part; simpl;
    by destruct (Ascii.eqb c ".").
Qed.

(** The parts of the path of a document, when no code holds a slash. *)
Lemma document_file_parts (sc : Scope) (n : string) :
  scope_no_slash sc → no_slash n →
  document_file sc n
  = [ "documents"%string; "title_" +:+ pretty (title_num sc);
      "subtitle_" +:+ subtitle_number sc; "chap_" +:+ chapt_number sc;
      "subchapt_" +:+ subchapter_number sc; "part_" +:+ part_number sc;
      "subpart_" +:+ sub_part_number sc; quote n +:+ ".json" ].
Proof.
  intros (H1 & H2 & H3 & H4 & H5) Hn.
  pose proof (pretty_Z_no_slash (title_num sc)) as H0.
  apply no_slash_quote in Hn.
  unfold document_file, Pathlib.mk.
  assert (E : "./documents/title_" +:+ pretty (title_num sc)
              +:+ "/subtitle_" +:+ subtitle_number sc
              +:+ "/chap_" +:+ chapt_number sc
              +:+ "/subchapt_" +:+ subchapter_number sc
              +:+ "/part_" +:+ part_number sc
              +:+ "/subpart_" +:+ sub_part_number sc
              +:+ "/" +:+ quote n +:+ ".json"
              = Str.join "/"
                  [ "."%string; "documents"%string;
                    "title_" +:+ pretty (title_num sc);
                    "subtitle_" +:+ subtitle_number sc;
                    "chap_" +:+ chapt_number sc;
                    "subchapt_" +:+ subchapter_number sc;
                    "part_" +:+ part_number sc;
                    "subpart_" +:+ sub_part_number sc;
                    quote n +:+ ".json" ]).
  { generalize (pretty (title_num sc)). intros pt.
    cbn [Str.join]. rewrite !app_string_assoc. reflexivity. }
  rewrite E, split_join; [| done |].
  - cbn [List.filter]. rewrite is_part_json. reflexivity.
  - repeat (apply Forall_cons; split);
      try (apply no_slash_app; [by apply no_slash_literal | done]);
      try by apply no_slash_literal.
    + apply no_slash_app; [done | by apply no_slash_literal].
    + apply Forall_nil_2.
Qed.

End Paths.

(** * The files of the documents *)

Section DocumentFiles.

Lemma document_file_inj (sc1 sc2 : Scope) (n1 n2 : string) :
  scope_no_slash sc1 → no_slash n1 → scope_no_slash sc2 → no_slash n2 →
  document_file sc1 n1 = document_file sc2 n2 →
  chain sc1 = chain sc2 ∧ n1 = n2.
Proof.
  intros H1 Hn1 H2 Hn2.
  rewrite !document_file_parts by done.
  intros [= Ht Hs Hc Hsc Hp Hsp Hn]. unfold chain. split.
  - apply (inj pretty) in Ht. by rewrite Ht, Hs, Hc, Hsc, Hp, Hsp.
  - apply app_string_inv_tail in Hn. by apply quote_inj.
Qed.

Lemma document_file_chain (sc1 sc2 : Scope) (n : string) :
  chain sc1 = chain sc2 → document_file sc1 n = document_file sc2 n.
Proof.
  unfold chain, document_file. by intros [= -> -> -> -> -> ->].
Qed.

(** C3, the claim as stated, fails in both halves.  The section of a part
    that has no subpart is a leaf of the document and gets no file.  And
    two writes of one walk go to one path though the codes of their
    subtitles and chapters differ, because a code that holds a slash is put
    into the path as it is. *)
Lemma leaf_without_file_and_shared_path :
  (Soup.find_all "DIV8" part_without_subpart = [purpose_section]
   ∧ snd (walk part_without_subpart 29 fresh_world) = Ret tt
   ∧ written (fst (walk part_without_subpart 29 fresh_world)) = [])
  ∧ (snd (walk slash_title 29 fresh_world) = Ret tt
     ∧ map fst (written (fst (walk slash_title 29 fresh_world)))
       = [ ["documents"; "title_29"; "subtitle_A"; "chap_B"; "chap_C";
            "subchapt_S"; "part_1"; "subpart_X"; "1.json"];
           ["documents"; "title_29"; "subtitle_A"; "chap_B"; "chap_C";
            "subchapt_S"; "part_1"; "subpart_X"; "1.json"] ]%string
     ∧ map (fun e => (chain (fst e), N_of (snd (snd e))))
         (walk_leaves slash_title 29)
       = [ (29, ["A/chap_B"; "C"; "S"; "1"; "X"], "1");
           (29, ["A"; "B/chap_C"; "S"; "1"; "X"], "1") ]%string).
Proof.
  split; [split; [| split] | split; [| split]]; vm_compute; reflexivity.
Qed.

(** C3 (amended): whatever comes of a walk, its writes are the documents
    of the leaves it has reached (sections and appendices below a subpart,
    each with the codes of the loops around it), and each is written to the
    path that [document_file] computes from the title number, the five
    codes of the loops and the code of the leaf; when none of these codes
    holds a slash, two such writes go to the same path exactly when their
    chains of codes and their leaf codes are the same. *)
Theorem document_paths_injective
    (root : tag) (t : Z) (w w' : World) (r : result unit)
    (e1 e2 : Scope * (leaf_kind * tag)) :
  walk root t w = (w', r) →
  e1 ∈ leaves_written root t w w' → e2 ∈ leaves_written root t w w' →
  scope_no_slash (fst e1) → no_slash (N_of (snd (snd e1))) →
  scope_no_slash (fst e2) → no_slash (N_of (snd (snd e2))) →
  written w' = written w ++ map leaf_write (leaves_written root t w w')
  ∧ leaf_write e1 ∈ written w' ∧ leaf_write e2 ∈ written w'
  ∧ fst (leaf_write e1) = document_file (fst e1) (N_of (snd (snd e1)))
  ∧ fst (leaf_write e2) = document_file (fst e2) (N_of (snd (snd e2)))
  ∧ (fst (leaf_write e1) = fst (leaf_write e2)
     ↔ chain (fst e1) = chain (fst e2)
       ∧ N_of (snd (snd e1)) = N_of (snd (snd e2))).
Proof.
  intros Hw He1 He2 H1 Hn1 H2 Hn2.
  apply walk_outcome in Hw as (Hw & _ & _).
  split; [done |].
  split; [| split; [| split; [done | split; [done |]]]].
  - rewrite Hw, elem_of_app. right. by apply list_elem_of_fmap_2.
  - rewrite Hw, elem_of_app. right. by apply list_elem_of_fmap_2.
  - unfold leaf_write, leaf_file. simpl. split.
    + by apply document_file_inj.
    + intros [Hc ->]. by apply document_file_chain.
Qed.

Lemma document_paths_injective_witness :
  ∃ e1 e2,
    walk_leaves two_part_title 29 = [e1; e2]
    ∧ (written (fst (walk two_part_title 29 fresh_world))
       = written fresh_world
         ++ map leaf_write
              (leaves_written two_part_title 29 fresh_world
                 (fst (walk two_part_title 29 fresh_world)))
       ∧ leaf_write e1 ∈ written (fst (walk two_part_title 29 fresh_world))
       ∧ leaf_write e2 ∈ written (fst (walk two_part_title 29 fresh_world))
       ∧ fst (leaf_write e1) = document_file (fst e1) (N_of (snd (snd e1)))
       ∧ fst (leaf_write e2) = document_file (fst e2) (N_of (snd (snd e2)))
       ∧ (fst (leaf_write e1) = fst (leaf_write e2)
          ↔ chain (fst e1) = chain (fst e2)
            ∧ N_of (snd (snd e1)) = N_of (snd (snd e2)))).
Proof.
  eexists _, _. split; [vm_compute; reflexivity |].
  apply (document_paths_injective two_part_title 29 fresh_world _ (Ret tt)).
  - apply run_returns. vm_compute. reflexivity.
  - vm_compute. left.
  - vm_compute. right. left.
  - repeat split; apply no_slash_literal; vm_compute; reflexivity.
  - apply no_slash_literal. vm_compute. reflexivity.
  - repeat split; apply no_slash_literal; vm_compute; reflexivity.
  - apply no_slash_literal. vm_compute. reflexivity.
Defined.

End DocumentFiles.

(** * The metadata of the documents *)

Section Metadata.

(** C4, the claim as stated, fails: the document written for the section
    of [single_section_title], which lies in the subtitle [A], has a
    metadata object with thirteen keys, none of them for the subtitle. *)
Lemma metadata_without_subtitle :
  ∃ e metadata,
    walk_leaves single_section_title 29 = [e]
    ∧ snd (walk single_section_title 29 fresh_world) = Ret tt
    ∧ written (fst (walk single_section_title 29 fresh_world)) = [leaf_write e]
    ∧ subtitle_number (fst e) = "A"%string
    ∧ Json.get "metadata" (leaf_result (fst e) (snd e)) = Some metadata
    ∧ Json.keys metadata
      = [ "title_number"; "title_description"; "chapter_number";
          "chapter_description"; "subchapter_number";
          "subchapter_description"; "part_number"; "part_description";
          "sub_part_number"; "sub_part_description"; "section_number";
          "section_description"; "url" ]%string
    ∧ Json.get "subtitle_number" metadata = None
    ∧ Json.get "subtitle_description" metadata = None.
Proof.
  eexists _, _. split; [vm_compute; reflexivity |].
  repeat split; vm_compute; reflexivity.
Qed.

(** C4 (amended): whatever comes of a walk, its writes are the documents
    of the leaves it has reached, and the document of such a leaf has a
    metadata object that holds the number and the description of the
    title, the code and the description of the chapter, of the subchapter,
    of the part and of the subpart of the loops around the leaf, the code
    and the description of the leaf, and its deep link; it holds neither
    the code nor the description of the subtitle. *)
Theorem metadata_of_documents
    (root : tag) (t : Z) (w w' : World) (r : result unit)
    (e : Scope * (leaf_kind * tag)) :
  walk root t w = (w', r) →
  e ∈ leaves_written root t w w' →
  written w' = written w ++ map leaf_write (leaves_written root t w w')
  ∧ (leaf_file e, Json.dumps (leaf_result (fst e) (snd e)) 4) ∈ written w'
  ∧ ∃ metadata,
      Json.get "metadata" (leaf_result (fst e) (snd e)) = Some metadata
      ∧ Json.keys metadata
        = [ "title_number"; "title_description"; "chapter_number";
            "chapter_description"; "subchapter_number";
            "subchapter_description"; "part_number"; "part_description";
            "sub_part_number"; "sub_part_description";
            kind_name (fst (snd e)) +:+ "_number";
            kind_name (fst (snd e)) +:+ "_description"; "url" ]%string
      ∧ Json.get "title_number" metadata = Some (JNum (title_num (fst e)))
      ∧ Json.get "title_description" metadata
        = Some (JOpt (title_description (fst e)))
      ∧ Json.get "chapter_number" metadata
        = Some (JStr (chapt_number (fst e)))
      ∧ Json.get "chapter_description" metadata
        = Some (JOpt (chapt_description (fst e)))
      ∧ Json.get "subchapter_number" metadata
        = Some (JStr (subchapter_number (fst e)))
      ∧ Json.get "subchapter_description" metadata
        = Some (JOpt (subchapter_description (fst e)))
      ∧ Json.get "part_number" metadata = Some (JStr (part_number (fst e)))
      ∧ Json.get "part_description" metadata
        = Some (JOpt (part_description (fst e)))
      ∧ Json.get "sub_part_number" metadata
        = Some (JStr (sub_part_number (fst e)))
      ∧ Json.get "sub_part_description" metadata
        = Some (JOpt (sub_part_description (fst e)))
      ∧ Json.get (kind_name (fst (snd e)) +:+ "_number") metadata
        = Some (JStr (N_of (snd (snd e))))
      ∧ Json.get (kind_name (fst (snd e)) +:+ "_description") metadata
        = Some (JOpt (description (snd (snd e))))
      ∧ Json.get "url" metadata = Some (JStr (leaf_link (fst e) (snd e)))
      ∧ Json.get "subtitle_number" metadata = None
      ∧ Json.get "subtitle_description" metadata = None.
Proof.
  intros Hw He. apply walk_outcome in Hw as (Hw & _ & _).
  split; [done |]. split.
  - rewrite Hw, elem_of_app. right.
    by apply (list_elem_of_fmap_2 leaf_write).
  - destruct e as [sc [[] leaf]]; eexists; (split; [reflexivity |]);
      repeat split.
Qed.

Lemma metadata_of_documents_witness :
  ∃ e, walk_leaves single_section_title 29 = [e]
  ∧ (written (fst (walk single_section_title 29 fresh_world))
     = written fresh_world
       ++ map leaf_write
            (leaves_written single_section_title 29 fresh_world
               (fst (walk single_section_title 29 fresh_world)))
     ∧ (leaf_file e, Json.dumps (leaf_result (fst e) (snd e)) 4)
         ∈ written (fst (walk single_section_title 29 fresh_world))
     ∧ ∃ metadata,
      Json.get "metadata" (leaf_result (fst e) (snd e)) = Some metadata
      ∧ Json.keys metadata
        = [ "title_number"; "title_description"; "chapter_number";
            "chapter_description"; "subchapter_number";
            "subchapter_description"; "part_number"; "part_description";
            "sub_part_number"; "sub_part_description";
            kind_name (fst (snd e)) +:+ "_number";
            kind_name (fst (snd e)) +:+ "_description"; "url" ]%string
      ∧ Json.get "title_number" metadata = Some (JNum (title_num (fst e)))
      ∧ Json.get "title_description" metadata
        = Some (JOpt (title_description (fst e)))
      ∧ Json.get "chapter_number" metadata
        = Some (JStr (chapt_number (fst e)))
      ∧ Json.get "chapter_description" metadata
        = Some (JOpt (chapt_description (fst e)))
      ∧ Json.get "subchapter_number" metadata
        = Some (JStr (subchapter_number (fst e)))
      ∧ Json.get "subchapter_description" metadata
        = Some (JOpt (subchapter_description (fst e)))
      ∧ Json.get "part_number" metadata = Some (JStr (part_number (fst e)))
      ∧ Json.get "part_description" metadata
        = Some (JOpt (part_description (fst e)))
      ∧ Json.get "sub_part_number" metadata
        = Some (JStr (sub_part_number (fst e)))
      ∧ Json.get "sub_part_description" metadata
        = Some (JOpt (sub_part_description (fst e)))
      ∧ Json.get (kind_name (fst (snd e)) +:+ "_number") metadata
        = Some (JStr (N_of (snd (snd e))))
      ∧ Json.get (kind_name (fst (snd e)) +:+ "_description") metadata
        = Some (JOpt (description (snd (snd e))))
      ∧ Json.get "url" metadata = Some (JStr (leaf_link (fst e) (snd e)))
      ∧ Json.get "subtitle_number" metadata = None
      ∧ Json.get "subtitle_description" metadata = None).
Proof.
  eexists. split; [vm_compute; reflexivity |].
  apply (metadata_of_documents single_section_title 29 fresh_world _ (Ret tt)).
  - apply run_returns. vm_compute. reflexivity.
  - vm_compute. left.
Defined.

End Metadata.

(** * Making directories and writing files *)

Section FileSystem.

Lemma is_dir_nil fs : Os.is_dir [] fs = true.
Proof. apply bool_decide_eq_true_2. by left. Qed.

Lemma is_dir_add p q fs :
  Os.is_dir q {| files := files fs; dirs := {[p]} ∪ dirs fs |} = true
  ↔ q = p ∨ Os.is_dir q fs = true.
Proof.
  unfold Os.is_dir. rewrite !bool_decide_eq_true. simpl.
  rewrite elem_of_union, elem_of_singleton. tauto.
Qed.

Lemma parent_snoc (p : Path) (x : string) : Pathlib.parent (p ++ [x]) = p.
Proof. apply removelast_last. Qed.

Lemma snoc_not_prefix (p : Path) (x : string) : ¬ (p ++ [x]) `prefix_of` p.
Proof.
  intros H%prefix_length. rewrite length_app in H. simpl in H. lia.
Qed.

Lemma mkdir_rev_eq rp exist_ok fs :
  Os.mkdir_rev rp exist_ok fs
  = match Os.mkdir (rev rp) fs with
    | Ret fs' => Ret fs'
    | Raise (FileNotFoundError q) =>
        match rp with
        | [] => Raise (FileNotFoundError q)
        | _ :: rparent =>
            match Os.mkdir_rev rparent true fs with
            | Raise e => Raise e
            | Ret fs1 =>
                match Os.mkdir (rev rp) fs1 with
                | Ret fs2 => Ret fs2
                | Raise (FileNotFoundError q') => Raise (FileNotFoundError q')
                | Raise e =>
                    if exist_ok && Os.is_dir (rev rp) fs1 then Ret fs1
                    else Raise e
                end
            end
        end
    | Raise e => if exist_ok && Os.is_dir (rev rp) fs then Ret fs else Raise e
    end.
Proof. by destruct rp. Qed.

Lemma is_dir_elem (q : Path) (f : FileSystem) :
  Os.is_dir q f = true ↔ q = [] ∨ q ∈ dirs f.
Proof. unfold Os.is_dir. by rewrite bool_decide_eq_true. Qed.

Lemma on_file_clear (p : Path) (f : FileSystem) :
  (∀ q, q ≠ [] → q `prefix_of` p → Os.is_file q f = false) →
  Os.on_file p f = false.
Proof.
  intros Hf. apply not_true_is_false. unfold Os.on_file, Pathlib.ancestors.
  intros (q & Hin & Hq)%existsb_exists.
  apply in_map_iff in Hin as (n & <- & Hn%in_seq).
  rewrite Hf in Hq; [done | |].
  - intros E%(f_equal List.length). rewrite length_take in E. simpl in E. lia.
  - exists (drop n p). by rewrite take_drop.
Qed.

(** Making a directory and its missing parents succeeds when no regular
    file lies on the way. *)
Lemma mkdir_rev_tree rp exist_ok f :
  (∀ q, q ≠ [] → q `prefix_of` rev rp → Os.is_file q f = false) →
  exist_ok = true ∨ Os.is_dir (rev rp) f = false →
  ∃ f', Os.mkdir_rev rp exist_ok f = Ret f'
        ∧ files f' = files f
        ∧ Os.is_dir (rev rp) f' = true
        ∧ ∀ q, q ∈ dirs f' → q ∈ dirs f ∨ (q ≠ [] ∧ q `prefix_of` rev rp).
Proof.
  revert exist_ok f. induction rp as [|x rparent IH]; intros exist_ok f Hf Hok.
  - rewrite mkdir_rev_eq. unfold Os.mkdir, Os.exists_. simpl.
    rewrite is_dir_nil. simpl.
    destruct Hok as [-> | Hok]; [| by rewrite is_dir_nil in Hok].
    simpl. exists f. rewrite is_dir_nil. auto.
  - assert (Hfile : Os.is_file (rev rparent ++ [x]) f = false).
    { apply Hf; [by destruct (rev rparent) | done]. }
    rewrite mkdir_rev_eq. unfold Os.mkdir at 1, Os.exists_.
    simpl rev in *. rewrite parent_snoc, Hfile, orb_false_r.
    destruct (Os.is_dir (rev rparent ++ [x]) f) eqn:Hp.
    { destruct Hok as [-> | Hok]; [| done]. simpl. exists f. auto. }
    destruct (Os.is_dir (rev rparent) f) eqn:Hparent.
    { eexists. split; [reflexivity |]. split; [done |]. split.
      - apply is_dir_add. by left.
      - simpl. intros q [->%elem_of_singleton | Hq]%elem_of_union; auto.
        right. split; [by destruct (rev rparent) | done]. }
    rewrite (on_file_clear _ _ Hf).
    destruct (IH true f) as (f1 & -> & Hf1 & Hd1 & Hsub1).
    { intros q Hq Hpre. apply Hf; [done | by apply prefix_app_r]. }
    { by left. }
    assert (Hp1 : Os.is_dir (rev rparent ++ [x]) f1 = false).
    { apply not_true_is_false. intros [E | E]%is_dir_elem.
      - by destruct (rev rparent).
      - apply Hsub1 in E as [E | [_ E]].
        + assert (Os.is_dir (rev rparent ++ [x]) f = true)
            by (apply is_dir_elem; by right). congruence.
        + by apply snoc_not_prefix in E. }
    assert (Hfile1 : Os.is_file (rev rparent ++ [x]) f1 = false)
      by (unfold Os.is_file in *; by rewrite Hf1).
    unfold Os.mkdir, Os.exists_.
    rewrite Hp1, Hfile1, parent_snoc, Hd1. simpl.
    eexists. split; [reflexivity |]. split; [done |]. split.
    + apply is_dir_add. by left.
    + simpl. intros q [->%elem_of_singleton | Hq]%elem_of_union.
      * right. split; [by destruct (rev rparent) | done].
      * apply Hsub1 in Hq as [Hq | [Hq1 Hq2]]; [by left | right].
        split; [done | by apply prefix_app_r].
Qed.

(** Writing a document succeeds when no regular file lies on the way to
    its directory and its path is not a directory. *)
Lemma write_document_tree (parent : Path) (x : string) (result : json)
    (w : World) :
  (∀ q, q ≠ [] → q `prefix_of` parent → Os.is_file q (fs w) = false) →
  Os.is_dir (parent ++ [x]) (fs w) = false →
  ∃ f',
    write_document (parent ++ [x]) result w
    = ({| fs := f'; stdout := stdout w; net := net w;
          requests := requests w;
          written := written w ++ [(parent ++ [x], Json.dumps result 4)] |},
       Ret tt)
    ∧ files f' = <[parent ++ [x] := Json.dumps result 4]> (files (fs w))
    ∧ ∀ q, q ∈ dirs f' →
           q ∈ dirs (fs w) ∨ (q ≠ [] ∧ q `prefix_of` parent).
Proof.
  intros Hway Hfree.
  assert (Hex : Os.exists_ parent (fs w) = Os.is_dir parent (fs w)).
  { unfold Os.exists_. destruct (Os.is_dir parent (fs w)) eqn:E; [done |].
    simpl. apply Hway; [| done]. intros ->. by rewrite is_dir_nil in E. }
  unfold write_document, bind, path_exists.
  rewrite parent_snoc, Hex.
  destruct (Os.is_dir parent (fs w)) eqn:Hparent; simpl.
  - unfold ret, path_write_text, Os.write_text.
    rewrite Hfree, parent_snoc, Hparent. eexists. split; [reflexivity |].
    simpl. auto.
  - unfold path_mkdir_parents, Os.mkdir_parents.
    destruct (mkdir_rev_tree (rev parent) false (fs w))
      as (f1 & -> & Hf1 & Hd1 & Hsub1).
    { by rewrite rev_involutive. }
    { right. by rewrite rev_involutive. }
    rewrite rev_involutive in Hd1, Hsub1.
    unfold path_write_text, Os.write_text. simpl.
    assert (Hp1 : Os.is_dir (parent ++ [x]) f1 = false).
    { apply not_true_is_false. intros [E | E]%is_dir_elem.
      - by destruct parent.
      - apply Hsub1 in E as [E | [_ E]].
        + assert (Os.is_dir (parent ++ [x]) (fs w) = true)
            by (apply is_dir_elem; by right). congruence.
        + by apply snoc_not_prefix in E. }
    rewrite Hp1, parent_snoc, Hd1. eexists. split; [reflexivity |].
    simpl. by rewrite Hf1.
Qed.

End FileSystem.

(** * The walk of a title with one section *)

Section EndToEnd.

Lemma bind_assoc_at {A B C} (m : M A) (k1 : A → M B) (k2 : B → M C) w :
  bind (bind m k1) k2 w = bind m (fun a => bind (k1 a) k2) w.
Proof. unfold bind. by destruct (m w) as [w1 [a | e]]. Qed.

Lemma bind_run {A B} (m : M A) (k : A → M B) w w1 a :
  m w = (w1, Ret a) → bind m k w = k a w1.
Proof. unfold bind. by intros ->. Qed.

Lemma getitem_run t key v w :
  Soup.attrs t !! key = Some v → getitem t key w = (w, Ret v).
Proof. unfold getitem. by intros ->. Qed.

(** One step of a run: the first call of a sequence returns, by
    computation or because the attribute read is known. *)
Ltac run_step :=
  rewrite ?bind_assoc_at;
  erewrite bind_run by (first [reflexivity | by apply getitem_run]);
  cbn [fs stdout net requests written].

Lemma escape_verbatim (c : ascii) :
  verbatim c = true → Json.escape (N_of_ascii c) = String c "".
Proof.
  unfold verbatim. cbv zeta.
  intros [[[H1 H2]%andb_true_iff H3%negb_true_iff]%andb_true_iff
            H4%negb_true_iff]%andb_true_iff.
  unfold Json.escape. rewrite H4, H3.
  apply N.leb_le in H1 as H1'.
  repeat (case_match; [match goal with H : (_ =? _)%N = true |- _ =>
                         apply N.eqb_eq in H; lia end |]).
  rewrite H1, H2. simpl. by rewrite ascii_N_embedding.
Qed.

Lemma esc_verbatim (c : ascii) (r z : string) :
  verbatim c = true → esc (String c r) z = String c (esc r z).
Proof.
  intros H. unfold esc. cbn [Json.code_points].
  assert (Hlt : (N_of_ascii c <? 128)%N = true).
  { unfold verbatim in H. cbv zeta in H. apply N.ltb_lt.
    apply andb_true_iff in H as [[[_ H]%andb_true_iff _]%andb_true_iff _].
    apply N.leb_le in H. lia. }
  rewrite Hlt. cbn [fold_right]. by rewrite escape_verbatim.
Qed.

Lemma esc_LF (r z : string) : esc (String "010" r) z = "\n" +:+ esc r z.
Proof. reflexivity. Qed.

Lemma esc_plain (a r z : string) :
  forallb verbatim (Str.chars a) = true → esc (a +:+ r) z = a +:+ esc r z.
Proof.
  induction a as [|x a IH]; simpl; [done |].
  intros [Hx Ha]%andb_true_iff. rewrite esc_verbatim by done.
  by rewrite IH.
Qed.

Lemma encode_string_plain (a : string) :
  forallb verbatim (Str.chars a) = true → Json.encode_string a = quoted a.
Proof.
  intros H. unfold Json.encode_string, quoted.
  change (fold_right _ ?z (Json.code_points a)) with (esc a z).
  rewrite <- (app_string_nil_r a) at 1. by rewrite esc_plain.
Qed.

Lemma verbatim_app (a b : string) :
  forallb verbatim (Str.chars (a +:+ b))
  = forallb verbatim (Str.chars a) && forallb verbatim (Str.chars b).
Proof. by rewrite chars_app, forallb_app. Qed.

Lemma plain_code_verbatim (s : string) :
  plain_code s = true → forallb verbatim (Str.chars s) = true.
Proof.
  unfold plain_code. induction (Str.chars s) as [|x l IH]; simpl; [done |].
  intros [[-> _]%andb_true_iff H]%andb_true_iff. auto.
Qed.

Lemma plain_code_no_slash (s : string) : plain_code s = true → no_slash s.
Proof.
  unfold plain_code, no_slash.
  induction (Str.chars s) as [|x l IH]; simpl; [intros _; apply not_elem_of_nil |].
  intros [[_ Hx%negb_true_iff]%andb_true_iff H]%andb_true_iff.
  apply not_elem_of_cons. split; [| auto].
  intros <-. by rewrite Ascii.eqb_refl in Hx.
Qed.

Lemma verbatim_pretty_N_go (x : N) (s : string) :
  forallb verbatim (Str.chars s) = true →
  forallb verbatim (Str.chars (pretty_N_go x s)) = true.
Proof.
  revert s. induction (N.lt_wf_0 x) as [x _ IH]; intros s Hs.
  assert (x = 0 ∨ 0 < x)%N as [-> | Hx] by lia.
  - by rewrite pretty_N_go_0.
  - rewrite pretty_N_go_step by done. apply IH; [by apply N.div_lt |].
    simpl. rewrite Hs, andb_true_r.
    unfold pretty_N_char. by repeat case_match.
Qed.

Lemma verbatim_pretty_Z (z : Z) :
  forallb verbatim (Str.chars (pretty z)) = true.
Proof.
  assert (HN : ∀ x : N, forallb verbatim (Str.chars (pretty x)) = true).
  { intros x. unfold pretty, pretty_N. case_decide; [done |].
    by apply verbatim_pretty_N_go. }
  destruct z as [|p|p]; unfold pretty, pretty_Z; [done | apply HN |].
  rewrite verbatim_app. apply andb_true_iff. split; [done | apply HN].
Qed.

Lemma verbatim_link (t : Z) (s c pt sp : string) :
  plain_code s = true → plain_code c = true → plain_code pt = true →
  plain_code sp = true →
  forallb verbatim (Str.chars (get_ecfr_link_to_section t s c pt sp "1"))
  = true.
Proof.
  intros Hs%plain_code_verbatim Hc%plain_code_verbatim
         Hpt%plain_code_verbatim Hsp%plain_code_verbatim.
  unfold get_ecfr_link_to_section.
  by rewrite !verbatim_app, verbatim_pretty_Z, Hs, Hc, Hpt, Hsp.
Qed.

Lemma page_content_text (link : string) :
  forallb verbatim (Str.chars link) = true →
  Json.encode_string (scenario_page_content link)
  = quoted ("\n    # Purpose\n    \n    This part explains X.\n    \n    **[60 FR 1234]**\n    \n\n__"
            +:+ link +:+ "__").
Proof.
  intros H. unfold Json.encode_string, quoted, scenario_page_content.
  change (fold_right _ ?z (Json.code_points ?a)) with (esc a z).
  f_equal. unfold LF. simpl.
  repeat first [rewrite esc_LF | rewrite esc_verbatim by reflexivity].
  rewrite esc_plain by done. simpl.
  rewrite !app_string_assoc. reflexivity.
Qed.

Lemma dumps_scenario (scope : Scope) (section : tag) :
  plain_code (subtitle_number scope) = true →
  plain_code (chapt_number scope) = true →
  plain_code (subchapter_number scope) = true →
  plain_code (part_number scope) = true →
  plain_code (sub_part_number scope) = true →
  process_cfr_xml_element section
  = LF +:+ "    # Purpose" +:+ LF +:+ "    " +:+ LF
    +:+ "    This part explains X." +:+ LF +:+ "    " +:+ LF
    +:+ "    **[60 FR 1234]**" +:+ LF +:+ "    " →
  description section = Some "Purpose"%string →
  Json.dumps (section_result scope section "1") 4
  = scenario_file_text (title_num scope) (chapt_number scope)
      (subchapter_number scope) (part_number scope) (sub_part_number scope)
      (get_ecfr_link_to_section (title_num scope) (subtitle_number scope)
         (chapt_number scope) (part_number scope) (sub_part_number scope) "1")
      (description_text (title_description scope))
      (description_text (chapt_description scope))
      (description_text (subchapter_description scope))
      (description_text (part_description scope))
      (description_text (sub_part_description scope)).
Proof.
  intros Hs Hc Hsch Hpt Hsp Hrender Hdesc.
  pose proof (verbatim_link (title_num scope) _ _ _ _ Hs Hc Hpt Hsp) as Hlink.
  unfold section_result, make_result, section_metadata. cbv zeta.
  rewrite Hrender, Hdesc.
  set (link := get_ecfr_link_to_section _ _ _ _ _ _) in *.
  unfold Json.dumps.
  cbn [Json.encode map fst snd Str.join Json.spaces Nat.mul Nat.add].
  match goal with
  | |- context [Json.encode_string (?a +:+ LF +:+ LF +:+ "__" +:+ link +:+ "__")] =>
      change (a +:+ LF +:+ LF +:+ "__" +:+ link +:+ "__")
        with (scenario_page_content link)
  end.
  rewrite page_content_text by done.
  rewrite !encode_string_plain
    by first [reflexivity | done | by apply plain_code_verbatim].
  unfold scenario_file_text, description_text. cbn [Str.join].
  rewrite !app_string_assoc. reflexivity.
Qed.


(** C2: for a title with one subtitle, chapter, subchapter, part and
    subpart and one section with the code [1], the heading [Purpose], one
    paragraph [This part explains X.] and the citation [[60 FR 1234]], the
    walk returns and has written exactly one file: one call of
    [write_text], which creates or replaces the file of the section and
    leaves every other file as it was.  The text of the file is given
    character by character: its [page_content] is the string of the
    scenario, with the deep link between two pairs of underscores, and its
    [metadata] gives [1] as [section_number].  The codes are made of
    characters that JSON keeps as they are and hold no slash; no regular
    file lies on the way to the directory of the document, and the path of
    the document is not a directory. *)
Theorem single_section_walk
    (root title subtitle chapter subchapter part sub_part section
     head p cita : tag)
    (t : Z) (s c sch pt sp : string) (dt dc dsch dpt dsp : option string)
    (w : World) :
  Soup.find "DIV1" root = Some title →
  Soup.find_all "DIV2" root = [subtitle] →
  Soup.find_all "DIV3" subtitle = [chapter] →
  Soup.find_all "DIV4" chapter = [subchapter] →
  Soup.find_all "DIV5" root = [part] →
  Soup.find_all "DIV6" root = [sub_part] →
  Soup.find_all "DIV8" sub_part = [section] →
  Soup.find_all "DIV9" sub_part = [] →
  Soup.attrs subtitle !! "N"%string = Some s →
  Soup.attrs chapter !! "N"%string = Some c →
  Soup.attrs subchapter !! "N"%string = Some sch →
  Soup.attrs part !! "N"%string = Some pt →
  Soup.attrs sub_part !! "N"%string = Some sp →
  Soup.attrs section !! "N"%string = Some "1"%string →
  Soup.find "HEAD" section = Some head →
  Soup.string_of head = Some "Purpose"%string →
  Soup.find_all "P" section = [p] →
  Soup.string_of p = Some "This part explains X."%string →
  Soup.find "CITA" section = Some cita →
  Soup.string_of cita = Some "[60 FR 1234]"%string →
  description title = dt → description chapter = dc →
  description subchapter = dsch → description part = dpt →
  description sub_part = dsp →
  plain_code s = true → plain_code c = true → plain_code sch = true →
  plain_code pt = true → plain_code sp = true →
  (∀ q, q ≠ [] → q `prefix_of` Pathlib.parent (scenario_file t s c sch pt sp) →
        Os.is_file q (fs w) = false) →
  Os.is_dir (scenario_file t s c sch pt sp) (fs w) = false →
  ∃ w' result,
    walk root t w = (w', Ret tt)
    ∧ written w'
      = written w
        ++ [ (scenario_file t s c sch pt sp,
              scenario_file_text t c sch pt sp
                (get_ecfr_link_to_section t s c pt sp "1")
                (description_text dt)
                (description_text dc)
                (description_text dsch)
                (description_text dpt)
                (description_text dsp)) ]
    ∧ files (fs w')
      = <[ scenario_file t s c sch pt sp
           := scenario_file_text t c sch pt sp
                (get_ecfr_link_to_section t s c pt sp "1")
                (description_text dt)
                (description_text dc)
                (description_text dsch)
                (description_text dpt)
                (description_text dsp) ]> (files (fs w))
    ∧ scenario_file_text t c sch pt sp
        (get_ecfr_link_to_section t s c pt sp "1")
        (description_text dt)
        (description_text dc)
        (description_text dsch)
        (description_text dpt)
        (description_text dsp)
      = Json.dumps result 4
    ∧ Json.get "page_content" result
      = Some (JStr (LF +:+ "    # Purpose" +:+ LF
                    +:+ "    " +:+ LF
                    +:+ "    This part explains X." +:+ LF
                    +:+ "    " +:+ LF
                    +:+ "    **[60 FR 1234]**" +:+ LF
                    +:+ "    " +:+ LF +:+ LF
                    +:+ "__" +:+ get_ecfr_link_to_section t s c pt sp "1"
                    +:+ "__"))
    ∧ (Json.get "metadata" result ≫= Json.get "section_number")
      = Some (JStr "1").
Proof.
  intros H1 H2 H3 H4 H5 H6 H8 H9 Ns Nc Nsch Npt Nsp Nsec
         Hhead Hheads Hp Hps Hcita Hcitas <- <- <- <- <-
         Ps Pc Psch Ppt Psp Hway Hfree.
  set (scope := {| title_num := t; title_description := description title;
                   subtitle_number := s; chapt_number := c;
                   chapt_description := description chapter;
                   subchapter_number := sch;
                   subchapter_description := description subchapter;
                   part_number := pt; part_description := description part;
                   sub_part_number := sp;
                   sub_part_description := description sub_part |}).
  assert (Hfile : document_file scope "1" = scenario_file t s c sch pt sp).
  { rewrite document_file_parts; [done | | by apply no_slash_literal].
    repeat split; by apply plain_code_no_slash. }
  assert (Hrender : process_cfr_xml_element section
                    = LF +:+ "    # Purpose" +:+ LF
                      +:+ "    " +:+ LF
                      +:+ "    This part explains X." +:+ LF
                      +:+ "    " +:+ LF
                      +:+ "    **[60 FR 1234]**" +:+ LF
                      +:+ "    ").
  { unfold process_cfr_xml_element, CFRToMd.title, CFRToMd.text, paragraphs,
      citation.
    rewrite Hhead, Hheads, Hp, Hcita, Hcitas. cbn [map]. rewrite Hps.
    reflexivity. }
  assert (Hdesc : description section = Some "Purpose"%string).
  { unfold description. by rewrite Hhead. }
  pose proof (dumps_scenario scope section Ps Pc Psch Ppt Psp Hrender Hdesc)
    as Htext.
  cbn [title_num subtitle_number chapt_number subchapter_number part_number
       sub_part_number title_description chapt_description
       subchapter_description part_description sub_part_description scope]
    in Htext.
  unfold walk.
  erewrite bind_run by (rewrite H1; reflexivity). run_step.
  rewrite H2. cbn [for_each]. run_step. run_step.
  rewrite H3. cbn [for_each]. run_step. run_step.
  rewrite H4. cbn [for_each]. run_step. run_step.
  rewrite H5. cbn [for_each]. run_step. run_step.
  rewrite H6. cbn [for_each]. run_step. run_step.
  rewrite H8, H9. cbn [for_each]. fold scope.
  unfold process_section. run_step.
  rewrite Hfile.
  match goal with
  | |- context [bind (write_document _ ?r) _ ?w0] =>
      destruct (write_document_tree
                  (Pathlib.parent (scenario_file t s c sch pt sp))
                  "1.json" r w0) as (f' & Hrun & Hf' & _);
        [exact Hway | exact Hfree |]
  end.
  change (Pathlib.parent (scenario_file t s c sch pt sp) ++ ["1.json"%string])
    with (scenario_file t s c sch pt sp) in Hrun, Hf'.
  rewrite (bind_run _ _ _ _ _ Hrun).
  rewrite Htext in Hf'. 
  eexists _, (section_result scope section "1").
  split; [by rewrite Htext |]. cbn [fs written].
  split; [done |]. split; [done |]. split; [by rewrite Htext |].
  split; [| reflexivity].
  change (Json.get "page_content" (section_result scope section "1"))
    with (Some (JStr (process_cfr_xml_element section +:+ LF +:+ LF +:+ "__"
                      +:+ get_ecfr_link_to_section t s c pt sp "1"
                      +:+ "__"))).
  rewrite Hrender, !app_string_assoc. reflexivity.
Qed.

(** The scenario on [single_section_title], from the world in which a run
    starts the walk when the cache holds the XML of title 29: the cached
    file is there before and after.  Every level above the section takes
    its description from the heading of the section, the first [HEAD]
    below it. *)
Lemma single_section_walk_witness :
  ∃ w' result,
    walk single_section_title 29 (after_cache_hit 29 cached_world)
    = (w', Ret tt)
    ∧ written w'
      = written (after_cache_hit 29 cached_world)
        ++ [ (scenario_file 29 "A" "I" "B" "1" "C",
              scenario_file_text 29 "I" "B" "1" "C"
                (get_ecfr_link_to_section 29 "A" "I" "1" "C" "1")
                (description_text (Some "Title 29"%string)) (description_text (Some "Purpose"%string)) (description_text (Some "Purpose"%string))
                (description_text (Some "Purpose"%string)) (description_text (Some "Purpose"%string))) ]
    ∧ files (fs w')
      = <[ scenario_file 29 "A" "I" "B" "1" "C"
           := scenario_file_text 29 "I" "B" "1" "C"
                (get_ecfr_link_to_section 29 "A" "I" "1" "C" "1")
                (description_text (Some "Title 29"%string)) (description_text (Some "Purpose"%string)) (description_text (Some "Purpose"%string))
                (description_text (Some "Purpose"%string)) (description_text (Some "Purpose"%string)) ]>
           (files (fs (after_cache_hit 29 cached_world)))
    ∧ scenario_file_text 29 "I" "B" "1" "C"
        (get_ecfr_link_to_section 29 "A" "I" "1" "C" "1")
        (description_text (Some "Title 29"%string)) (description_text (Some "Purpose"%string)) (description_text (Some "Purpose"%string))
        (description_text (Some "Purpose"%string)) (description_text (Some "Purpose"%string))
      = Json.dumps result 4
    ∧ Json.get "page_content" result
      = Some (JStr (LF +:+ "    # Purpose" +:+ LF
                    +:+ "    " +:+ LF
                    +:+ "    This part explains X." +:+ LF
                    +:+ "    " +:+ LF
                    +:+ "    **[60 FR 1234]**" +:+ LF
                    +:+ "    " +:+ LF +:+ LF
                    +:+ "__"
                    +:+ get_ecfr_link_to_section 29 "A" "I" "1" "C" "1"
                    +:+ "__"))
    ∧ (Json.get "metadata" result ≫= Json.get "section_number")
      = Some (JStr "1").
Proof.
  eapply (single_section_walk single_section_title).
  all: lazymatch goal with
       | |- Os.is_dir _ _ = false => vm_compute; reflexivity
       | |- ∀ q, _ => idtac
       | |- _ => reflexivity
       end.
  intros q Hq [k Hk]. apply bool_decide_eq_false_2. intros [x Hx].
  simpl in Hx. apply lookup_singleton_Some in Hx as [<- _].
  vm_compute in Hk. discriminate Hk.
Defined.

End EndToEnd.

(** * The listing of titles and the request for the XML *)

Section Listing.

Lemma find_first_match (t : Z) (pre post : list TitleEntry) (e : TitleEntry) :
  Forall (fun x => number x ≠ t) pre → number e = t →
  List.find (fun title => number title =? t) (pre ++ e :: post) = Some e.
Proof.
  intros Hpre He. induction Hpre as [|x pre Hx _ IH]; simpl.
  - by rewrite (proj2 (Z.eqb_eq _ _) He).
  - by rewrite (proj2 (Z.eqb_neq _ _) Hx).
Qed.

Lemma find_no_match (t : Z) (titles : list TitleEntry) :
  Forall (fun x => number x ≠ t) titles →
  List.find (fun title => number title =? t) titles = None.
Proof.
  induction 1 as [|x l Hx _ IH]; simpl; [done |].
  by rewrite (proj2 (Z.eqb_neq _ _) Hx).
Qed.

Lemma entry_get_value (e : TitleEntry) (date_choice : DateChoice) (w : World) :
  entry_get e (value date_choice) w = (w, Ret (date_of date_choice e)).
Proof. by destruct date_choice. Qed.

(** What [get_title_date] does once the listing has been answered. *)
Lemma get_title_date_answered t date_choice w response :
  net w (requests w) (titles_url, []) = Some response →
  get_title_date t date_choice w
  = (raise_for_status response ;;
     titles <- response_titles response ;;
     match List.find (fun title => number title =? t) titles with
     | Some title => entry_get title (value date_choice)
     | None => ret None
     end)
      {| fs := fs w; stdout := stdout w; net := net w;
         requests := requests w ++ [(titles_url, [])];
         written := written w |}.
Proof.
  intros Hnet. unfold get_title_date. unfold bind at 1, requests_get.
  unfold titles_url in Hnet. by rewrite Hnet.
Qed.

(** X1: when the listing is answered with a status from 400 to 599,
    [get_title_date] raises [HTTPError] with that status after its one
    request; the body of the answer is not read. *)
Theorem get_title_date_http_error
    (t : Z) (date_choice : DateChoice) (w : World) (response : Response) :
  net w (requests w) (titles_url, []) = Some response →
  error_status (status_code response) = true →
  ∃ w', get_title_date t date_choice w
        = (w', Raise (HTTPError (status_code response)))
        ∧ requests w' = requests w ++ [(titles_url, [])]
        ∧ fs w' = fs w ∧ stdout w' = stdout w ∧ written w' = written w.
Proof.
  intros Hnet Hstatus. rewrite (get_title_date_answered _ _ _ _ Hnet).
  unfold bind at 1, raise_for_status. unfold error_status in Hstatus.
  rewrite Hstatus. eexists. split; [reflexivity | done].
Qed.

Lemma get_title_date_http_error_witness :
  ∃ w', get_title_date 29 LATEST_ISSUE_DATE unavailable_world
        = (w', Raise (HTTPError 503))
        ∧ requests w' = requests unavailable_world ++ [(titles_url, [])]
        ∧ fs w' = fs unavailable_world
        ∧ stdout w' = stdout unavailable_world
        ∧ written w' = written unavailable_world.
Proof.
  apply (get_title_date_http_error 29 LATEST_ISSUE_DATE unavailable_world
           {| status_code := 503; text := ""; json_titles := None |});
    reflexivity.
Defined.

(** X2: when the listing is answered without an error status, the date
    returned is the date, of the kind chosen, of the first entry whose
    number is the number of the title: [None] when that date is null, and
    whatever entries follow. *)
Theorem get_title_date_first_match
    (t : Z) (date_choice : DateChoice) (w : World) (response : Response)
    (pre post : list TitleEntry) (e : TitleEntry) :
  net w (requests w) (titles_url, []) = Some response →
  error_status (status_code response) = false →
  json_titles response = Some (pre ++ e :: post) →
  Forall (fun x => number x ≠ t) pre →
  number e = t →
  ∃ w', get_title_date t date_choice w = (w', Ret (date_of date_choice e))
        ∧ requests w' = requests w ++ [(titles_url, [])].
Proof.
  intros Hnet Hstatus Hjson Hpre He.
  rewrite (get_title_date_answered _ _ _ _ Hnet).
  unfold bind, raise_for_status, response_titles.
  unfold error_status in Hstatus. rewrite Hstatus, Hjson. unfold ret at 1 2.
  rewrite (find_first_match _ _ _ _ Hpre He), entry_get_value.
  eexists. split; reflexivity.
Qed.

Lemma get_title_date_first_match_witness :
  ∃ w', get_title_date 29 LATEST_AMENDED_ON failing_world
        = (w', Ret (date_of LATEST_AMENDED_ON
                      {| number := 29;
                         latest_issue_date := Some "2024-01-02"%string;
                         latest_amended_on := Some "2023-12-29"%string |}))
        ∧ requests w' = requests failing_world ++ [(titles_url, [])].
Proof.
  apply (get_title_date_first_match 29 LATEST_AMENDED_ON failing_world
           listing_response [] []); try reflexivity.
  constructor.
Defined.

(** X3: when no entry of the listing has the number of the title,
    [get_title_date] returns [None] and raises nothing. *)
Theorem get_title_date_not_listed
    (t : Z) (date_choice : DateChoice) (w : World) (response : Response)
    (titles : list TitleEntry) :
  net w (requests w) (titles_url, []) = Some response →
  error_status (status_code response) = false →
  json_titles response = Some titles →
  Forall (fun x => number x ≠ t) titles →
  ∃ w', get_title_date t date_choice w = (w', Ret None)
        ∧ requests w' = requests w ++ [(titles_url, [])].
Proof.
  intros Hnet Hstatus Hjson Hno.
  rewrite (get_title_date_answered _ _ _ _ Hnet).
  unfold bind, raise_for_status, response_titles.
  unfold error_status in Hstatus. rewrite Hstatus, Hjson. unfold ret at 1 2.
  rewrite (find_no_match _ _ Hno). eexists. split; reflexivity.
Qed.

Lemma get_title_date_not_listed_witness :
  ∃ w', get_title_date 7 LATEST_ISSUE_DATE failing_world = (w', Ret None)
        ∧ requests w' = requests failing_world ++ [(titles_url, [])].
Proof.
  eapply (get_title_date_not_listed 7 LATEST_ISSUE_DATE failing_world
            listing_response); try reflexivity.
  repeat constructor. discriminate.
Defined.

End Listing.

(** * The request for the XML of a title *)

Section TitleXml.

(** What [get_cfr_title_xml] does once the date has been resolved. *)
Lemma get_cfr_title_xml_dated t w w1 date :
  get_title_date t LATEST_ISSUE_DATE w = (w1, Ret date) →
  get_cfr_title_xml t w
  = match net w1 (requests w1) (title_xml_url date t, xml_headers) with
    | Some response =>
        if status_code response =? 200
        then ({| fs := fs w1;
                 stdout := stdout w1
                           ++ ["Request file from " +:+ title_xml_url date t];
                 net := net w1;
                 requests := requests w1
                             ++ [(title_xml_url date t, xml_headers)];
                 written := written w1 |}, Ret (Some (text response)))
        else ({| fs := fs w1;
                 stdout := (stdout w1
                            ++ ["Request file from " +:+ title_xml_url date t])
                           ++ ["Request failed with status code: "
                               +:+ pretty (status_code response)];
                 net := net w1;
                 requests := requests w1
                             ++ [(title_xml_url date t, xml_headers)];
                 written := written w1 |}, Ret None)
    | None =>
        ({| fs := fs w1;
            stdout := stdout w1
                      ++ ["Request file from " +:+ title_xml_url date t];
            net := net w1;
            requests := requests w1 ++ [(title_xml_url date t, xml_headers)];
            written := written w1 |}, Raise RequestException)
    end.
Proof.
  intros Hdate. unfold get_cfr_title_xml, bind. rewrite Hdate. cbv zeta.
  unfold print at 1. unfold requests_get.
  cbn [requests net stdout fs written].
  change ("https://www.ecfr.gov/api/versioner/v1/full/"
          +:+ py_str date +:+ "/title-" +:+ pretty t +:+ ".xml")
    with (title_xml_url date t).
  change [("accept", "application/xml")]%string with xml_headers.
  destruct (net w1 (requests w1) (title_xml_url date t, xml_headers))
    as [response |]; [| done].
  by destruct (status_code response =? 200).
Qed.

(** Whatever comes of [get_cfr_title_xml], it has touched no file and
    made no write. *)
Lemma get_cfr_title_xml_frame t w w' r :
  get_cfr_title_xml t w = (w', r) →
  fs w' = fs w ∧ net w' = net w ∧ written w' = written w.
Proof.
  destruct (get_title_date t LATEST_ISSUE_DATE w) as [w1 [date | e]] eqn:E.
  - destruct (get_title_date_requests _ _ _ _ _ E) as (Hfs & _ & Hnet & Hwr & _).
    rewrite (get_cfr_title_xml_dated _ _ _ _ E).
    repeat case_match; intros [= <- _]; simpl; by rewrite Hfs, Hnet, Hwr.
  - destruct (get_title_date_requests _ _ _ _ _ E) as (Hfs & _ & Hnet & Hwr & _).
    unfold get_cfr_title_xml, bind. rewrite E. by intros [= <- _].
Qed.

(** X4: when the date has been resolved and the request for the XML is
    answered with the status 200, [get_cfr_title_xml] returns the text of
    the answer; it has printed the address and sent that one request after
    the request for the listing. *)
Theorem get_cfr_title_xml_success
    (t : Z) (w w1 : World) (date : option string) (response : Response) :
  get_title_date t LATEST_ISSUE_DATE w = (w1, Ret date) →
  net w1 (requests w1) (title_xml_url date t, xml_headers) = Some response →
  status_code response = 200 →
  ∃ w2, get_cfr_title_xml t w = (w2, Ret (Some (text response)))
        ∧ stdout w2
          = stdout w ++ ["Request file from " +:+ title_xml_url date t]
        ∧ requests w2
          = requests w ++ [(titles_url, []);
                           (title_xml_url date t, xml_headers)]
        ∧ fs w2 = fs w ∧ written w2 = written w.
Proof.
  intros Hdate Hnet Hstatus.
  destruct (get_title_date_requests _ _ _ _ _ Hdate)
    as (Hfs & Hout & _ & Hwr & Hreq).
  rewrite (get_cfr_title_xml_dated _ _ _ _ Hdate), Hnet, Hstatus.
  eexists. split; [reflexivity |]. simpl.
  by rewrite Hfs, Hout, Hwr, Hreq, <- app_assoc.
Qed.

Lemma get_cfr_title_xml_success_witness :
  ∃ w2, get_cfr_title_xml 29 serving_world = (w2, Ret (Some served_xml))
        ∧ stdout w2
          = stdout serving_world
            ++ ["Request file from "
                +:+ title_xml_url (Some "2024-01-02"%string) 29]
        ∧ requests w2
          = requests serving_world
            ++ [(titles_url, []);
                (title_xml_url (Some "2024-01-02"%string) 29, xml_headers)]
        ∧ fs w2 = fs serving_world ∧ written w2 = written serving_world.
Proof.
  eapply (get_cfr_title_xml_success 29 serving_world _
            (Some "2024-01-02"%string)
            {| status_code := 200; text := served_xml;
               json_titles := None |}); reflexivity.
Defined.

(** X5: when the title is not in the listing, [get_cfr_title_xml] does
    not stop: it prints and requests the address built with the text
    [None] in the place of the date, whatever comes of that request. *)
Theorem get_cfr_title_xml_unlisted
    (t : Z) (w w' : World) (response : Response) (titles : list TitleEntry)
    (r : result (option string)) :
  net w (requests w) (titles_url, []) = Some response →
  error_status (status_code response) = false →
  json_titles response = Some titles →
  Forall (fun x => number x ≠ t) titles →
  get_cfr_title_xml t w = (w', r) →
  requests w'
  = requests w ++ [(titles_url, []);
                   ("https://www.ecfr.gov/api/versioner/v1/full/None/title-"
                    +:+ pretty t +:+ ".xml", xml_headers)]
  ∧ "Request file from https://www.ecfr.gov/api/versioner/v1/full/None/title-"
      +:+ pretty t +:+ ".xml" ∈ stdout w'.
Proof.
  intros Hnet Hstatus Hjson Hno.
  assert (Hdate : ∃ w1, get_title_date t LATEST_ISSUE_DATE w = (w1, Ret None)
                        ∧ requests w1 = requests w ++ [(titles_url, [])]).
  { rewrite (get_title_date_answered _ _ _ _ Hnet).
    unfold bind, raise_for_status, response_titles.
    unfold error_status in Hstatus. rewrite Hstatus, Hjson. unfold ret at 1 2.
    rewrite (find_no_match _ _ Hno). eexists. split; reflexivity. }
  destruct Hdate as (w1 & Hdate & Hreq).
  rewrite (get_cfr_title_xml_dated _ _ _ _ Hdate).
  change (title_xml_url None t)
    with ("https://www.ecfr.gov/api/versioner/v1/full/None/title-"
          +:+ pretty t +:+ ".xml").
  repeat case_match; intros [= <- _]; cbn [requests stdout];
    rewrite Hreq, <- ?app_assoc; (split; [done |]);
    rewrite !elem_of_app, !list_elem_of_singleton; auto.
Qed.

Lemma get_cfr_title_xml_unlisted_witness :
  requests (fst (get_cfr_title_xml 7 failing_world))
  = requests failing_world
    ++ [(titles_url, []);
        ("https://www.ecfr.gov/api/versioner/v1/full/None/title-"
         +:+ pretty 7 +:+ ".xml", xml_headers)]
  ∧ "Request file from https://www.ecfr.gov/api/versioner/v1/full/None/title-"
      +:+ pretty 7 +:+ ".xml"
    ∈ stdout (fst (get_cfr_title_xml 7 failing_world)).
Proof.
  eapply (get_cfr_title_xml_unlisted 7 failing_world _ listing_response
            _ (snd (get_cfr_title_xml 7 failing_world))); try reflexivity.
  repeat constructor. discriminate.
Defined.

(** X6: when the listing is answered with an error status,
    [get_cfr_title_xml] raises the [HTTPError] of [get_title_date]: the XML
    is not requested and nothing is printed. *)
Theorem get_cfr_title_xml_listing_error
    (t : Z) (w : World) (response : Response) :
  net w (requests w) (titles_url, []) = Some response →
  error_status (status_code response) = true →
  ∃ w', get_cfr_title_xml t w = (w', Raise (HTTPError (status_code response)))
        ∧ requests w' = requests w ++ [(titles_url, [])]
        ∧ stdout w' = stdout w ∧ fs w' = fs w ∧ written w' = written w.
Proof.
  intros Hnet Hstatus. unfold get_cfr_title_xml, bind.
  rewrite (get_title_date_answered _ _ _ _ Hnet).
  unfold bind at 1, raise_for_status. unfold error_status in Hstatus.
  rewrite Hstatus. eexists. split; [reflexivity | done].
Qed.

Lemma get_cfr_title_xml_listing_error_witness :
  ∃ w', get_cfr_title_xml 29 unavailable_world = (w', Raise (HTTPError 503))
        ∧ requests w' = requests unavailable_world ++ [(titles_url, [])]
        ∧ stdout w' = stdout unavailable_world
        ∧ fs w' = fs unavailable_world
        ∧ written w' = written unavailable_world.
Proof.
  apply (get_cfr_title_xml_listing_error 29 unavailable_world
           {| status_code := 503; text := ""; json_titles := None |});
    reflexivity.
Defined.

(** X7: when the request for the XML gets no answer, the exception of
    [requests.get] goes up to the caller: a failure to connect is not
    turned into [None], unlike an answer with a status other than 200. *)
Theorem get_cfr_title_xml_no_answer
    (t : Z) (w w1 : World) (date : option string) :
  get_title_date t LATEST_ISSUE_DATE w = (w1, Ret date) →
  net w1 (requests w1) (title_xml_url date t, xml_headers) = None →
  ∃ w2, get_cfr_title_xml t w = (w2, Raise RequestException)
        ∧ stdout w2
          = stdout w ++ ["Request file from " +:+ title_xml_url date t]
        ∧ fs w2 = fs w ∧ written w2 = written w.
Proof.
  intros Hdate Hnet.
  destruct (get_title_date_requests _ _ _ _ _ Hdate)
    as (Hfs & Hout & _ & Hwr & _).
  rewrite (get_cfr_title_xml_dated _ _ _ _ Hdate), Hnet.
  eexists. split; [reflexivity |]. simpl. by rewrite Hfs, Hout, Hwr.
Qed.

Lemma get_cfr_title_xml_no_answer_witness :
  ∃ w2, get_cfr_title_xml 29 dropping_world = (w2, Raise RequestException)
        ∧ stdout w2
          = stdout dropping_world
            ++ ["Request file from "
                +:+ title_xml_url (Some "2024-01-02"%string) 29]
        ∧ fs w2 = fs dropping_world ∧ written w2 = written dropping_world.
Proof.
  eapply (get_cfr_title_xml_no_answer 29 dropping_world _
            (Some "2024-01-02"%string)); reflexivity.
Defined.

End TitleXml.

(** * What the walk changes and what it leaves *)

Section Frame.

Lemma walk_frame_refl w : walk_frame w w.
Proof.
  do 4 (split; [done |]). exists []. by rewrite app_nil_r.
Qed.

Lemma apply_writes_app m ws1 ws2 :
  apply_writes m (ws1 ++ ws2) = apply_writes (apply_writes m ws1) ws2.
Proof. apply foldl_app. Qed.

Lemma walk_frame_trans w1 w2 w3 :
  walk_frame w1 w2 → walk_frame w2 w3 → walk_frame w1 w3.
Proof.
  intros (Hr1 & Hn1 & Ho1 & Hd1 & ws1 & Hw1 & Hf1)
         (Hr2 & Hn2 & Ho2 & Hd2 & ws2 & Hw2 & Hf2).
  split; [congruence |]. split; [congruence |].
  split; [by etrans |]. split; [by etrans |].
  exists (ws1 ++ ws2). split.
  - by rewrite Hw2, Hw1, app_assoc.
  - by rewrite Hf2, Hf1, apply_writes_app.
Qed.

Lemma respects_ret {A} (a : A) : respects (ret a).
Proof. intros w w' r [= <- _]. apply walk_frame_refl. Qed.

Lemma respects_raise {A} (e : exn) : respects (@raise A e).
Proof. intros w w' r [= <- _]. apply walk_frame_refl. Qed.

Lemma respects_bind {A B} (m : M A) (k : A → M B) :
  respects m → (∀ a, respects (k a)) → respects (bind m k).
Proof.
  intros Hm Hk w w' r H. unfold bind in H.
  destruct (m w) as [w1 [a | e]] eqn:E.
  - eapply walk_frame_trans; [by eapply Hm | by eapply Hk].
  - injection H as <- _. by eapply Hm.
Qed.

Lemma respects_for_each {A} (l : list A) (body : A → M unit) :
  (∀ x, respects (body x)) → respects (for_each l body).
Proof.
  intros H. induction l as [|x l IH]; simpl; [apply respects_ret |].
  apply respects_bind; auto.
Qed.

Lemma respects_print line : respects (print line).
Proof.
  intros w w' r [= <- _]. do 2 (split; [done |]).
  split; [by apply prefix_app_r |]. split; [done |].
  exists []. by rewrite app_nil_r.
Qed.

Lemma respects_getitem t key : respects (getitem t key).
Proof.
  unfold getitem. destruct (Soup.attrs t !! key);
    [apply respects_ret | apply respects_raise].
Qed.

Lemma respects_path_exists p : respects (path_exists p).
Proof. intros w w' r [= <- _]. apply walk_frame_refl. Qed.

Lemma mkdir_ret p f f' :
  Os.mkdir p f = Ret f' → files f' = files f ∧ dirs f ⊆ dirs f'.
Proof.
  unfold Os.mkdir. repeat case_match; intros [= <-]; simpl.
  split; [done |]. apply union_subseteq_r.
Qed.

Lemma keep_if (b : bool) (e : exn) (f f' : FileSystem) :
  (if b then Ret f else Raise e) = Ret f' → f' = f.
Proof. destruct b; by intros [= <-]. Qed.

(** Making directories leaves the files and the directories there are. *)
Lemma mkdir_rev_ret rp exist_ok f f' :
  Os.mkdir_rev rp exist_ok f = Ret f' →
  files f' = files f ∧ dirs f ⊆ dirs f'.
Proof.
  revert exist_ok f f'. induction rp as [|x rparent IH]; intros exist_ok f f';
    rewrite mkdir_rev_eq.
  - destruct (Os.mkdir (rev []) f) as [f1 | e] eqn:E.
    + intros [= <-]. by apply mkdir_ret in E.
    + destruct e; try done; by intros ->%keep_if.
  - destruct (Os.mkdir (rev (x :: rparent)) f) as [f1 | e] eqn:E.
    + intros [= <-]. by apply mkdir_ret in E.
    + destruct e; try (by intros ->%keep_if).
      destruct (Os.mkdir_rev rparent true f) as [f1 | e1] eqn:E1; [| done].
      apply IH in E1 as [Hf1 Hd1].
      destruct (Os.mkdir (rev (x :: rparent)) f1) as [f2 | e2] eqn:E2.
      * intros [= <-]. apply mkdir_ret in E2 as [Hf2 Hd2].
        split; [congruence | by etrans].
      * destruct e2; try done; by intros ->%keep_if.
Qed.

Lemma respects_make_parent c p : respects (when c (path_mkdir_parents p)).
Proof.
  destruct c; simpl; [| apply respects_ret].
  intros w w' r. unfold path_mkdir_parents, Os.mkdir_parents.
  destruct (Os.mkdir_rev (rev p) false (fs w)) as [f |e] eqn:E;
    intros [= <- _]; [| apply walk_frame_refl].
  apply mkdir_rev_ret in E as [Hf Hd].
  do 4 (split; [done |]). exists []. by rewrite app_nil_r.
Qed.

Lemma respects_write_text p data : respects (path_write_text p data).
Proof.
  intros w w' r. unfold path_write_text. destruct data as [s |];
    [| intros [= <- _]; apply walk_frame_refl].
  unfold Os.write_text.
  repeat case_match; simplify_eq/=; intros [= <- _];
    try apply walk_frame_refl.
  do 4 (split; [done |]). by exists [(p, s)].
Qed.

Lemma respects_write_document file result :
  respects (write_document file result).
Proof.
  unfold write_document.
  apply respects_bind; [apply respects_path_exists |]. intros ?.
  apply respects_bind; [apply respects_make_parent |]. intros ?.
  apply respects_write_text.
Qed.

(** The walk, whatever comes of it, keeps to [walk_frame]. *)
Lemma respects_walk root t : respects (walk root t).
Proof.
  unfold walk.
  apply respects_bind.
  { destruct (Soup.find "DIV1" root);
      [apply respects_ret | apply respects_raise]. }
  intros ?. apply respects_bind; [apply respects_print |]. intros _.
  repeat (apply respects_for_each; intros ?;
          apply respects_bind; [apply respects_getitem |]; intros ?;
          apply respects_bind; [apply respects_print |]; intros _).
  apply respects_bind; apply respects_for_each || intros _.
  - intros section. unfold process_section.
    apply respects_bind; [apply respects_getitem |]. intros ?.
    apply respects_write_document.
  - apply respects_for_each. intros appendix. unfold process_appendix.
    apply respects_bind; [apply respects_getitem |]. intros ?.
    apply respects_write_document.
Qed.

Lemma apply_writes_union m ws :
  apply_writes m ws = list_to_map (reverse ws) ∪ m.
Proof.
  revert m. induction ws as [|[p s] ws IH]; intros m; simpl.
  - by rewrite (left_id ∅ (∪)).
  - change (apply_writes (<[p:=s]> m) ws = list_to_map (reverse ((p, s) :: ws)) ∪ m).
    rewrite IH, reverse_cons, list_to_map_app. simpl.
    rewrite insert_empty, <- (assoc_L (∪)).
    by rewrite insert_union_singleton_l.
Qed.

Lemma apply_writes_other m ws p :
  p ∉ map fst ws → apply_writes m ws !! p = m !! p.
Proof.
  intros Hp. rewrite apply_writes_union. apply lookup_union_r.
  apply not_elem_of_list_to_map_1. by rewrite fmap_reverse, elem_of_reverse.
Qed.

Lemma apply_writes_last m pre post p s :
  p ∉ map fst post →
  apply_writes m (pre ++ (p, s) :: post) !! p = Some s.
Proof.
  intros Hp. rewrite apply_writes_app. simpl.
  change (apply_writes (<[p:=s]> (apply_writes m pre)) post !! p = Some s).
  rewrite apply_writes_other by done. apply lookup_insert_eq.
Qed.

Lemma apply_writes_twice m ws :
  apply_writes (apply_writes m ws) ws = apply_writes m ws.
Proof.
  rewrite !apply_writes_union, (assoc_L (∪)). f_equal. apply map_union_idemp.
Qed.

(** The files after a walk, from the files before and the leaves written. *)
Lemma walk_files root t w w' r :
  walk root t w = (w', r) →
  files (fs w')
  = apply_writes (files (fs w)) (map leaf_write (leaves_written root t w w')).
Proof.
  intros H. destruct (respects_walk _ _ _ _ _ H)
    as (_ & _ & _ & _ & ws & Hw & Hf).
  destruct (walk_outcome _ _ _ _ _ H) as (Hw' & _ & _).
  rewrite Hw in Hw'. apply app_inv_head in Hw'. by rewrite <- Hw'.
Qed.

End Frame.

Section WalkEffects.

(** X8: whatever comes of a walk, it has sent no request; the lines printed
    before it and the directories there were are still there. *)
Theorem walk_sends_no_request
    (root : tag) (t : Z) (w w' : World) (r : result unit) :
  walk root t w = (w', r) →
  requests w' = requests w ∧ net w' = net w
  ∧ stdout w `prefix_of` stdout w'
  ∧ dirs (fs w) ⊆ dirs (fs w').
Proof.
  intros H. by destruct (respects_walk _ _ _ _ _ H) as (? & ? & ? & ? & _).
Qed.

Lemma walk_sends_no_request_witness :
  requests (fst (walk two_part_title 29 failing_world))
  = requests failing_world
  ∧ net (fst (walk two_part_title 29 failing_world)) = net failing_world
  ∧ stdout failing_world
    `prefix_of` stdout (fst (walk two_part_title 29 failing_world))
  ∧ dirs (fs failing_world)
    ⊆ dirs (fs (fst (walk two_part_title 29 failing_world))).
Proof.
  apply (walk_sends_no_request two_part_title 29 failing_world _
           (snd (walk two_part_title 29 failing_world))).
  apply surjective_pairing.
Defined.

(** X9: whatever comes of a walk whose written paths hold no part [..], a
    path made of names that is the path of no document written holds after
    the walk what it held before: the walk removes no file and changes no
    file but those it writes. *)
Theorem walk_keeps_other_files
    (root : tag) (t : Z) (w w' : World) (r : result unit) (p : Path) :
  walk root t w = (w', r) →
  Forall (fun e => literal (leaf_file e)) (leaves_written root t w w') →
  named_path p →
  p ∉ map leaf_file (leaves_written root t w w') →
  files (fs w') !! p = files (fs w) !! p.
Proof.
  intros H _ _ Hp. rewrite (walk_files _ _ _ _ _ H).
  apply apply_writes_other. by rewrite map_map.
Qed.

Lemma walk_keeps_other_files_witness :
  files (fs (fst (walk two_part_title 29 fresh_world)))
    !! ["cache"; "title29.xml"]%string
  = files (fs fresh_world) !! ["cache"; "title29.xml"]%string.
Proof.
  apply (walk_keeps_other_files two_part_title 29 fresh_world _
           (snd (walk two_part_title 29 fresh_world))).
  - apply surjective_pairing.
  - apply (bool_decide_unpack (Forall _ _)). vm_compute. exact I.
  - repeat constructor; try discriminate; by apply no_slash_literal.
  - apply (bool_decide_unpack (¬ _)). vm_compute. exact I.
Defined.

(** X10: whatever comes of a walk whose written paths hold no part [..],
    the file of a document written holds the JSON text of the last
    document written to its path: where two leaves have one path, the
    later replaces the earlier. *)
Theorem walk_last_write_stays
    (root : tag) (t : Z) (w w' : World) (r : result unit)
    (pre post : list (Scope * (leaf_kind * tag)))
    (e : Scope * (leaf_kind * tag)) :
  walk root t w = (w', r) →
  leaves_written root t w w' = pre ++ e :: post →
  Forall (fun e' => literal (leaf_file e')) (pre ++ e :: post) →
  leaf_file e ∉ map leaf_file post →
  files (fs w') !! leaf_file e
  = Some (Json.dumps (leaf_result (fst e) (snd e)) 4).
Proof.
  intros H Hl _ Hp. rewrite (walk_files _ _ _ _ _ H), Hl, map_app. simpl.
  apply (apply_writes_last _ _ _ (leaf_file e)). by rewrite map_map.
Qed.

Lemma walk_last_write_stays_witness :
  ∃ e1 e2,
    leaves_written twin_leaf_title 29 fresh_world
      (fst (walk twin_leaf_title 29 fresh_world)) = [e1] ++ e2 :: []
    ∧ fst (snd e1) = IsSection ∧ fst (snd e2) = IsAppendix
    ∧ leaf_file e1 = leaf_file e2
    ∧ files (fs (fst (walk twin_leaf_title 29 fresh_world))) !! leaf_file e2
      = Some (Json.dumps (leaf_result (fst e2) (snd e2)) 4).
Proof.
  eexists _, _. split; [vm_compute; reflexivity |].
  split; [reflexivity |]. split; [reflexivity |].
  split; [vm_compute; reflexivity |].
  eapply (walk_last_write_stays twin_leaf_title 29 fresh_world _
            (snd (walk twin_leaf_title 29 fresh_world)) [_] []).
  - apply surjective_pairing.
  - vm_compute. reflexivity.
  - apply (bool_decide_unpack (Forall _ _)). vm_compute. exact I.
  - apply not_elem_of_nil.
Defined.

(** X11: a second walk of the same document, after a walk that returned,
    writes the same documents again, when it returns, and leaves every file
    as the first walk left it. *)
Theorem walk_again_same_files (root : tag) (t : Z) (w w1 w2 : World) :
  walk root t w = (w1, Ret tt) →
  walk root t w1 = (w2, Ret tt) →
  files (fs w2) = files (fs w1)
  ∧ written w2
    = written w ++ map leaf_write (walk_leaves root t)
      ++ map leaf_write (walk_leaves root t).
Proof.
  intros H1 H2.
  pose proof (walk_files _ _ _ _ _ H1) as Hf1.
  pose proof (walk_files _ _ _ _ _ H2) as Hf2.
  destruct (walk_outcome _ _ _ _ _ H1) as (Hw1 & _ & Hr1).
  destruct (walk_outcome _ _ _ _ _ H2) as (Hw2 & _ & Hr2).
  rewrite (Hr1 eq_refl) in Hf1, Hw1. rewrite (Hr2 eq_refl) in Hf2, Hw2.
  split.
  - by rewrite Hf2, Hf1, apply_writes_twice.
  - by rewrite Hw2, Hw1, <- app_assoc.
Qed.

Lemma walk_again_same_files_witness :
  files (fs (fst (walk single_section_title 29
                    (fst (walk single_section_title 29 fresh_world)))))
  = files (fs (fst (walk single_section_title 29 fresh_world)))
  ∧ written (fst (walk single_section_title 29
                    (fst (walk single_section_title 29 fresh_world))))
    = written fresh_world
      ++ map leaf_write (walk_leaves single_section_title 29)
      ++ map leaf_write (walk_leaves single_section_title 29).
Proof.
  apply (walk_again_same_files single_section_title 29 fresh_world).
  - apply run_returns. vm_compute. reflexivity.
  - apply run_returns. vm_compute. reflexivity.
Defined.

Lemma flat_map_nil {A B} (f : A → list B) (l : list A) :
  Forall (fun x => f x = []) l → flat_map f l = [].
Proof. induction 1 as [|x l Hx _ IH]; simpl; [done | by rewrite Hx, IH]. Qed.

(** X12: whatever comes of a walk, it writes nothing when the document has
    no subchapter in a chapter in a subtitle, or no part, or no subpart
    with a section or an appendix below it: the sections that lie outside
    every subpart get no file. *)
Theorem walk_without_leaves_writes_nothing
    (root : tag) (t : Z) (w w' : World) (r : result unit) :
  walk root t w = (w', r) →
  subchapters root = [] ∨ Soup.find_all "DIV5" root = []
  ∨ Forall (fun sub_part => leaves_of sub_part = [])
      (Soup.find_all "DIV6" root) →
  written w' = written w ∧ files (fs w') = files (fs w).
Proof.
  intros H Hempty.
  assert (Hl : walk_leaves root t = []).
  { unfold walk_leaves. destruct Hempty as [-> | [-> | Hsp]]; [done | |].
    - apply flat_map_nil, Forall_forall. by intros [[? ?] ?].
    - apply flat_map_nil, Forall_forall. intros [[? ?] ?] _.
      apply flat_map_nil, Forall_forall. intros part _.
      apply flat_map_nil. eapply Forall_impl; [exact Hsp |].
      by intros sub_part ->. }
  pose proof (walk_files _ _ _ _ _ H) as Hf.
  destruct (walk_outcome _ _ _ _ _ H) as (Hw & Hp & _).
  rewrite Hl in Hp. apply prefix_nil_inv in Hp.
  rewrite Hp in Hw, Hf. simpl in *. by rewrite app_nil_r in Hw.
Qed.

Lemma walk_without_leaves_writes_nothing_witness :
  written (fst (walk part_without_subpart 29 fresh_world))
  = written fresh_world
  ∧ files (fs (fst (walk part_without_subpart 29 fresh_world)))
    = files (fs fresh_world).
Proof.
  apply (walk_without_leaves_writes_nothing part_without_subpart 29
           fresh_world _ (snd (walk part_without_subpart 29 fresh_world))).
  - apply surjective_pairing.
  - right. right. vm_compute. constructor.
Defined.

End WalkEffects.

(** * The cache of the XML *)

Section Cache.

Lemma cache_file_parts (t : Z) :
  Pathlib.mk ("./cache/title" +:+ pretty t +:+ ".xml") = cache_file t.
Proof.
  unfold Pathlib.mk, cache_file.
  assert (E : "./cache/title" +:+ pretty t +:+ ".xml"
              = Str.join "/" [ "."%string; "cache"%string;
                               "title" +:+ pretty t +:+ ".xml" ]).
  { generalize (pretty t). intros pt. reflexivity. }
  rewrite E, split_join; [reflexivity | done |].
  repeat (apply Forall_cons; split); try by apply no_slash_literal.
  - apply no_slash_app; [by apply no_slash_literal |].
    apply no_slash_app; [apply pretty_Z_no_slash | by apply no_slash_literal].
  - apply Forall_nil_2.
Qed.

(** The path of a document lies below [documents], whatever the codes. *)
Lemma document_file_head (sc : Scope) (n : string) :
  ∃ rest, document_file sc n = "documents"%string :: rest.
Proof.
  unfold document_file, Pathlib.mk.
  match goal with
  | |- context [Str.split "/" ("./documents/title_" +:+ ?x)] =>
      generalize x; intros rest
  end.
  assert (E : Str.split "/" ("./documents/title_" +:+ rest)
              = "."%string :: "documents"%string
                :: Str.split "/" ("title_" +:+ rest)).
  { cbn [Str.split String.append Ascii.eqb Bool.eqb]. reflexivity. }
  rewrite E. cbn [List.filter Pathlib.is_part]. eexists. reflexivity.
Qed.

Lemma leaf_file_not_cache (t : Z) (l : list (Scope * (leaf_kind * tag))) :
  cache_file t ∉ map leaf_file l.
Proof.
  intros (e & He & _)%list_elem_of_fmap.
  destruct (document_file_head (fst e) (N_of (snd (snd e)))) as [rest Hd].
  unfold leaf_file in He. rewrite Hd in He. discriminate.
Qed.

Lemma bind_first {A B} (m m' : M A) (k : A → M B) (w w' : World) :
  m w = m' w' → bind m k w = bind m' k w'.
Proof. unfold bind. by intros ->. Qed.

(** With the XML of the title in the cache, [load_xml] reads it. *)
Lemma load_xml_hit (t : Z) (w : World) (data : string) :
  files (fs w) !! cache_file t = Some data →
  load_xml t w = (after_cache_hit t w, Ret (Some data)).
Proof.
  intros H. unfold load_xml. cbv zeta. rewrite cache_file_parts.
  unfold bind at 1, path_is_file, Os.is_file.
  rewrite bool_decide_eq_true_2 by (by rewrite H).
  unfold bind, print, path_read, Os.read_text. cbn [fs stdout].
  rewrite H. unfold ret, after_cache_hit. cbn [fs stdout net requests written].
  by rewrite <- app_assoc.
Qed.

(** With no file for the title in the cache, [load_xml] fetches the XML,
    writes what it got to the cache and prints a line. *)
Lemma load_xml_miss (t : Z) (w : World) :
  files (fs w) !! cache_file t = None →
  load_xml t w
  = (xml_data <- (xml_data <- get_cfr_title_xml t ;;
                  path_write_text (cache_file t) xml_data ;;
                  ret xml_data) ;;
     print ("XML loaded for title " +:+ pretty t) ;;
     ret xml_data) (before_fetch w).
Proof.
  intros H. unfold load_xml. cbv zeta. rewrite cache_file_parts.
  erewrite bind_run
    by (unfold path_is_file, Os.is_file;
        rewrite bool_decide_eq_false_2 by (rewrite H; by intros [? ?]);
        reflexivity).
  apply bind_first.
  erewrite bind_run by reflexivity. erewrite bind_run by reflexivity.
  cbn [fs stdout net requests written].
  change (Pathlib.parent (cache_file t)) with ["cache"%string].
  unfold before_fetch.
  destruct (Os.exists_ ["cache"%string] (fs w)) eqn:E; cbn [negb when].
  - by erewrite bind_run by reflexivity.
  - erewrite bind_run; [reflexivity |].
    unfold path_mkdir_parents, Os.mkdir_parents.
    cbn [rev app fs]. rewrite mkdir_rev_eq. unfold Os.mkdir. cbn [rev app].
    rewrite E. change (Pathlib.parent ["cache"%string]) with (@nil string).
    rewrite is_dir_nil. reflexivity.
Qed.

(** X13: with the XML of the title in the cache, [fetch_and_parse_cfr_xml]
    is the walk of the parsed cache after two lines printed, and whatever
    comes of it, no request has been sent. *)
Theorem cache_hit_sends_no_request
    (BeautifulSoup : string → tag) (t : Z) (w w' : World) (data : string)
    (r : result unit) :
  files (fs w) !! cache_file t = Some data →
  fetch_and_parse_cfr_xml BeautifulSoup t w = (w', r) →
  walk (BeautifulSoup data) t (after_cache_hit t w) = (w', r)
  ∧ requests w' = requests w.
Proof.
  intros Hhit. unfold fetch_and_parse_cfr_xml, bind.
  rewrite (load_xml_hit _ _ _ Hhit). intros H. split; [done |].
  by destruct (respects_walk _ _ _ _ _ H) as (-> & _).
Qed.

Lemma cache_hit_sends_no_request_witness :
  walk (fixed_parser served_xml) 29 (after_cache_hit 29 cached_world)
  = (fst (fetch_and_parse_cfr_xml fixed_parser 29 cached_world),
     snd (fetch_and_parse_cfr_xml fixed_parser 29 cached_world))
  ∧ requests (fst (fetch_and_parse_cfr_xml fixed_parser 29 cached_world))
    = requests cached_world.
Proof.
  apply (cache_hit_sends_no_request fixed_parser 29 cached_world).
  - vm_compute. reflexivity.
  - apply surjective_pairing.
Defined.

(** X14: with no file for the title in the cache, nothing but a directory
    under the name [cache] and no directory at the path of the cached
    file, a fetch that returns a text is followed by the walk of the parsed
    text; whatever comes of the walk, the cache then holds the text, and a
    second run sends no request. *)
Theorem fetched_xml_is_cached
    (BeautifulSoup : string → tag) (t : Z) (w w1 w' : World) (data : string)
    (r : result unit) :
  files (fs w) !! cache_file t = None →
  Os.is_file ["cache"%string] (fs w) = false →
  Os.is_dir (cache_file t) (fs w) = false →
  get_cfr_title_xml t (before_fetch w) = (w1, Ret (Some data)) →
  fetch_and_parse_cfr_xml BeautifulSoup t w = (w', r) →
  files (fs w') !! cache_file t = Some data
  ∧ requests w' = requests w1
  ∧ ∀ w'' r', fetch_and_parse_cfr_xml BeautifulSoup t w' = (w'', r') →
              requests w'' = requests w'.
Proof.
  intros Hmiss Hcache Hfree Hfetch.
  destruct (get_cfr_title_xml_frame _ _ _ _ Hfetch) as (Hfs & _ & _).
  assert (Hdir : Os.is_dir ["cache"%string] (fs w1) = true).
  { rewrite Hfs. unfold before_fetch. cbn [fs]. unfold Os.exists_.
    rewrite Hcache, orb_false_r.
    destruct (Os.is_dir ["cache"%string] (fs w)) eqn:E; [done |].
    apply is_dir_add. by left. }
  assert (Hfree1 : Os.is_dir (cache_file t) (fs w1) = false).
  { rewrite Hfs. unfold before_fetch. cbn [fs].
    destruct (Os.exists_ ["cache"%string] (fs w)); [done |].
    apply not_true_is_false. intros E.
    apply is_dir_add in E as [E | E]; [by unfold cache_file in E | congruence]. }
  assert (Hwrite : path_write_text (cache_file t) (Some data) w1
                   = ({| fs := {| files := <[cache_file t := data]>
                                             (files (fs w1));
                                  dirs := dirs (fs w1) |};
                         stdout := stdout w1; net := net w1;
                         requests := requests w1;
                         written := written w1 ++ [(cache_file t, data)] |},
                      Ret tt)).
  { unfold path_write_text, Os.write_text. rewrite Hfree1.
    change (Pathlib.parent (cache_file t)) with ["cache"%string].
    by rewrite Hdir. }
  assert (Hload : ∃ w2, load_xml t w = (w2, Ret (Some data))
                        ∧ files (fs w2)
                          = <[cache_file t := data]> (files (fs w1))
                        ∧ requests w2 = requests w1).
  { rewrite (load_xml_miss _ _ Hmiss). eexists. split.
    - erewrite bind_run; [reflexivity |].
      erewrite bind_run by exact Hfetch.
      erewrite bind_run by exact Hwrite. reflexivity.
    - done. }
  destruct Hload as (w2 & Hload & Hfiles2 & Hreq2).
  unfold fetch_and_parse_cfr_xml. rewrite (bind_run _ _ _ _ _ Hload).
  intros Hwalk.
  assert (Hcached : files (fs w') !! cache_file t = Some data).
  { rewrite (walk_files _ _ _ _ _ Hwalk).
    rewrite apply_writes_other by (rewrite map_map; apply leaf_file_not_cache).
    rewrite Hfiles2. apply lookup_insert_eq. }
  split; [done |]. split.
  - destruct (respects_walk _ _ _ _ _ Hwalk) as (-> & _). done.
  - intros w'' r'. unfold fetch_and_parse_cfr_xml, bind.
    rewrite (load_xml_hit _ _ _ Hcached). intros H.
    by destruct (respects_walk _ _ _ _ _ H) as (-> & _).
Qed.

Lemma fetched_xml_is_cached_witness :
  files (fs (fst (fetch_and_parse_cfr_xml fixed_parser 29 serving_world)))
    !! cache_file 29 = Some served_xml
  ∧ requests (fst (fetch_and_parse_cfr_xml fixed_parser 29 serving_world))
    = requests (fst (get_cfr_title_xml 29 (before_fetch serving_world)))
  ∧ ∀ w'' r',
      fetch_and_parse_cfr_xml fixed_parser 29
        (fst (fetch_and_parse_cfr_xml fixed_parser 29 serving_world))
      = (w'', r') →
      requests w''
      = requests (fst (fetch_and_parse_cfr_xml fixed_parser 29 serving_world)).
Proof.
  apply (fetched_xml_is_cached fixed_parser 29 serving_world _ _ served_xml
           (snd (fetch_and_parse_cfr_xml fixed_parser 29 serving_world))).
  - vm_compute. reflexivity.
  - vm_compute. reflexivity.
  - vm_compute. reflexivity.
  - apply run_returns. vm_compute. reflexivity.
  - apply surjective_pairing.
Defined.

(** X15: with no file for the title in the cache, a fetch that returns
    [None] makes [fetch_and_parse_cfr_xml] raise [TypeError] when it
    writes the cache: no file is created or changed, the document is not
    parsed and nothing is written. *)
Theorem failed_fetch_raises_type_error
    (BeautifulSoup : string → tag) (t : Z) (w w1 : World) :
  files (fs w) !! cache_file t = None →
  get_cfr_title_xml t (before_fetch w) = (w1, Ret None) →
  fetch_and_parse_cfr_xml BeautifulSoup t w = (w1, Raise TypeError)
  ∧ files (fs w1) = files (fs w) ∧ written w1 = written w.
Proof.
  intros Hmiss Hfetch.
  destruct (get_cfr_title_xml_frame _ _ _ _ Hfetch) as (Hfs & _ & Hwr).
  split.
  - unfold fetch_and_parse_cfr_xml, bind.
    rewrite (load_xml_miss _ _ Hmiss). unfold bind. by rewrite Hfetch.
  - rewrite Hfs, Hwr. unfold before_fetch. cbn [fs written].
    by destruct (Os.exists_ ["cache"%string] (fs w)).
Qed.

Lemma failed_fetch_raises_type_error_witness :
  fetch_and_parse_cfr_xml fixed_parser 29 failing_world
  = (fst (get_cfr_title_xml 29 (before_fetch failing_world)), Raise TypeError)
  ∧ files (fs (fst (get_cfr_title_xml 29 (before_fetch failing_world))))
    = files (fs failing_world)
  ∧ written (fst (get_cfr_title_xml 29 (before_fetch failing_world)))
    = written failing_world.
Proof.
  apply (failed_fetch_raises_type_error fixed_parser 29 failing_world).
  - vm_compute. reflexivity.
  - apply run_returns. vm_compute. reflexivity.
Defined.

End Cache.

(** * Walks that return *)

Section Success.

Lemma prefix_head (q p : Path) (a : string) :
  q ≠ [] → q `prefix_of` p → head p = Some a → head q = Some a.
Proof. intros Hq [k ->] H. by destruct q. Qed.

(** Writing a document at a path of eight parts below [documents] succeeds
    in a ready file system and leaves it ready. *)
Lemma succeeds_write_document (file : Path) (result : json) :
  head file = Some "documents"%string → List.length file = 8%nat →
  succeeds (write_document file result).
Proof.
  intros Hhead Hlen w [Hfiles Hdirs].
  destruct (exists_last (l := file)) as (parent & x & ->);
    [by destruct file |].
  rewrite length_app in Hlen. simpl in Hlen.
  destruct (write_document_tree parent x result w) as (f' & -> & Hf' & Hd').
  - intros q Hq Hpre. apply bool_decide_eq_false_2. intros [s Hs].
    apply Hfiles in Hs.
    assert (Hh : head q = Some "documents"%string)
      by (eapply prefix_head; [done | by apply prefix_app_r | done]).
    apply Hs in Hh. apply prefix_length in Hpre. lia.
  - apply not_true_is_false. intros [E | E]%is_dir_elem.
    + by destruct parent.
    + apply Hdirs in E. apply E; [done |]. rewrite length_app. simpl. lia.
  - eexists. split; [reflexivity |]. simpl. split.
    + rewrite Hf'. apply map_Forall_insert_2; [| done].
      intros _. rewrite length_app. simpl. lia.
    + intros q Hq. apply Hd' in Hq as [Hq | [Hq1 Hq2]]; [by apply Hdirs |].
      intros _. apply prefix_length in Hq2. lia.
Qed.

Lemma succeeds_ret : succeeds (ret tt).
Proof. intros w Hw. by exists w. Qed.

Lemma succeeds_seq (m1 m2 : M unit) :
  succeeds m1 → succeeds m2 → succeeds (m1 ;; m2).
Proof.
  intros H1 H2 w Hw. destruct (H1 w Hw) as (w1 & E1 & Hw1).
  destruct (H2 w1 Hw1) as (w2 & E2 & Hw2).
  exists w2. by rewrite (bind_run _ _ _ _ _ E1).
Qed.

Lemma succeeds_print line (k : M unit) :
  succeeds k → succeeds (print line ;; k).
Proof.
  intros Hk w Hw. erewrite bind_run by reflexivity. by apply Hk.
Qed.

Lemma succeeds_getitem (t : tag) (v : string) (k : string → M unit) :
  Soup.attrs t !! "N"%string = Some v →
  succeeds (k v) → succeeds (bind (getitem t "N") k).
Proof.
  intros Hv Hk w Hw. rewrite (bind_run _ _ _ _ _ (getitem_run _ _ _ _ Hv)).
  by apply Hk.
Qed.

Lemma succeeds_for_each {A} (l : list A) (body : A → M unit) :
  Forall (fun x => succeeds (body x)) l → succeeds (for_each l body).
Proof.
  induction 1 as [|x l Hx _ IH]; simpl; [apply succeeds_ret |].
  by apply succeeds_seq.
Qed.

Lemma coded_value (t : tag) :
  coded t = true →
  ∃ v, Soup.attrs t !! "N"%string = Some v ∧ no_slash v.
Proof.
  unfold coded. destruct (Soup.attrs t !! "N"%string) as [v |]; [| done].
  intros H%bool_decide_eq_true. by exists v.
Qed.

Lemma forallb_Forall {A} (f : A → bool) (l : list A) :
  forallb f l = true → Forall (fun x => f x = true) l.
Proof.
  induction l as [|x l IH]; simpl; [constructor |].
  intros [Hx Hl]%andb_true_iff. constructor; auto.
Qed.

Lemma document_file_shape (sc : Scope) (n : string) :
  scope_no_slash sc → no_slash n →
  head (document_file sc n) = Some "documents"%string
  ∧ List.length (document_file sc n) = 8%nat.
Proof. intros Hsc Hn. by rewrite document_file_parts. Qed.

(** The body of the loop over the leaves of a subpart returns when the
    codes of the scope hold no slash and the leaves are coded. *)
Lemma succeeds_leaves (sc : Scope) (sub_part : tag) :
  scope_no_slash sc →
  forallb coded (Soup.find_all "DIV8" sub_part) = true →
  forallb coded (Soup.find_all "DIV9" sub_part) = true →
  succeeds (for_each (Soup.find_all "DIV8" sub_part) (process_section sc) ;;
            for_each (Soup.find_all "DIV9" sub_part) (process_appendix sc)).
Proof.
  intros Hsc H8 H9. apply succeeds_seq; apply succeeds_for_each.
  - eapply Forall_impl; [apply forallb_Forall, H8 |].
    intros section (n & Hn & Hs)%coded_value. unfold process_section.
    apply (succeeds_getitem _ n); [done |].
    by apply succeeds_write_document; apply document_file_shape.
  - eapply Forall_impl; [apply forallb_Forall, H9 |].
    intros appendix (n & Hn & Hs)%coded_value. unfold process_appendix.
    apply (succeeds_getitem _ n); [done |].
    by apply succeeds_write_document; apply document_file_shape.
Qed.

(** The head of a loop body on a coded tag: the code is read and a line is
    printed. *)
Ltac enter_coded H v Hv Hs :=
  apply coded_value in H as (v & Hv & Hs);
  apply (succeeds_getitem _ v); [exact Hv |];
  apply succeeds_print.

Lemma succeeds_walk (root : tag) (t : Z) :
  walkable root = true → succeeds (walk root t).
Proof.
  unfold walkable.
  intros [[[[title H1]%bool_decide_eq_true H2]%andb_true_iff
             H5]%andb_true_iff H6]%andb_true_iff.
  unfold walk. rewrite H1. intros w Hw.
  erewrite bind_run by reflexivity. revert w Hw.
  apply succeeds_print. apply succeeds_for_each.
  eapply Forall_impl; [apply forallb_Forall, H2 |].
  intros subtitle [Hc2 H3]%andb_true_iff. enter_coded Hc2 v2 Hv2 Hs2.
  apply succeeds_for_each.
  eapply Forall_impl; [apply forallb_Forall, H3 |].
  intros chapter [Hc3 H4]%andb_true_iff. enter_coded Hc3 v3 Hv3 Hs3.
  apply succeeds_for_each.
  eapply Forall_impl; [apply forallb_Forall, H4 |].
  intros subchapter Hc4. enter_coded Hc4 v4 Hv4 Hs4.
  apply succeeds_for_each.
  eapply Forall_impl; [apply forallb_Forall, H5 |].
  intros part Hc5. enter_coded Hc5 v5 Hv5 Hs5.
  apply succeeds_for_each.
  eapply Forall_impl; [apply forallb_Forall, H6 |].
  intros sub_part [[Hc6 H8]%andb_true_iff H9]%andb_true_iff.
  enter_coded Hc6 v6 Hv6 Hs6.
  by apply succeeds_leaves.
Qed.

(** X16: in a document where the walk finds a title and every tag the
    loops visit has a code without a slash, and in a file system that
    holds, below [documents], regular files at the depth of the documents
    only and no directory at that depth, the walk returns; it has written
    the document of every leaf of [walk_leaves], and the file system is
    again such that a walk returns. *)
Theorem walkable_document_is_walked (root : tag) (t : Z) (w : World) :
  walkable root = true →
  fs_ready (fs w) →
  ∃ w', walk root t w = (w', Ret tt)
        ∧ written w' = written w ++ map leaf_write (walk_leaves root t)
        ∧ fs_ready (fs w').
Proof.
  intros Hroot Hw. destruct (succeeds_walk root t Hroot w Hw) as (w' & H & Hw').
  exists w'. split; [done |]. split; [by apply walk_written | done].
Qed.

Lemma walkable_document_is_walked_witness :
  ∃ w', walk two_part_title 29 fresh_world = (w', Ret tt)
        ∧ written w'
          = written fresh_world ++ map leaf_write (walk_leaves two_part_title 29)
        ∧ fs_ready (fs w').
Proof.
  apply (walkable_document_is_walked two_part_title 29 fresh_world).
  - vm_compute. reflexivity.
  - split; [apply map_Forall_empty | apply set_Forall_empty].
Defined.

End Success.

(** * Walks that do not return *)

Section Failure.

Lemma returns_seq (m1 m2 : M unit) :
  returns (m1 ;; m2) → returns m1 ∧ returns m2.
Proof.
  intros (w & w' & (w1 & [] & H1 & H2)%bind_ret_inv).
  split; [by exists w, w1 | by exists w1, w'].
Qed.

Lemma returns_for_each {A} (l : list A) (body : A → M unit) :
  returns (for_each l body) → Forall (fun x => returns (body x)) l.
Proof.
  induction l as [|x l IH]; simpl; [constructor |].
  intros [Hx Hl]%returns_seq. constructor; auto.
Qed.

Lemma returns_loop_head (t : tag) (line : string → string)
    (k : string → M unit) :
  returns (n <- getitem t "N" ;; print (line n) ;; k n) →
  has_code t ∧ ∃ v, returns (k v).
Proof.
  intros (w & w' & (w1 & v & H1 & H2)%bind_ret_inv).
  apply bind_ret_inv in H2 as (w2 & [] & _ & H2). split.
  - unfold has_code. unfold getitem in H1.
    by destruct (Soup.attrs t !! "N"%string).
  - exists v. by exists w2, w'.
Qed.

Lemma returns_leaf (t : tag) (k : string → M unit) :
  returns (bind (getitem t "N") k) → has_code t.
Proof.
  intros (w & w' & (w1 & v & H1 & _)%bind_ret_inv).
  unfold has_code. unfold getitem in H1.
  by destruct (Soup.attrs t !! "N"%string).
Qed.

(** What a walk that returns has found, loop by loop. *)
Lemma returns_walk (root : tag) (t : Z) :
  returns (walk root t) →
  is_Some (Soup.find "DIV1" root)
  ∧ Forall (fun subtitle =>
      has_code subtitle
      ∧ Forall (fun chapter =>
          has_code chapter
          ∧ Forall (fun subchapter =>
              has_code subchapter
              ∧ Forall (fun part => has_code part ∧ subparts_have_codes root)
                  (Soup.find_all "DIV5" root))
              (Soup.find_all "DIV4" chapter))
          (Soup.find_all "DIV3" subtitle))
      (Soup.find_all "DIV2" root).
Proof.
  intros (w & w' & H). unfold walk in H.
  apply bind_ret_inv in H as (w1 & td & H1 & H).
  split; [by destruct (Soup.find "DIV1" root) |].
  apply bind_ret_inv in H as (w2 & [] & _ & H).
  assert (Hr : returns (for_each (Soup.find_all "DIV2" root) _))
    by (eexists _, _; exact H).
  clear H. apply returns_for_each in Hr.
  eapply Forall_impl; [exact Hr |]. clear Hr. cbv beta.
  intros subtitle [Hc [v2 Hr]]%returns_loop_head. split; [done |].
  apply returns_for_each in Hr.
  eapply Forall_impl; [exact Hr |]. clear Hr. cbv beta.
  intros chapter [Hc3 [v3 Hr]]%returns_loop_head. split; [done |].
  apply returns_for_each in Hr.
  eapply Forall_impl; [exact Hr |]. clear Hr. cbv beta.
  intros subchapter [Hc4 [v4 Hr]]%returns_loop_head. split; [done |].
  apply returns_for_each in Hr.
  eapply Forall_impl; [exact Hr |]. clear Hr. cbv beta.
  intros part [Hc5 [v5 Hr]]%returns_loop_head. split; [done |].
  apply returns_for_each in Hr. unfold subparts_have_codes.
  eapply Forall_impl; [exact Hr |]. clear Hr. cbv beta.
  intros sub_part [Hc6 [v6 [H8 H9]%returns_seq]]%returns_loop_head.
  split; [done |].
  apply returns_for_each in H8. apply returns_for_each in H9.
  split; (eapply Forall_impl; [eassumption |]); cbv beta;
    intros leaf Hleaf; by eapply returns_leaf.
Qed.

Lemma subchapters_elem (root subtitle chapter subchapter : tag) :
  (subtitle, chapter, subchapter) ∈ subchapters root →
  subtitle ∈ Soup.find_all "DIV2" root
  ∧ chapter ∈ Soup.find_all "DIV3" subtitle
  ∧ subchapter ∈ Soup.find_all "DIV4" chapter.
Proof.
  unfold subchapters. rewrite !list_elem_of_In, in_flat_map.
  intros (st & Hst & H). apply in_flat_map in H as (ch & Hch & H).
  apply in_map_iff in H as (sc & [= <- <- <-] & Hsc). done.
Qed.

(** X17: a walk returns only if the document has a title and every tag the
    loops visit has the attribute [N]: every subtitle, every chapter and
    subchapter in them, and, once there is a subchapter, every part of the
    document and, once there is a part too, every subpart of the document
    with every section and appendix below it. *)
Theorem walk_returns_only_with_codes
    (root : tag) (t : Z) (w w' : World) :
  walk root t w = (w', Ret tt) →
  is_Some (Soup.find "DIV1" root)
  ∧ Forall (fun subtitle =>
      has_code subtitle
      ∧ Forall (fun chapter =>
          has_code chapter
          ∧ Forall has_code (Soup.find_all "DIV4" chapter))
          (Soup.find_all "DIV3" subtitle))
      (Soup.find_all "DIV2" root)
  ∧ (subchapters root ≠ [] → Forall has_code (Soup.find_all "DIV5" root))
  ∧ (subchapters root ≠ [] → Soup.find_all "DIV5" root ≠ [] →
     subparts_have_codes root).
Proof.
  intros H.
  destruct (returns_walk root t (ex_intro _ w (ex_intro _ w' H))) as [H1 H2].
  split; [done |]. split; [| split].
  - eapply Forall_impl; [exact H2 |]. cbv beta. intros subtitle [Hc H3].
    split; [done |]. eapply Forall_impl; [exact H3 |]. cbv beta.
    intros chapter [Hc3 H4]. split; [done |].
    eapply Forall_impl; [exact H4 |]. by intros subchapter [? _].
  - intros Hsub. destruct (subchapters root) as [|[[st ch] sc] rest] eqn:E;
      [done |].
    destruct (subchapters_elem root st ch sc) as (Hst & Hch & Hsc);
      [rewrite E; by left |].
    rewrite Forall_forall in H2. destruct (H2 _ Hst) as [_ H3].
    rewrite Forall_forall in H3. destruct (H3 _ Hch) as [_ H4].
    rewrite Forall_forall in H4. destruct (H4 _ Hsc) as [_ H5].
    eapply Forall_impl; [exact H5 |]. by intros part [? _].
  - intros Hsub Hparts.
    destruct (subchapters root) as [|[[st ch] sc] rest] eqn:E; [done |].
    destruct (subchapters_elem root st ch sc) as (Hst & Hch & Hsc);
      [rewrite E; by left |].
    rewrite Forall_forall in H2. destruct (H2 _ Hst) as [_ H3].
    rewrite Forall_forall in H3. destruct (H3 _ Hch) as [_ H4].
    rewrite Forall_forall in H4. destruct (H4 _ Hsc) as [_ H5].
    destruct (Soup.find_all "DIV5" root) as [|part parts]; [done |].
    by apply Forall_cons in H5 as [[_ ?] _].
Qed.

Lemma walk_returns_only_with_codes_witness :
  is_Some (Soup.find "DIV1" two_part_title)
  ∧ Forall (fun subtitle =>
      has_code subtitle
      ∧ Forall (fun chapter =>
          has_code chapter
          ∧ Forall has_code (Soup.find_all "DIV4" chapter))
          (Soup.find_all "DIV3" subtitle))
      (Soup.find_all "DIV2" two_part_title)
  ∧ (subchapters two_part_title ≠ [] →
     Forall has_code (Soup.find_all "DIV5" two_part_title))
  ∧ (subchapters two_part_title ≠ [] →
     Soup.find_all "DIV5" two_part_title ≠ [] →
     subparts_have_codes two_part_title).
Proof.
  apply (walk_returns_only_with_codes two_part_title 29 fresh_world
           (fst (walk two_part_title 29 fresh_world))).
  apply run_returns. vm_compute. reflexivity.
Defined.

(** X18: in a document where [find] gets no [DIV1], the walk raises
    [AttributeError] at once: nothing is printed or written, whatever else
    the document holds. *)
Theorem walk_without_title (root : tag) (t : Z) (w : World) :
  Forall (fun d => Soup.name d ≠ "DIV1"%string) (Soup.descendants root) →
  walk root t w = (w, Raise (AttributeError "HEAD")).
Proof.
  intros H%find_absent. unfold walk, bind. by rewrite H.
Qed.

Lemma walk_without_title_witness :
  walk untitled_document 29 fresh_world
  = (fresh_world, Raise (AttributeError "HEAD")).
Proof.
  apply (walk_without_title untitled_document 29 fresh_world).
  vm_compute. repeat constructor; discriminate.
Defined.

Lemma raises_only_bind {A B} allowed (m : M A) (k : A → M B) :
  raises_only allowed m → (∀ a, raises_only allowed (k a)) →
  raises_only allowed (bind m k).
Proof.
  intros Hm Hk w w' e H. unfold bind in H.
  destruct (m w) as [w1 [a | e1]] eqn:E.
  - by eapply Hk.
  - injection H as <- <-. by eapply Hm.
Qed.

Lemma raises_only_ret {A} allowed (a : A) : raises_only allowed (ret a).
Proof. by intros w w' e. Qed.

Lemma raises_only_for_each {A} allowed (l : list A) (body : A → M unit) :
  (∀ x, raises_only allowed (body x)) → raises_only allowed (for_each l body).
Proof.
  intros H. induction l as [|x l IH]; simpl; [apply raises_only_ret |].
  apply raises_only_bind; auto.
Qed.

Lemma raises_only_print allowed line : raises_only allowed (print line).
Proof. by intros w w' e. Qed.

Lemma raises_only_getitem (t : tag) :
  raises_only is_walk_error (getitem t "N").
Proof.
  intros w w' e. unfold getitem.
  destruct (Soup.attrs t !! "N"%string); [done | by intros [= _ <-]].
Qed.

Lemma mkdir_raise p f e : Os.mkdir p f = Raise e → is_os_error e = true.
Proof. unfold Os.mkdir. repeat case_match; by intros [= <-]. Qed.

Lemma raise_if (b : bool) (e e' : exn) (f : FileSystem) :
  (if b then Ret f else Raise e) = Raise e' → e' = e.
Proof. destruct b; by intros [= <-]. Qed.

Lemma mkdir_rev_raise rp exist_ok f e :
  Os.mkdir_rev rp exist_ok f = Raise e → is_os_error e = true.
Proof.
  revert exist_ok f e. induction rp as [|x rparent IH]; intros exist_ok f e;
    rewrite mkdir_rev_eq.
  - destruct (Os.mkdir (rev []) f) as [f1 | e1] eqn:E; [done |].
    apply mkdir_raise in E.
    destruct e1; try done; by (intros ->%raise_if || intros [= <-]).
  - destruct (Os.mkdir (rev (x :: rparent)) f) as [f1 | e1] eqn:E; [done |].
    apply mkdir_raise in E.
    destruct e1; try done; try by intros ->%raise_if.
    destruct (Os.mkdir_rev rparent true f) as [f1 | e2] eqn:E1.
    + destruct (Os.mkdir (rev (x :: rparent)) f1) as [f2 | e3] eqn:E2;
        [done |].
      apply mkdir_raise in E2.
      destruct e3; try done; by (intros ->%raise_if || intros [= <-]).
    + intros [= <-]. by eapply IH.
Qed.

Lemma raises_only_write_document file result :
  raises_only is_walk_error (write_document file result).
Proof.
  unfold write_document.
  apply raises_only_bind; [by intros w w' e |]. intros parent_exists.
  apply raises_only_bind.
  - intros w w' e. destruct parent_exists; simpl; [done |].
    unfold path_mkdir_parents, Os.mkdir_parents.
    destruct (Os.mkdir_rev _ _ _) eqn:E; [done |].
    intros [= _ <-]. apply mkdir_rev_raise in E. by destruct e0.
  - intros _ w w' e. unfold path_write_text, Os.write_text.
    repeat case_match; simplify_eq/=; by intros [= _ <-].
Qed.

(** X19: a walk ends with no exception other than [AttributeError] for a
    missing title, [KeyError] for a missing attribute [N], or an exception
    of the file system raised when a directory is made or a file written. *)
Theorem walk_raises_only
    (root : tag) (t : Z) (w w' : World) (e : exn) :
  walk root t w = (w', Raise e) → is_walk_error e = true.
Proof.
  revert w w' e. change (raises_only is_walk_error (walk root t)).
  unfold walk. apply raises_only_bind.
  { intros w w' e. destruct (Soup.find "DIV1" root); [done |].
    by intros [= _ <-]. }
  intros ?. apply raises_only_bind; [apply raises_only_print |]. intros _.
  repeat (apply raises_only_for_each; intros ?;
          apply raises_only_bind; [apply raises_only_getitem |]; intros ?;
          apply raises_only_bind; [apply raises_only_print |]; intros _).
  apply raises_only_bind; apply raises_only_for_each || intros _.
  - intros section. unfold process_section.
    apply raises_only_bind; [apply raises_only_getitem |]. intros ?.
    apply raises_only_write_document.
  - apply raises_only_for_each. intros appendix. unfold process_appendix.
    apply raises_only_bind; [apply raises_only_getitem |]. intros ?.
    apply raises_only_write_document.
Qed.

Lemma walk_raises_only_witness :
  is_walk_error (KeyError "N") = true.
Proof.
  apply (walk_raises_only uncoded_subtitle_title 29 fresh_world
           (fst (walk uncoded_subtitle_title 29 fresh_world))).
  apply (surjective_pairing (walk uncoded_subtitle_title 29 fresh_world)).
Defined.

End Failure.

(** * More on the deep links *)

Section LinkCodes.

(** A text is cut at its first slash in one way. *)
Lemma app_slash_inj (a a' r r' : string) :
  no_slash a → no_slash a' →
  a +:+ String "/" r = a' +:+ String "/" r' → a = a' ∧ r = r'.
Proof.
  unfold no_slash. revert a'.
  induction a as [|x a IH]; intros [|y a']; simpl.
  - by intros _ _ [= ->].
  - intros _ H [= <- _]. destruct H. by left.
  - intros H _ [= -> _]. destruct H. by left.
  - intros [_ Ha]%not_elem_of_cons [_ Ha']%not_elem_of_cons [= -> H].
    destruct (IH _ Ha Ha' H) as [-> ->]. done.
Qed.

Lemma link_codes_inj (t t' : Z) (s c p sp s' c' p' sp' rest rest' : string) :
  link_codes_no_slash s c p sp → link_codes_no_slash s' c' p' sp' →
  "https://www.ecfr.gov/current/title-" +:+ pretty t +:+ "/subtitle-"
  +:+ s +:+ "/chapter-" +:+ c +:+ "/part-" +:+ p +:+ "/subpart-" +:+ sp
  +:+ String "/" rest
  = "https://www.ecfr.gov/current/title-" +:+ pretty t' +:+ "/subtitle-"
    +:+ s' +:+ "/chapter-" +:+ c' +:+ "/part-" +:+ p' +:+ "/subpart-" +:+ sp'
    +:+ String "/" rest' →
  t = t' ∧ s = s' ∧ c = c' ∧ p = p' ∧ sp = sp' ∧ rest = rest'.
Proof.
  intros (Hs & Hc & Hp & Hsp) (Hs' & Hc' & Hp' & Hsp') H.
  apply app_string_inv_head in H.
  apply app_slash_inj in H as [Ht H]; try apply pretty_Z_no_slash.
  apply (inj pretty) in Ht.
  apply (app_string_inv_head "subtitle-") in H.
  apply app_slash_inj in H as [? H]; try done.
  apply (app_string_inv_head "chapter-") in H.
  apply app_slash_inj in H as [? H]; try done.
  apply (app_string_inv_head "part-") in H.
  apply app_slash_inj in H as [? H]; try done.
  apply (app_string_inv_head "subpart-") in H.
  apply app_slash_inj in H as [? H]; done.
Qed.

(** X20: when the codes of the subtitle, the chapter, the part and the
    subpart hold no slash, a deep link determines everything it was built
    from: two section links, or two appendix links, are equal only if the
    title numbers, the four codes and the leaf codes are equal. *)
Theorem deep_link_determines_codes
    (t t' : Z) (s c p sp x s' c' p' sp' x' : string) :
  link_codes_no_slash s c p sp → link_codes_no_slash s' c' p' sp' →
  get_ecfr_link_to_section t s c p sp x
    = get_ecfr_link_to_section t' s' c' p' sp' x'
  ∨ get_ecfr_link_to_appendix t s c p sp x
    = get_ecfr_link_to_appendix t' s' c' p' sp' x' →
  t = t' ∧ s = s' ∧ c = c' ∧ p = p' ∧ sp = sp' ∧ x = x'.
Proof.
  intros H1 H2 [H | H].
  - apply (link_codes_inj _ _ _ _ _ _ _ _ _ _ _ _ H1 H2) in H
      as (? & ? & ? & ? & ? & H).
    apply (app_string_inv_head "section-") in H. apply quote_inj in H. done.
  - apply (link_codes_inj _ _ _ _ _ _ _ _ _ _ _ _ H1 H2) in H
      as (? & ? & ? & ? & ? & H).
    apply (app_string_inv_head "appendix-") in H. apply quote_inj in H. done.
Qed.

Lemma deep_link_determines_codes_witness :
  (29 = 29 ∧ "A" = "A" ∧ "I" = "I" ∧ "1" = "1" ∧ "B" = "B" ∧ "7 a" = "7 a")
  %string.
Proof.
  apply (deep_link_determines_codes 29 29 "A" "I" "1" "B" "7 a"
           "A" "I" "1" "B" "7 a").
  - repeat split; apply no_slash_literal; vm_compute; reflexivity.
  - repeat split; apply no_slash_literal; vm_compute; reflexivity.
  - left. reflexivity.
Defined.

(** X21: a section and an appendix never share a deep link when the codes
    of their subtitles, chapters, parts and subparts hold no slash, whatever
    their own codes; with equal codes in one scope they share the file. *)
Theorem section_and_appendix_links_differ
    (t t' : Z) (s c p sp x s' c' p' sp' x' : string) :
  link_codes_no_slash s c p sp → link_codes_no_slash s' c' p' sp' →
  get_ecfr_link_to_section t s c p sp x
    ≠ get_ecfr_link_to_appendix t' s' c' p' sp' x'
  ∧ ∀ sc section appendix,
      N_of section = N_of appendix →
      leaf_file (sc, (IsSection, section))
      = leaf_file (sc, (IsAppendix, appendix)).
Proof.
  intros H1 H2. split.
  - intros H.
    apply (link_codes_inj _ _ _ _ _ _ _ _ _ _ _ _ H1 H2) in H
      as (_ & _ & _ & _ & _ & H).
    discriminate H.
  - intros sc section appendix H. unfold leaf_file. simpl. by rewrite H.
Qed.

Lemma section_and_appendix_links_differ_witness :
  get_ecfr_link_to_section 29 "A" "I" "1" "B" "1"
    ≠ get_ecfr_link_to_appendix 29 "A" "I" "1" "B" "1"
  ∧ ∀ sc section appendix,
      N_of section = N_of appendix →
      leaf_file (sc, (IsSection, section))
      = leaf_file (sc, (IsAppendix, appendix)).
Proof.
  apply (section_and_appendix_links_differ 29 29 "A" "I" "1" "B" "1"
           "A" "I" "1" "B" "1").
  - repeat split; apply no_slash_literal; vm_compute; reflexivity.
  - repeat split; apply no_slash_literal; vm_compute; reflexivity.
Defined.

Lemma quote_length (x : string) :
  (String.length x <= String.length (quote x))%nat.
Proof.
  induction x as [|a x IH]; simpl; [done |].
  rewrite app_string_length.
  destruct (quoter_head a) as [[_ ->] | [_ ->]]; simpl; lia.
Qed.

Lemma quote_safe (x : string) : quote x = x ↔ safe_code x = true.
Proof.
  unfold safe_code. induction x as [|a x IH]; simpl; [done |].
  rewrite andb_true_iff, <- IH.
  destruct (quoter_head a) as [[Ha ->] | [Ha ->]]; simpl.
  - split; [by intros [= ?] | by intros [_ ->]].
  - rewrite Ha. split; [| by intros [? _]].
    intros [= _ H]. apply (f_equal String.length) in H. simpl in H.
    pose proof (quote_length x). lia.
Qed.

(** X22: the deep link ends with the leaf code as it is exactly when every
    character of the code is a letter, a digit or one of [_.-~/]; any other
    character changes the code in the link. *)
Theorem link_keeps_safe_code (t : Z) (s c p sp x : string) :
  (get_ecfr_link_to_section t s c p sp x
   = "https://www.ecfr.gov/current/title-" +:+ pretty t +:+ "/subtitle-"
     +:+ s +:+ "/chapter-" +:+ c +:+ "/part-" +:+ p +:+ "/subpart-" +:+ sp
     +:+ "/section-" +:+ x
   ↔ safe_code x = true)
  ∧ (get_ecfr_link_to_appendix t s c p sp x
     = "https://www.ecfr.gov/current/title-" +:+ pretty t +:+ "/subtitle-"
       +:+ s +:+ "/chapter-" +:+ c +:+ "/part-" +:+ p +:+ "/subpart-" +:+ sp
       +:+ "/appendix-" +:+ x
     ↔ safe_code x = true).
Proof.
  rewrite <- quote_safe.
  split; (split; [intros H; by repeat apply app_string_inv_head in H |]).
  - unfold get_ecfr_link_to_section. by intros ->.
  - unfold get_ecfr_link_to_appendix. by intros ->.
Qed.

(** X23: the deep link does not tell the subchapter: the documents of one
    leaf code in two subchapters of one chapter, under parts and subparts
    of the same codes, carry the same link, and, when no code holds a
    slash, are written to different files. *)
Theorem link_ignores_subchapter
    (sc : Scope) (code : string) (leaf : leaf_kind * tag) :
  scope_no_slash sc → no_slash code → no_slash (N_of (snd leaf)) →
  code ≠ subchapter_number sc →
  leaf_link (in_subchapter sc code) leaf = leaf_link sc leaf
  ∧ leaf_file (in_subchapter sc code, leaf) ≠ leaf_file (sc, leaf).
Proof.
  intros Hsc Hcode Hn Hne. split; [done |].
  unfold leaf_file. simpl. intros H.
  apply document_file_inj in H as [[= H] _]; try done.
  destruct Hsc as (? & ? & ? & ? & ?). by repeat split.
Qed.

Lemma link_ignores_subchapter_witness :
  leaf_link (in_subchapter single_scope "D") (IsSection, purpose_section)
  = leaf_link single_scope (IsSection, purpose_section)
  ∧ leaf_file (in_subchapter single_scope "D", (IsSection, purpose_section))
    ≠ leaf_file (single_scope, (IsSection, purpose_section)).
Proof.
  apply (link_ignores_subchapter single_scope "D"
           (IsSection, purpose_section)).
  - repeat split; apply no_slash_literal; vm_compute; reflexivity.
  - apply no_slash_literal; vm_compute; reflexivity.
  - apply no_slash_literal; vm_compute; reflexivity.
  - discriminate.
Defined.

End LinkCodes.

(** * A cached title, from the file to the documents *)

Section CachedTitle.

(** X24: with the XML of the title in the cache, a parser that gives a
    document the walk can go through and a file system fit for the
    documents, the whole run returns: it sends no request, writes the
    document of every leaf of the walk, in the order of the loops, and
    leaves the cached text as it was. *)
Theorem cached_title_is_parsed
    (BeautifulSoup : string → tag) (t : Z) (w : World) (data : string) :
  files (fs w) !! cache_file t = Some data →
  walkable (BeautifulSoup data) = true →
  fs_ready (fs w) →
  ∃ w', fetch_and_parse_cfr_xml BeautifulSoup t w = (w', Ret tt)
        ∧ requests w' = requests w
        ∧ written w'
          = written w ++ map leaf_write (walk_leaves (BeautifulSoup data) t)
        ∧ files (fs w') !! cache_file t = Some data.
Proof.
  intros Hhit Hwalk Hfs.
  destruct (succeeds_walk _ t Hwalk (after_cache_hit t w) Hfs)
    as (w' & Hrun & _).
  exists w'. unfold fetch_and_parse_cfr_xml, bind.
  rewrite (load_xml_hit _ _ _ Hhit). split; [done |].
  destruct (respects_walk _ _ _ _ _ Hrun) as (Hreq & _).
  split; [done |]. split.
  - by apply walk_written in Hrun.
  - rewrite (walk_files _ _ _ _ _ Hrun), apply_writes_other; [done |].
    rewrite <- list_fmap_compose. apply leaf_file_not_cache.
Qed.

Lemma cached_title_is_parsed_witness :
  ∃ w', fetch_and_parse_cfr_xml fixed_parser 29 cached_world = (w', Ret tt)
        ∧ requests w' = requests cached_world
        ∧ written w'
          = written cached_world
            ++ map leaf_write (walk_leaves (fixed_parser served_xml) 29)
        ∧ files (fs w') !! cache_file 29 = Some served_xml.
Proof.
  apply (cached_title_is_parsed fixed_parser 29 cached_world served_xml).
  - vm_compute. reflexivity.
  - vm_compute. reflexivity.
  - split.
    + apply map_Forall_singleton. discriminate.
    + intros q Hq. simpl in Hq. apply elem_of_singleton in Hq as ->.
      discriminate.
Defined.

End CachedTitle.

(** * More on the renderer and on the descriptions *)

Section Headings.

Lemma find_all_children (nm n : string) (a : gmap string string)
    (pre post : list node) (c : tag) :
  Soup.find_all nm (Tag n a (pre ++ Element c :: post))
  = (Soup.find_all nm (Tag n a pre)
     ++ (if decide (Soup.name c = nm) then [c] else [])
     ++ Soup.find_all nm c ++ Soup.find_all nm (Tag n a post))%list.
Proof.
  unfold Soup.find_all. cbn [Soup.descendants].
  rewrite flat_map_app. cbn [flat_map].
  rewrite !filter_app, filter_cons. by destruct (decide (Soup.name c = nm)).
Qed.

Lemma find_all_absent (nm : string) (t : tag) :
  Forall (fun d => Soup.name d ≠ nm) (Soup.descendants t) →
  Soup.find_all nm t = [].
Proof.
  unfold Soup.find_all. induction 1 as [|d l Hd _ IH]; [done |].
  rewrite filter_cons. by destruct (decide (Soup.name d = nm)).
Qed.

(** X25: a tag that holds no [HEAD] of its own takes its heading from
    below: when the first [HEAD] in document order lies inside a child,
    the title the renderer prints and the description the walk records
    are the text of the heading of that child. *)
Theorem heading_taken_from_below
    (n : string) (a : gmap string string) (pre post : list node)
    (c h : tag) :
  Forall (fun d => Soup.name d ≠ "HEAD"%string)
         (Soup.descendants (Tag n a pre)) →
  Soup.name c ≠ "HEAD"%string →
  Soup.find "HEAD" c = Some h →
  title (Tag n a (pre ++ Element c :: post)) = title c
  ∧ description (Tag n a (pre ++ Element c :: post)) = description c
  ∧ title c = Soup.string_of h.
Proof.
  intros Hpre Hc Hh.
  assert (E : Soup.find "HEAD" (Tag n a (pre ++ Element c :: post)) = Some h).
  { unfold Soup.find in *. rewrite find_all_children.
    rewrite (find_all_absent _ _ Hpre). rewrite decide_False by done.
    simpl. by destruct (Soup.find_all "HEAD" c). }
  unfold title, description. by rewrite E, Hh.
Qed.

Lemma heading_taken_from_below_witness :
  title headless_subpart = title purpose_section
  ∧ description headless_subpart = description purpose_section
  ∧ title purpose_section = Some "Purpose"%string.
Proof.
  apply (heading_taken_from_below "DIV6" {[ "N" := "C" ]}%string [] []
           purpose_section (Tag "HEAD" ∅ [NavigableString "Purpose"])).
  - constructor.
  - discriminate.
  - reflexivity.
Defined.

Lemma join_nonempty (sep p : string) (rest : list string) :
  p ≠ ""%string → Str.join sep (p :: rest) ≠ ""%string.
Proof.
  intros Hp. destruct p as [|x p]; [done |]. by destruct rest.
Qed.

(** X26: the body of the rendered text is empty exactly when the element
    holds no [P] at all: a paragraph without text still gives a line
    feed. *)
Theorem body_empty_iff_no_paragraph (element : tag) :
  CFRToMd.text element = ""%string ↔ Soup.find_all "P" element = [].
Proof.
  unfold CFRToMd.text, paragraphs.
  destruct (Soup.find_all "P" element) as [|p ps]; [done |].
  split; [| done]. intros H. exfalso. revert H. cbn [map].
  apply join_nonempty.
  destruct (Soup.string_of p) as [[|x s] |]; by simpl.
Qed.

End Headings.

(** * The text of the documents *)

Section PlainText.

Lemma plain_app (a b : string) :
  plain_text (a +:+ b) = plain_text a && plain_text b.
Proof. unfold plain_text. by rewrite chars_app, forallb_app. Qed.

Lemma plain_hex_lower (n : N) : (n < 16)%N → printable (Json.hex_lower n) = true.
Proof.
  intros H.
  assert (Hc : n ∈ (N.of_nat <$> seq 0 16)).
  { apply list_elem_of_fmap. exists (N.to_nat n). split; [lia |].
    apply list_elem_of_In, in_seq. lia. }
  simpl in Hc. set_unfold. by destruct_or!; subst n.
Qed.

Lemma land_15 (n : N) : (N.land n 15 < 16)%N.
Proof.
  change 15%N with (N.ones 4). rewrite N.land_ones. by apply N.mod_lt.
Qed.

Lemma plain_u_escape (n : N) : plain_text (Json.u_escape n) = true.
Proof.
  unfold Json.u_escape, plain_text. cbn [Str.chars list_ascii_of_string forallb].
  rewrite !plain_hex_lower by apply land_15. reflexivity.
Qed.

Lemma plain_escape (n : N) : plain_text (Json.escape n) = true.
Proof.
  unfold Json.escape. repeat case_match; try reflexivity.
  - unfold plain_text, printable. cbn [Str.chars list_ascii_of_string forallb].
    match goal with
    | H : _ && _ = true |- _ =>
        pose proof H as [_ Hn%N.leb_le]%andb_true_iff;
        rewrite N_ascii_embedding by lia; rewrite H
    end.
    by rewrite orb_true_r.
  - apply plain_u_escape.
  - by rewrite plain_app, !plain_u_escape.
Qed.

Lemma plain_encode_string (s : string) :
  plain_text (Json.encode_string s) = true.
Proof.
  unfold Json.encode_string.
  change (String Json.DQUOTE ?r) with (String Json.DQUOTE "" +:+ r).
  rewrite plain_app. simpl.
  induction (Json.code_points s) as [|n l IH]; simpl; [done |].
  by rewrite plain_app, plain_escape, IH.
Qed.

Lemma plain_pretty_N_go (x : N) (s : string) :
  plain_text s = true → plain_text (pretty_N_go x s) = true.
Proof.
  revert s. induction (N.lt_wf_0 x) as [x _ IH]; intros s Hs.
  assert (x = 0 ∨ 0 < x)%N as [-> | Hx] by lia.
  - by rewrite pretty_N_go_0.
  - rewrite pretty_N_go_step by done. apply IH; [by apply N.div_lt |].
    unfold plain_text in *. simpl. rewrite Hs, andb_true_r.
    unfold pretty_N_char. by repeat case_match.
Qed.

Lemma plain_pretty_Z (z : Z) : plain_text (pretty z) = true.
Proof.
  assert (HN : ∀ x : N, plain_text (pretty x) = true).
  { intros x. unfold pretty, pretty_N. case_decide; [done |].
    by apply plain_pretty_N_go. }
  destruct z as [|p|p]; unfold pretty, pretty_Z; [done | apply HN |].
  rewrite plain_app. apply andb_true_iff. split; [done | apply HN].
Qed.

Lemma plain_spaces (n : nat) : plain_text (Json.spaces n) = true.
Proof. induction n as [|n IH]; [done | exact IH]. Qed.

Lemma plain_join (sep : string) (parts : list string) :
  plain_text sep = true → Forall (fun p => plain_text p = true) parts →
  plain_text (Str.join sep parts) = true.
Proof.
  intros Hsep. induction 1 as [|p rest Hp Hrest IH]; [done |].
  destruct rest as [|q rest]; [done |].
  change (Str.join sep (p :: q :: rest))
    with (p +:+ sep +:+ Str.join sep (q :: rest)).
  by rewrite !plain_app, Hp, Hsep, IH.
Qed.

(** The text of [json.dumps] is in ASCII, whatever the value. *)
Lemma plain_encode (indent : nat) :
  ∀ (v : json) (level : nat), plain_text (Json.encode indent level v) = true.
Proof.
  fix IH 1. intros [| z | s | items] level.
  - reflexivity.
  - apply plain_pretty_Z.
  - apply plain_encode_string.
  - destruct items as [|kv items]; [reflexivity |].
    assert (Hitems :
      Forall (fun p => plain_text p = true)
        (map (fun kv => Json.encode_string (fst kv) +:+ ": "
                        +:+ Json.encode indent (S level) (snd kv))
             (kv :: items))).
    { generalize (kv :: items). clear kv items.
      fix IHl 1. intros [|[k v] l]; [constructor |].
      cbn [map]. constructor; [| apply IHl].
      cbn [fst snd]. by rewrite !plain_app, plain_encode_string, IH. }
    change (Json.encode indent level (JObj (kv :: items)))
      with ("{" +:+ (LF +:+ Json.spaces (indent * S level))
            +:+ Str.join ("," +:+ (LF +:+ Json.spaces (indent * S level)))
                  (map (fun kv => Json.encode_string (fst kv) +:+ ": "
                                  +:+ Json.encode indent (S level) (snd kv))
                       (kv :: items))
            +:+ LF +:+ Json.spaces (indent * level) +:+ "}").
    rewrite !plain_app, !plain_spaces, plain_join; [done | | done].
    by rewrite !plain_app, plain_spaces.
Qed.

(** X27: every text a walk writes is in ASCII, made of line feeds and of
    the characters from the space to the tilde, whatever the characters of
    the title: [json.dumps] escapes the others. *)
Theorem documents_are_ascii
    (root : tag) (t : Z) (w w' : World) (r : result unit) :
  walk root t w = (w', r) →
  ∃ ws, written w' = written w ++ ws
        ∧ Forall (fun pw => plain_text (snd pw) = true) ws.
Proof.
  intros (H & _ & _)%walk_outcome. eexists. split; [exact H |].
  apply Forall_fmap, Forall_true. intros e. apply plain_encode.
Qed.

Lemma documents_are_ascii_witness :
  ∃ ws, written (fst (walk accented_title 29 fresh_world))
        = written fresh_world ++ ws
        ∧ Forall (fun pw => plain_text (snd pw) = true) ws.
Proof.
  apply (documents_are_ascii accented_title 29 fresh_world _
           (snd (walk accented_title 29 fresh_world))).
  apply surjective_pairing.
Defined.

End PlainText.
